(** * meme-trader: the position life cycle of [bot.py]

    A shallow embedding of the handlers of [bot.py] -- [buy] (a pair was
    created on the exchange), [pnl] (a new block arrived), and the
    start-up and shutdown hooks [load_state] and
    [transfer_all_to_backup] -- together with the properties of the
    position store they maintain.

    Python values are modelled as follows:
    - [int] is [Z] (unbounded);
    - [float] is an IEEE-754 binary64 value, [spec_float] at precision 53
      and maximal exponent 1024, with Python's exceptions for division by
      zero and for conversions written out;
    - [str] (symbols, names, addresses) is [string];
    - [dict] is an insertion-ordered association list with unique keys;
    - an exception is a value of [exn], carried by [pyresult].

    The collaborators (chain reads, transactions, the sentiment model) are
    fields of a record [World] over an abstract chain state. Every call to
    a collaborator, every [print] and every mutation of [bot.state.buys]
    is recorded, in order, in the list of events a handler emits. *)

From Stdlib Require Import ZArith List String Bool Lia.
From Stdlib Require Import Floats.SpecFloat.
Import ListNotations.

Local Open Scope string_scope.
Local Open Scope list_scope.
Local Open Scope Z_scope.

(** ** Python exceptions and results *)

Inductive exn : Type :=
| ZeroDivisionError
| OverflowError
| ValueError
| TypeError
| KeyError (key : string)
| TransactionError (msg : string)
| CollaboratorError (msg : string).

Inductive pyresult (A : Type) : Type :=
| Ok (a : A)
| Raise (e : exn).

Arguments Ok {A} a.
Arguments Raise {A} e.

(** ** Python floats *)

Module PyFloat.

Definition prec : Z := 53.
Definition emax : Z := 1024.

Definition float : Type := spec_float.

Definition zero : float := S754_zero false.

Definition is_finite (x : float) : bool :=
  match x with
  | S754_zero _ | S754_finite _ _ _ => true
  | _ => false
  end.

(** [float(n)] for an [int]: correctly rounded, [OverflowError] when the
    integer is beyond the range of a double. *)
Definition of_int (n : Z) : pyresult float :=
  let x := binary_normalize prec emax n 0 false in
  if is_finite x then Ok x else Raise OverflowError.

(** [a / b] on two [int]s: true division, the exact quotient rounded
    once to the nearest double. *)
Definition int_truediv (a b : Z) : pyresult float :=
  if b =? 0 then Raise ZeroDivisionError
  else
    let negate := xorb (a <? 0) (b <? 0) in
    if a =? 0 then Ok (S754_zero negate)
    else
      let '(mz, ez, lz) :=
        SFdiv_core_binary prec emax (Z.abs a) 0 (Z.abs b) 0 in
      let x := binary_round_aux prec emax negate mz ez lz in
      if is_finite x then Ok x else Raise OverflowError.

Definition add (x y : float) : float := SFadd prec emax x y.
Definition sub (x y : float) : float := SFsub prec emax x y.
Definition mul (x y : float) : float := SFmul prec emax x y.

Definition eqb (x y : float) : bool := SFeqb x y.
Definition ltb (x y : float) : bool := SFltb x y.
Definition gtb (x y : float) : bool := SFltb y x.

(** [x / y] on floats raises on a zero divisor of either sign. *)
Definition truediv (x y : float) : pyresult float :=
  if eqb y zero then Raise ZeroDivisionError
  else Ok (SFdiv prec emax x y).

(** [int(x)]: truncation toward zero. *)
Definition to_int (x : float) : pyresult Z :=
  match x with
  | S754_zero _ => Ok 0
  | S754_nan => Raise ValueError
  | S754_infinity _ => Raise OverflowError
  | S754_finite s m e =>
      let mag :=
        match e with
        | Zneg p => Z.shiftr (Zpos m) (Zpos p)
        | _ => Z.shiftl (Zpos m) e
        end in
      Ok (if s then - mag else mag)
  end.

End PyFloat.

Import PyFloat.

Arguments of_int : simpl never.
Arguments int_truediv : simpl never.
Arguments add : simpl never.
Arguments sub : simpl never.
Arguments mul : simpl never.
Arguments eqb : simpl never.
Arguments ltb : simpl never.
Arguments gtb : simpl never.
Arguments truediv : simpl never.
Arguments to_int : simpl never.

(** The literals of [bot.py], each the double nearest to its decimal. *)
Definition f_1000 : float := S754_finite false 8796093022208000 (-43).
Definition f_99 : float := S754_finite false 6966505673588736 (-46).
Definition f_100 : float := S754_finite false 7036874417766400 (-46).
Definition f_0_995 : float := S754_finite false 8962163258467287 (-53).
Definition f_0_95 : float := S754_finite false 8556839292003942 (-53).

(** ** Python dictionaries

    Insertion-ordered, keyed by strings. Assigning to a key that is
    present keeps its place; assigning to a new key appends. *)

Section Dict.
Context {V : Type}.

Definition dict : Type := list (string * V).

Fixpoint dict_get (k : string) (d : dict) : option V :=
  match d with
  | [] => None
  | (k', v) :: d' => if String.eqb k k' then Some v else dict_get k d'
  end.

Fixpoint dict_set (k : string) (v : V) (d : dict) : dict :=
  match d with
  | [] => [(k, v)]
  | (k', v') :: d' =>
      if String.eqb k k' then (k, v) :: d' else (k', v') :: dict_set k v d'
  end.

Fixpoint dict_remove (k : string) (d : dict) : dict :=
  match d with
  | [] => []
  | (k', v) :: d' =>
      if String.eqb k k' then d' else (k', v) :: dict_remove k d'
  end.

(** [d.pop(k)]: the value and the remaining dictionary, [KeyError] when
    the key is absent. *)
Definition dict_pop (k : string) (d : dict) : pyresult (V * dict) :=
  match dict_get k d with
  | Some v => Ok (v, dict_remove k d)
  | None => Raise (KeyError k)
  end.

Definition dict_keys (d : dict) : list string := map fst d.

Definition dict_wf (d : dict) : Prop := NoDup (dict_keys d).

End Dict.

Arguments dict V : clear implicits.

(** ** Data model *)

Definition address : Type := string.

(** [class Buy(BaseModel)]. [bought_at] is a timestamp in seconds. *)
Record Buy : Type := mkBuy {
  price : float;
  amount : Z;
  bought_at : Z;
  token_address : address;
  pair_address : address
}.

(** The fields of a [PairCreated] log the handler reads. *)
Record PairCreated : Type := mkPairCreated {
  token0 : address;
  token1 : address;
  pair : address
}.

Record Block : Type := mkBlock { timestamp : Z }.

(** The commands of a router plan, as [uniswap_sdk.Plan] encodes them. *)
Inductive URConst : Type := ADDRESS_THIS | MSG_SENDER.

Inductive Command : Type :=
| WRAP_ETH (recipient : URConst) (amount_min : Z)
| UNWRAP_WETH (recipient : URConst) (amount_min : Z)
| APPROVE_ERC20 (token spender : address)
| V2_SWAP_EXACT_IN (recipient : URConst) (amount_in amount_out_min : Z)
                   (path : list address) (payer_is_user : bool).

Definition Plan : Type := list Command.

Definition plan_add (p : Plan) (c : Command) : Plan := p ++ [c].

(** What the handlers read off a transaction receipt. *)
Record Receipt : Type := mkReceipt {
  failed : bool;
  error : option string
}.

(** ** Events *)

Inductive ChainRead : Type :=
| RSymbol (token : address)
| RDecimals (token : address)
| RName (token : address)
| RGetReserves (pool : address)
| RMulticall (pools : list address)
| RBalanceOf (token owner : address)
| RAllowance (token owner spender : address)
| RBalance (account : address).

Inductive LogLine : Type :=
| LogNoBuys
| LogBought (qty : float) (symbol : string) (buy_price : float)
| LogPnl (symbol : string) (percent : float)
| LogNoBalance (symbol : string)
| LogSelling (qty : float) (symbol : string)
| LogTrace
| LogMade (profit : Z) (count : nat).

Inductive Event : Type :=
| EvPrint (l : LogLine)
| EvRead (c : ChainRead)
| EvSentiment (name symbol : string)
| EvApprove (token spender : address) (value : Z) (sender : address)
| EvExecute (p : Plan) (deadline : Z) (sender : address) (value : Z)
            (r : pyresult Receipt)
| EvStoreSet (symbol : string) (b : Buy)
| EvStorePop (symbol : string).

(** A transaction is an event that changes the chain. *)
Definition is_transaction (e : Event) : bool :=
  match e with
  | EvApprove _ _ _ _ | EvExecute _ _ _ _ _ => true
  | _ => false
  end.

(** A call that leaves the process: a chain read, a transaction or a
    request to the sentiment model. *)
Definition is_external (e : Event) : bool :=
  match e with
  | EvRead _ | EvSentiment _ _ | EvApprove _ _ _ _ | EvExecute _ _ _ _ _ => true
  | _ => false
  end.

(** ** Collaborators and configuration *)

Record World (Chain : Type) : Type := mkWorld {
  (* configuration read at import time *)
  WETH : address;
  signer : option address;
  router_contract : address;
  (* wall clock, in seconds *)
  utc_now : Z;
  (* ERC-20 and pool views *)
  erc20_symbol : Chain -> address -> string;
  erc20_name : Chain -> address -> string;
  erc20_decimals : Chain -> address -> N;
  erc20_balanceOf : Chain -> address -> address -> Z;
  erc20_allowance : Chain -> address -> address -> address -> Z;
  getReserves : Chain -> address -> Z * Z * Z;
  account_balance : Chain -> address -> Z;
  (* transactions *)
  erc20_approve : Chain -> address -> address -> Z -> address -> Chain;
  router_execute :
    Chain -> Plan -> Z -> address -> Z -> pyresult Receipt * Chain;
  (* [float(response.content[0].text)] for the request on (name, symbol) *)
  sentiment : string -> string -> pyresult float
}.

Arguments WETH {Chain} w.
Arguments signer {Chain} w.
Arguments router_contract {Chain} w.
Arguments utc_now {Chain} w.
Arguments erc20_symbol {Chain} w.
Arguments erc20_name {Chain} w.
Arguments erc20_decimals {Chain} w.
Arguments erc20_balanceOf {Chain} w.
Arguments erc20_allowance {Chain} w.
Arguments getReserves {Chain} w.
Arguments account_balance {Chain} w.
Arguments erc20_approve {Chain} w.
Arguments router_execute {Chain} w.
Arguments sentiment {Chain} w.

(** The mutable state a handler runs on: [bot.state.buys] and the chain. *)
Record State (Chain : Type) : Type := mkState {
  buys : dict Buy;
  chain : Chain
}.

Arguments mkState {Chain} buys chain.
Arguments buys {Chain} s.
Arguments chain {Chain} s.

(** ** The handler monad

    A handler runs on a [State] and yields a value or an exception, the
    state it leaves behind (mutations made before an exception persist)
    and the events it emitted, oldest first. *)

Section Handlers.
Context {Chain : Type} (W : World Chain).

Definition M (A : Type) : Type :=
  State Chain -> pyresult A * State Chain * list Event.

Definition ret {A} (a : A) : M A := fun s => (Ok a, s, []).

Definition bind {A B} (m : M A) (f : A -> M B) : M B :=
  fun s =>
    match m s with
    | (Ok a, s1, ev1) =>
        let '(r, s2, ev2) := f a s1 in (r, s2, ev1 ++ ev2)
    | (Raise e, s1, ev1) => (Raise e, s1, ev1)
    end.

Definition lift {A} (r : pyresult A) : M A := fun s => (r, s, []).

Definition emit (e : Event) : M unit := fun s => (Ok tt, s, [e]).

Definition print (l : LogLine) : M unit := emit (EvPrint l).

Definition get_buys : M (dict Buy) := fun s => (Ok (buys s), s, []).

(** A view call on the current chain state. *)
Definition read {A} (c : ChainRead) (f : Chain -> A) : M A :=
  fun s => (Ok (f (chain s)), s, [EvRead c]).

(** [bot.state.buys[symbol] = b] *)
Definition store_set (symbol : string) (b : Buy) : M unit :=
  fun s =>
    (Ok tt, mkState (dict_set symbol b (buys s)) (chain s),
     [EvStoreSet symbol b]).

(** [bot.state.buys.pop(symbol)] *)
Definition store_pop (symbol : string) : M Buy :=
  fun s =>
    match dict_pop symbol (buys s) with
    | Ok (b, d) => (Ok b, mkState d (chain s), [EvStorePop symbol])
    | Raise e => (Raise e, s, [])
    end.

(** [pair.approve(spender, value, sender=..., required_confirmations=0)] *)
Definition approve (token spender : address) (value : Z) (sender : address)
  : M unit :=
  fun s =>
    (Ok tt,
     mkState (buys s) (erc20_approve W (chain s) token spender value sender),
     [EvApprove token spender value sender]).

(** [router.execute(plan, deadline=..., sender=..., value=...)] *)
Definition execute (p : Plan) (deadline : Z) (sender : address) (value : Z)
  : M Receipt :=
  fun s =>
    let '(r, c) := router_execute W (chain s) p deadline sender value in
    (r, mkState (buys s) c, [EvExecute p deadline sender value r]).

(** The request to the sentiment model and the parse of its reply. *)
Definition ask_sentiment (name symbol : string) : M float :=
  fun s => (sentiment W name symbol, s, [EvSentiment name symbol]).

End Handlers.

Declare Scope monad_scope.
Delimit Scope monad_scope with monad.

Notation "x <- m ;; k" := (bind m (fun x => k))
  (at level 61, m at next level, right associativity) : monad_scope.
Notation "' pat <- m ;; k" := (bind m (fun x => match x with pat => k end))
  (at level 61, pat pattern, m at next level, right associativity)
  : monad_scope.
Notation "m ;; k" := (bind m (fun _ => k))
  (at level 61, right associativity) : monad_scope.

Local Open Scope monad_scope.

(** Mixed arithmetic: the [int] operand is converted first. *)
Definition float_mul_int (x : float) (n : Z) : pyresult float :=
  match of_int n with
  | Ok y => Ok (mul x y)
  | Raise e => Raise e
  end.

Definition float_div_int (x : float) (n : Z) : pyresult float :=
  match of_int n with
  | Ok y => truediv x y
  | Raise e => Raise e
  end.

(** [2**256 - 1], the unlimited allowance. *)
Definition MAX_UINT256 : Z := 2 ^ 256 - 1.

(** [10 ** decimals] *)
Definition pow10 (decimals : N) : Z := 10 ^ Z.of_N decimals.

(** [(current_price - buy.price) / buy.price] *)
Definition position_pnl (current_price entry_price : float) : pyresult float :=
  truediv (sub current_price entry_price) entry_price.

(** [raise tx.error]; raising [None] is a [TypeError]. *)
Definition raise_error (tx : Receipt) : exn :=
  match error tx with
  | Some msg => TransactionError msg
  | None => TypeError
  end.

Arguments float_mul_int : simpl never.
Arguments float_div_int : simpl never.
Arguments pow10 : simpl never.
Arguments position_pnl : simpl never.

(** ** The handlers of [bot.py] *)

Section Bot.
Context {Chain : Type} (W : World Chain).

(** *** [buy]: a pair was created *)

Definition buy (log : PairCreated) : @M Chain (option (dict float)) :=
  if negb (String.eqb (token0 log) (WETH W)) then ret None
  else
    let token := token1 log in
    symbol <- read (RSymbol token) (fun c => erc20_symbol W c token) ;;
    decimals <- read (RDecimals token) (fun c => erc20_decimals W c token) ;;
    '(reserve0, reserve1, _) <-
      read (RGetReserves (pair log)) (fun c => getReserves W c (pair log)) ;;
    current_price <- lift (int_truediv reserve0 reserve1) ;;
    name <- read (RName token) (fun c => erc20_name W c token) ;;
    ratio <- ask_sentiment W name symbol ;;
    if eqb ratio zero then ret None
    else
      match signer W with
      | None =>
          store_set symbol
            (mkBuy current_price (pow10 decimals) (utc_now W)
                   token (pair log)) ;;
          ret None
      | Some account =>
          balance <-
            read (RBalance account) (fun c => account_balance W c account) ;;
          scaled <- lift (float_mul_int ratio balance) ;;
          purchase_amount <- lift (to_int scaled) ;;
          floor <-
            lift (float_mul_int (mul f_0_995 current_price) purchase_amount) ;;
          amount_out_min <- lift (to_int floor) ;;
          let plan :=
            plan_add
              (plan_add [] (WRAP_ETH ADDRESS_THIS purchase_amount))
              (V2_SWAP_EXACT_IN MSG_SENDER purchase_amount amount_out_min
                                [WETH W; token] false) in
          let deadline := utc_now W + 120 in
          execute W plan deadline account purchase_amount ;;
          token_balance <-
            read (RBalanceOf token account)
                 (fun c => erc20_balanceOf W c token account) ;;
          qty <- lift (int_truediv token_balance (pow10 decimals)) ;;
          buy_price <- lift (float_div_int qty purchase_amount) ;;
          print (LogBought qty symbol buy_price) ;;
          store_set symbol
            (mkBuy buy_price purchase_amount (utc_now W) token (pair log)) ;;
          ret (Some [(symbol, buy_price)])
      end.

(** *** [pnl]: a block arrived *)

(** The accumulators of the classification loop: [current_prices],
    [tokens_to_swap], [tokens_to_drop]. *)
Definition Marks : Type := dict float * dict address * list string.

(** The body of [for symbol, (reserve0, reserve1, _) in zip(...)]. *)
Fixpoint classify (items : list (string * (Z * Z * Z))) (acc : Marks)
  : @M Chain Marks :=
  match items with
  | [] => ret acc
  | (symbol, (reserve0, reserve1, _)) :: rest =>
      let '(current_prices, tokens_to_swap, tokens_to_drop) := acc in
      current_price <- lift (int_truediv reserve0 reserve1) ;;
      let current_prices := dict_set symbol current_price current_prices in
      store <- get_buys ;;
      match dict_get symbol store with
      | Some b =>
          p <- lift (position_pnl current_price (price b)) ;;
          print (LogPnl symbol (mul f_100 p)) ;;
          if gtb p f_1000 then
            classify rest
              (current_prices,
               dict_set symbol (token_address b) tokens_to_swap,
               tokens_to_drop)
          else if ltb p f_99 then
            classify rest
              (current_prices, tokens_to_swap, tokens_to_drop ++ [symbol])
          else
            classify rest (current_prices, tokens_to_swap, tokens_to_drop)
      | None =>
          classify rest (current_prices, tokens_to_swap, tokens_to_drop)
      end
  end.

(** The batched price read and the classification of every position. *)
Definition evaluate : @M Chain Marks :=
  store <- get_buys ;;
  let pools := map (fun kv => pair_address (snd kv)) store in
  results <-
    read (RMulticall pools) (fun c => map (getReserves W c) pools) ;;
  classify (combine (dict_keys store) results) ([], [], []).

(** [for symbol in tokens_to_drop: bot.state.buys.pop(symbol)] *)
Fixpoint drop_all (symbols : list string) : @M Chain unit :=
  match symbols with
  | [] => ret tt
  | symbol :: rest => store_pop symbol ;; drop_all rest
  end.

(** [for symbol, token in tokens_to_swap.items()] *)
Fixpoint sell_all (account : address) (items : list (string * address))
         (plan : Plan) (current_prices : dict float)
  : @M Chain (Plan * dict float) :=
  match items with
  | [] => ret (plan, current_prices)
  | (symbol, token) :: rest =>
      b <- store_pop symbol ;;
      held <-
        read (RBalanceOf token account)
             (fun c => erc20_balanceOf W c token account) ;;
      if held =? 0 then
        print (LogNoBalance symbol) ;;
        sell_all account rest plan current_prices
      else
        token_balance <-
          read (RBalanceOf token account)
               (fun c => erc20_balanceOf W c token account) ;;
        allowed <-
          read (RAllowance (pair_address b) account (router_contract W))
               (fun c => erc20_allowance W c (pair_address b) account
                           (router_contract W)) ;;
        (if allowed <? token_balance then
           approve W (pair_address b) (router_contract W) MAX_UINT256
                   account
         else ret tt) ;;
        let plan := plan_add plan (APPROVE_ERC20 token (pair_address b)) in
        scaled <- lift (float_mul_int f_0_95 token_balance) ;;
        '(current_price, current_prices) <-
          lift (dict_pop symbol current_prices) ;;
        floor <- lift (truediv scaled current_price) ;;
        amount_out_min <- lift (to_int floor) ;;
        let plan :=
          plan_add plan
            (V2_SWAP_EXACT_IN ADDRESS_THIS token_balance amount_out_min
                              [token; WETH W] true) in
        decimals <-
          read (RDecimals token) (fun c => erc20_decimals W c token) ;;
        qty <- lift (int_truediv token_balance (pow10 decimals)) ;;
        print (LogSelling qty symbol) ;;
        sell_all account rest plan current_prices
  end.

(** The batched exit: build the plan, submit it, report the profit. *)
Definition close_all (blk : Block) (account : address)
           (tokens_to_swap : dict address) (current_prices : dict float)
  : @M Chain (option (dict float)) :=
  '(plan, current_prices) <-
    sell_all account tokens_to_swap [] current_prices ;;
  let plan := plan_add plan (UNWRAP_WETH MSG_SENDER 0) in
  let deadline := timestamp blk + 120 in
  starting_balance <-
    read (RBalance account) (fun c => account_balance W c account) ;;
  tx <- execute W plan deadline account 0 ;;
  if failed tx then
    print LogTrace ;;
    lift (Raise (raise_error tx))
  else
    balance <-
      read (RBalance account) (fun c => account_balance W c account) ;;
    print (LogMade (balance - starting_balance) (List.length tokens_to_swap)) ;;
    ret (Some current_prices).

Definition pnl (blk : Block) : @M Chain (option (dict float)) :=
  store <- get_buys ;;
  if (List.length store =? 0)%nat then
    print LogNoBuys ;;
    ret None
  else
    '(current_prices, tokens_to_swap, tokens_to_drop) <- evaluate ;;
    drop_all tokens_to_drop ;;
    match signer W, tokens_to_swap with
    | None, _ => ret (Some current_prices)
    | Some _, [] => ret (Some current_prices)
    | Some account, _ :: _ =>
        close_all blk account tokens_to_swap current_prices
    end.

End Bot.

(** ** Observations on a run *)

Section Observations.
Context {Chain : Type} (W : World Chain).

(** The symbol and the name the handler reads for the event's token. *)
Definition symbol_of (log : PairCreated) (s : State Chain) : string :=
  erc20_symbol W (chain s) (token1 log).

Definition name_of (log : PairCreated) (s : State Chain) : string :=
  erc20_name W (chain s) (token1 log).

End Observations.

(** The events of an evaluation: chain reads and profit-or-loss lines. *)
Definition quiet (e : Event) : bool :=
  match e with
  | EvPrint (LogPnl _ _) | EvRead _ => true
  | _ => false
  end.

(** The symbols popped from the store, in order. *)
Definition pops (ev : list Event) : list string :=
  flat_map (fun e => match e with EvStorePop k => [k] | _ => [] end) ev.

(** The symbols announced as being sold, in order. *)
Definition selling (ev : list Event) : list string :=
  flat_map
    (fun e => match e with EvPrint (LogSelling _ k) => [k] | _ => [] end) ev.

(** The symbols skipped for want of a balance, in order. *)
Definition skipped (ev : list Event) : list string :=
  flat_map
    (fun e => match e with EvPrint (LogNoBalance k) => [k] | _ => [] end) ev.

(** The token sold by each swap command of a plan, in order. *)
Definition swapped_tokens (p : Plan) : list address :=
  flat_map
    (fun c =>
       match c with
       | V2_SWAP_EXACT_IN _ _ _ (t :: _) _ => [t]
       | _ => []
       end) p.

(** The plans submitted to the router, in order. *)
Definition submitted (ev : list Event) : list Plan :=
  flat_map
    (fun e => match e with EvExecute p _ _ _ _ => [p] | _ => [] end) ev.

(** A submission failed: the router raised, or the receipt says so. *)
Definition submission_failed (r : pyresult Receipt) : bool :=
  match r with
  | Ok tx => failed tx
  | Raise _ => true
  end.


(** What one turn of the classification loop does to [tokens_to_swap] and
    [tokens_to_drop]. *)
Definition marked {Chain : Type} (s : State Chain) (symbol : string) (c : float)
           (sw : dict address) (dr : list string)
           (sw1 : dict address) (dr1 : list string) : Prop :=
  match dict_get symbol (buys s) with
  | None => sw1 = sw /\ dr1 = dr
  | Some b =>
      exists p,
        position_pnl c (price b) = Ok p /\
        ((gtb p f_1000 = true /\
          sw1 = dict_set symbol (token_address b) sw /\ dr1 = dr) \/
         (gtb p f_1000 = false /\ ltb p f_99 = true /\
          sw1 = sw /\ dr1 = dr ++ [symbol]) \/
         (gtb p f_1000 = false /\ ltb p f_99 = false /\
          sw1 = sw /\ dr1 = dr))
  end.


(** The store after a sequence of pops. *)
Definition remove_all {V : Type} (ks : list string) (d : dict V) : dict V :=
  fold_left (fun acc k => dict_remove k acc) ks d.

(** What [zip(bot.state.buys, call())] iterates over: every symbol with
    the reserves of its pool. *)
Definition priced {Chain : Type} (W : World Chain) (s : State Chain)
  : list (string * (Z * Z * Z)) :=
  map (fun kv => (fst kv, getReserves W (chain s) (pair_address (snd kv))))
      (buys s).

(** What a submission that failed raises. *)
Definition failure_of (res : pyresult Receipt) : exn :=
  match res with
  | Ok tx => raise_error tx
  | Raise e => e
  end.


(** ** A concrete world

    One token, ["MEME"], priced by three pools; the chain state is the
    signer's token holding. Used to run the handlers on explicit inputs. *)

Module Demo.

Definition f_0_1 : float := S754_finite false 7205759403792794 (-56).
Definition f_0_002 : float := S754_finite false 4611686018427388 (-61).
Definition f_0_00001 : float := S754_finite false 5902958103587057 (-69).
Definition f_2_2 : float := S754_finite false 4953959590107546 (-51).
Definition f_500 : float := S754_finite false 8796093022208000 (-44).
Definition f_minus_0_995 : float :=
  S754_finite true 8962163258467287 (-53).

Definition pools (pool : address) : Z * Z * Z :=
  if String.eqb pool "POOL_MOON" then (22, 10, 0)
  else if String.eqb pool "POOL_RUG" then (1, 100000, 0)
  else if String.eqb pool "POOL_DRY" then (0, 0, 0)
  else (100, 50000, 0).

Definition world (sg : option address) (score : float) (fill : Z)
           (receipt : Receipt) : World Z :=
  {| WETH := "WETH";
     signer := sg;
     router_contract := "ROUTER";
     utc_now := 1700000000;
     erc20_symbol := fun _ _ => "MEME";
     erc20_name := fun _ _ => "Meme Coin";
     erc20_decimals := fun _ _ => 18%N;
     erc20_balanceOf :=
       fun c token _ => if String.eqb token "T_EMPTY" then 0 else c;
     erc20_allowance := fun _ _ _ _ => 0;
     getReserves := fun _ pool => pools pool;
     account_balance := fun _ _ => 10 ^ 19;
     erc20_approve := fun c _ _ _ _ => c;
     router_execute := fun c _ _ _ _ => (Ok receipt, c + fill);
     sentiment := fun _ _ => Ok score |}.

Definition success : Receipt := mkReceipt false None.
Definition reverted : Receipt := mkReceipt true (Some "execution reverted").

Definition monitoring : World Z := world None f_0_1 0 success.
Definition live : World Z :=
  world (Some "SIGNER") f_0_1 (500 * 10 ^ 18) success.
Definition live_reverting : World Z :=
  world (Some "SIGNER") f_0_1 0 reverted.
Definition indifferent : World Z := world None zero 0 success.

Definition created : PairCreated := mkPairCreated "WETH" "T_MEME" "POOL".
Definition created_on_usdc : PairCreated :=
  mkPairCreated "USDC" "T_MEME" "POOL".

Definition position (token pool : address) : Buy :=
  mkBuy f_0_002 (10 ^ 18) 1700000000 token pool.

Definition no_positions : State Z := mkState [] 0.


Definition rug_only : State Z :=
  mkState [("RUG", position "T_RUG" "POOL_RUG")] 7.

Definition portfolio : State Z :=
  mkState [("MOON", position "T_MOON" "POOL_MOON");
           ("RUG", position "T_RUG" "POOL_RUG");
           ("GHOST", position "T_EMPTY" "POOL_MOON")] 7.

Definition block : Block := mkBlock 1700000012.

(** [pnl] of the ["MOON"] position: a little over 1099. *)
Definition moon_pnl : float := S754_finite false 4833453115703297 (-42).

(** The entry price the live handler records for 500 tokens bought with
    one unit (10^18) of base asset: 5e-16. *)
Definition live_entry_price : float :=
  S754_finite false 5070602400912918 (-103).

Definition purchase : Z := 10 ^ 18.
Definition acquired : Z := 500 * 10 ^ 18.

Definition rug_marks : Marks := ([("RUG", f_0_00001)], [], ["RUG"]).

Definition portfolio_marks : Marks :=
  ([("MOON", f_2_2); ("RUG", f_0_00001); ("GHOST", f_2_2)],
   [("MOON", "T_MOON"); ("GHOST", "T_EMPTY")],
   ["RUG"]).

(** The runs used below. *)
Definition entry_live := buy live created no_positions.
Definition entry_monitoring := buy monitoring created no_positions.
Definition entry_indifferent := buy indifferent created no_positions.
Definition tick_monitoring_rug := pnl monitoring block rug_only.
Definition tick_live := pnl live block portfolio.
Definition tick_reverting := pnl live_reverting block portfolio.

End Demo.

(** ** [load_state]: start-up

    [bot.state.buys = {}]; the client of the sentiment model it also
    creates is the [sentiment] field of the world. *)

Definition load_state {Chain : Type} (s : State Chain) : State Chain :=
  mkState [] (chain s).

(** ** [transfer_all_to_backup]: the shutdown sweep

    The sweep reads [bot.state.buys] without changing it, so its loop is
    written on the chain state alone. The backup address ([BACKUP], read
    from the environment) and the ERC-20 [transfer] transaction, which
    may raise, are parameters; the sweep has its own events. *)

Inductive SweepLog : Type :=
| LogNoBackup
| LogTransferring (qty : float) (symbol : string).

Inductive SweepEvent : Type :=
| SwPrint (l : SweepLog)
| SwRead (c : ChainRead)
| SwTransfer (token recipient : address) (value : Z) (sender : address)
             (r : pyresult unit).

(** [not BACKUP]: unset, or the empty string. *)
Definition unset (a : option address) : bool :=
  match a with
  | None => true
  | Some x => String.eqb x ""
  end.

Section Sweep.
Context {Chain : Type} (W : World Chain).
Variable BACKUP : option address.
Variable erc20_transfer :
  Chain -> address -> address -> Z -> address -> pyresult unit * Chain.

(** [for symbol, buy in bot.state.buys.items()] *)
Fixpoint sweep_all (account recipient : address) (items : dict Buy)
         (c : Chain) : pyresult unit * Chain * list SweepEvent :=
  match items with
  | [] => (Ok tt, c, [])
  | (symbol, b) :: rest =>
      let token := token_address b in
      let token_balance := erc20_balanceOf W c token account in
      if token_balance =? 0 then
        let '(r, c', ev) := sweep_all account recipient rest c in
        (r, c', SwRead (RBalanceOf token account) :: ev)
      else
        let decimals := erc20_decimals W c token in
        match int_truediv token_balance (pow10 decimals) with
        | Raise e =>
            (Raise e, c,
             [SwRead (RBalanceOf token account); SwRead (RDecimals token)])
        | Ok qty =>
            let '(sent, c1) :=
              erc20_transfer c token recipient token_balance account in
            let emitted :=
              [SwRead (RBalanceOf token account);
               SwRead (RDecimals token);
               SwPrint (LogTransferring qty symbol);
               SwTransfer token recipient token_balance account sent] in
            match sent with
            | Raise e => (Raise e, c1, emitted)
            | Ok _ =>
                let '(r, c', ev) := sweep_all account recipient rest c1 in
                (r, c', emitted ++ ev)
            end
        end
  end.

Definition transfer_all_to_backup (s : State Chain)
  : pyresult unit * State Chain * list SweepEvent :=
  match signer W with
  | None => (Ok tt, s, [])
  | Some account =>
      if unset BACKUP then (Ok tt, s, [SwPrint LogNoBackup])
      else
        let recipient := match BACKUP with Some a => a | None => "" end in
        let '(r, c, ev) := sweep_all account recipient (buys s) (chain s) in
        (r, mkState (buys s) c, ev)
  end.

End Sweep.

(** The transfers a sweep sent, in order: token and amount. *)
Definition transfers (ev : list SweepEvent) : list (address * Z) :=
  flat_map
    (fun e => match e with SwTransfer t _ v _ _ => [(t, v)] | _ => [] end)
    ev.

(** ** More observations on a run *)

(** The commands the selling loop appends for one position. *)
Definition sell_command {Chain : Type} (W : World Chain) (c : Command)
  : Prop :=
  match c with
  | APPROVE_ERC20 _ _ => True
  | V2_SWAP_EXACT_IN recipient amount_in _ path payer_is_user =>
      recipient = ADDRESS_THIS /\ amount_in <> 0 /\
      payer_is_user = true /\ exists token, path = [token; WETH W]
  | _ => False
  end.

(** The events one turn of the selling loop can emit for [symbol], whose
    position is priced by [pool]. *)
Definition turn_event {Chain : Type} (W : World Chain)
           (account : address) (symbol : string) (pool : address)
           (e : Event) : Prop :=
  match e with
  | EvStorePop k => k = symbol
  | EvRead _ => True
  | EvPrint (LogNoBalance k) => k = symbol
  | EvPrint (LogSelling _ k) => k = symbol
  | EvApprove token spender value sender =>
      token = pool /\ spender = router_contract W /\
      value = MAX_UINT256 /\ sender = account
  | _ => False
  end.

(** What the batched exit of a tick may emit, for the store [d] the tick
    started on: pops, reads and prints; approvals that are unlimited, to
    the router, by the signer, on the pool of a position of [d]; router
    submissions without value, due two minutes after the block, whose
    plan is a run of selling commands closed by the unwrap. It never
    writes to the store and never asks the sentiment model. *)
Definition exit_event {Chain : Type} (W : World Chain) (blk : Block)
           (account : address) (d : dict Buy) (e : Event) : Prop :=
  match e with
  | EvApprove token spender value sender =>
      spender = router_contract W /\ value = MAX_UINT256 /\
      sender = account /\
      exists k b, dict_get k d = Some b /\ token = pair_address b
  | EvExecute p deadline sender value _ =>
      sender = account /\ deadline = timestamp blk + 120 /\ value = 0 /\
      exists body,
        p = body ++ [UNWRAP_WETH MSG_SENDER 0] /\
        Forall (sell_command W) body
  | EvStoreSet _ _ | EvSentiment _ _ => False
  | _ => True
  end.

(** One leg of the batched exit: the token sold, the pool it is sold
    on, the amount sold and the minimal proceeds. *)
Definition ExitLeg : Type := (address * address * Z * Z)%type.

(** The commands of one leg, as the selling loop appends them:
    [approve_erc20(token, buy.pair)], then
    [v2_swap_exact_in(ADDRESS_THIS, amount, minimum, [token, WETH], True)]. *)
Definition exit_pair {Chain : Type} (W : World Chain) (leg : ExitLeg)
  : Plan :=
  let '(token, pool, amount_in, amount_out_min) := leg in
  [APPROVE_ERC20 token pool;
   V2_SWAP_EXACT_IN ADDRESS_THIS amount_in amount_out_min
                    [token; WETH W] true].

(** A whole exit plan: the legs in order, closed by
    [unwrap_weth(MSG_SENDER, 0)]. *)
Definition exit_plan {Chain : Type} (W : World Chain) (legs : list ExitLeg)
  : Plan :=
  flat_map (exit_pair W) legs ++ [UNWRAP_WETH MSG_SENDER 0].

(** The leg filed under [symbol] sells the position the store [d] holds
    under that symbol: its token, on its pool. *)
Definition sells (d : dict Buy) (item : string * ExitLeg) : Prop :=
  let '(symbol, (token, pool, _, _)) := item in
  exists b,
    dict_get symbol d = Some b /\
    token = token_address b /\ pool = pair_address b.

(** [l1] is [l2] with some elements left out, in the same order. *)
Inductive subseq {A : Type} : list A -> list A -> Prop :=
| subseq_nil : subseq [] []
| subseq_skip (x : A) (l1 l2 : list A) :
    subseq l1 l2 -> subseq l1 (x :: l2)
| subseq_take (x : A) (l1 l2 : list A) :
    subseq l1 l2 -> subseq (x :: l1) (x :: l2).

(** ** Further concrete worlds *)

Module Scenario.

(** A world whose sentiment model cannot be reached. *)
Definition unreachable : World Z :=
  {| WETH := "WETH";
     signer := None;
     router_contract := "ROUTER";
     utc_now := 1700000000;
     erc20_symbol := fun _ _ => "MEME";
     erc20_name := fun _ _ => "Meme Coin";
     erc20_decimals := fun _ _ => 18%N;
     erc20_balanceOf := fun c _ _ => c;
     erc20_allowance := fun _ _ _ _ => 0;
     getReserves := fun _ pool => Demo.pools pool;
     account_balance := fun _ _ => 10 ^ 19;
     erc20_approve := fun c _ _ _ _ => c;
     router_execute := fun c _ _ _ _ => (Ok Demo.success, c);
     sentiment := fun _ _ => Raise (CollaboratorError "overloaded") |}.

(** A signer whose balance is 5 wei: a tenth of it truncates to zero. *)
Definition poor : World Z :=
  {| WETH := "WETH";
     signer := Some "SIGNER";
     router_contract := "ROUTER";
     utc_now := 1700000000;
     erc20_symbol := fun _ _ => "MEME";
     erc20_name := fun _ _ => "Meme Coin";
     erc20_decimals := fun _ _ => 18%N;
     erc20_balanceOf := fun c _ _ => c;
     erc20_allowance := fun _ _ _ _ => 0;
     getReserves := fun _ pool => Demo.pools pool;
     account_balance := fun _ _ => 5;
     erc20_approve := fun c _ _ _ _ => c;
     router_execute := fun c _ _ _ _ => (Ok Demo.success, c + 1);
     sentiment := fun _ _ => Ok Demo.f_0_1 |}.

Definition created_dry : PairCreated :=
  mkPairCreated "WETH" "T_MEME" "POOL_DRY".

(** A position that is neither a winner nor a loser: entered at
    0.00001 and now priced at 0.002, its [pnl] is 199. *)
Definition steady : Buy :=
  mkBuy Demo.f_0_00001 (10 ^ 18) 1700000000 "T_HOLD" "POOL".

(** That [pnl], a hair under 199. *)
Definition hold_pnl : float := S754_finite false 7001690045677567 (-45).

Definition mixed : State Z :=
  mkState [("MOON", Demo.position "T_MOON" "POOL_MOON");
           ("HOLD", steady);
           ("RUG", Demo.position "T_RUG" "POOL_RUG")] 7.

Definition blocked : State Z :=
  mkState [("MOON", Demo.position "T_MOON" "POOL_MOON");
           ("DRY", Demo.position "T_DRY" "POOL_DRY")] 7.

(** The sweep moves a whole balance: the chain state is the balance the
    signer holds of every token but ["T_EMPTY"]. *)
Definition transfer (c : Z) (token recipient : address) (value : Z)
           (sender : address) : pyresult unit * Z := (Ok tt, c - value).


(** The positions of [Demo.portfolio] once the signer holds nothing. *)
Definition swept : State Z := mkState (buys Demo.portfolio) 0.

End Scenario.

(** * Properties *)

(** ** Dictionaries *)

Section DictFacts.
Context {V : Type}.
Implicit Types (d : dict V) (k : string) (v : V).

Lemma dict_get_None d k :
  dict_get k d = None <-> ~ In k (dict_keys d).
Proof.
  induction d as [|[k' v'] d IH]; simpl.
  - tauto.
  - destruct (String.eqb_spec k k') as [->|Hne].
    + split; [discriminate | intros H; exfalso; apply H; now left].
    + rewrite IH. split.
      * intros H [E|E]; [congruence | tauto].
      * tauto.
Qed.

Lemma dict_get_Some_In d k v :
  dict_get k d = Some v -> In (k, v) d.
Proof.
  induction d as [|[k' v'] d IH]; simpl; [discriminate|].
  destruct (String.eqb_spec k k') as [->|Hne].
  - intros [= ->]. now left.
  - intros H. right. auto.
Qed.

Lemma dict_get_Some_key d k v :
  dict_get k d = Some v -> In k (dict_keys d).
Proof.
  intros H. apply dict_get_Some_In in H.
  apply (in_map fst) in H. exact H.
Qed.

Lemma dict_get_set_same d k v :
  dict_get k (dict_set k v d) = Some v.
Proof.
  induction d as [|[k' v'] d IH]; simpl.
  - now rewrite String.eqb_refl.
  - destruct (String.eqb_spec k k') as [->|Hne]; simpl.
    + now rewrite String.eqb_refl.
    + destruct (String.eqb_spec k k'); [contradiction | exact IH].
Qed.

Lemma dict_get_set_other d k k' v :
  k' <> k -> dict_get k' (dict_set k v d) = dict_get k' d.
Proof.
  intros Hne.
  induction d as [|[k0 v0] d IH]; simpl.
  - destruct (String.eqb_spec k' k); [contradiction | reflexivity].
  - destruct (String.eqb_spec k k0) as [->|Hne0]; simpl.
    + destruct (String.eqb_spec k' k0); [contradiction | reflexivity].
    + destruct (String.eqb_spec k' k0); [reflexivity | exact IH].
Qed.

Lemma dict_keys_set d k v k' :
  In k' (dict_keys (dict_set k v d)) <-> k' = k \/ In k' (dict_keys d).
Proof.
  induction d as [|[k0 v0] d IH]; simpl.
  - intuition auto.
  - destruct (String.eqb_spec k k0) as [->|Hne0]; simpl.
    + intuition auto.
    + rewrite IH. intuition auto.
Qed.

Lemma dict_wf_set d k v :
  dict_wf d -> dict_wf (dict_set k v d).
Proof.
  unfold dict_wf.
  induction d as [|[k0 v0] d IH]; simpl; intros Hwf.
  - constructor; [intros [] | constructor].
  - inversion Hwf as [|? ? Hnin Hnd]; subst.
    destruct (String.eqb_spec k k0) as [->|Hne0]; simpl.
    + now constructor.
    + constructor; [|auto].
      intros Hin. apply (dict_keys_set d k v k0) in Hin.
      destruct Hin as [E|Hin]; [congruence | contradiction].
Qed.

Lemma dict_keys_remove d k k' :
  In k' (dict_keys (dict_remove k d)) -> In k' (dict_keys d).
Proof.
  induction d as [|[k0 v0] d IH]; simpl; [tauto|].
  destruct (String.eqb_spec k k0) as [->|Hne0]; simpl.
  - auto.
  - intros [E|Hin]; auto.
Qed.

Lemma dict_wf_remove d k :
  dict_wf d -> dict_wf (dict_remove k d).
Proof.
  unfold dict_wf.
  induction d as [|[k0 v0] d IH]; simpl; intros Hwf; [constructor|].
  inversion Hwf as [|? ? Hnin Hnd]; subst.
  destruct (String.eqb_spec k k0) as [->|Hne0]; simpl; [assumption|].
  constructor; [|auto].
  intros Hin. apply Hnin. eapply dict_keys_remove; eauto.
Qed.

Lemma dict_get_remove_same d k :
  dict_wf d -> dict_get k (dict_remove k d) = None.
Proof.
  unfold dict_wf.
  induction d as [|[k0 v0] d IH]; simpl; intros Hwf; [reflexivity|].
  inversion Hwf as [|? ? Hnin Hnd]; subst.
  destruct (String.eqb_spec k k0) as [->|Hne0]; simpl.
  - now apply dict_get_None.
  - destruct (String.eqb_spec k k0); [contradiction | auto].
Qed.

Lemma dict_get_remove_other d k k' :
  k' <> k -> dict_get k' (dict_remove k d) = dict_get k' d.
Proof.
  intros Hne.
  induction d as [|[k0 v0] d IH]; simpl; [reflexivity|].
  destruct (String.eqb_spec k k0) as [->|Hne0]; simpl.
  - destruct (String.eqb_spec k' k0); [contradiction | reflexivity].
  - destruct (String.eqb_spec k' k0); [reflexivity | exact IH].
Qed.

Lemma dict_get_remove_None d k k' :
  dict_get k' d = None -> dict_get k' (dict_remove k d) = None.
Proof.
  rewrite !dict_get_None. intros H Hin. apply H.
  eapply dict_keys_remove; eauto.
Qed.

End DictFacts.

(** ** The handler monad *)

Section MonadFacts.
Context {Chain : Type}.

Lemma bind_inv {A B} (m : @M Chain A) (f : A -> M B) s r s' ev :
  bind m f s = (r, s', ev) ->
  (exists e, m s = (Raise e, s', ev) /\ r = Raise e) \/
  (exists a s1 ev1 ev2,
      m s = (Ok a, s1, ev1) /\ f a s1 = (r, s', ev2) /\ ev = ev1 ++ ev2).
Proof.
  unfold bind. destruct (m s) as [[[a|e] s1] ev1].
  - destruct (f a s1) as [[r2 s2] ev2] eqn:Ef.
    intros [= <- <- <-]. right. exists a, s1, ev1, ev2. auto.
  - intros [= <- <- <-]. left. exists e. auto.
Qed.

Lemma bind_ok_inv {A B} (m : @M Chain A) (f : A -> M B) s b s' ev :
  bind m f s = (Ok b, s', ev) ->
  exists a s1 ev1 ev2,
    m s = (Ok a, s1, ev1) /\ f a s1 = (Ok b, s', ev2) /\ ev = ev1 ++ ev2.
Proof.
  intros H. apply bind_inv in H.
  destruct H as [(e & _ & He)|H]; [discriminate | exact H].
Qed.

Lemma bind_ok {A B} (m : @M Chain A) (f : A -> M B) s a s1 ev1 :
  m s = (Ok a, s1, ev1) ->
  bind m f s =
    (let '(r, s2, ev2) := f a s1 in (r, s2, ev1 ++ ev2)).
Proof. unfold bind. now intros ->. Qed.

End MonadFacts.

(** ** [buy]: the entry planner *)

Section BuyFacts.
Context {Chain : Type} (W : World Chain).

(** C7. A pair-created event whose base asset ([token0]) is not the
    reference asset ([WETH]) leaves the position store and the chain as
    they were and causes no event at all: no chain read, no request to the
    sentiment model, no transaction. *)
Theorem buy_other_base_no_effect (log : PairCreated) (s : State Chain) :
  token0 log <> WETH W ->
  buy W log s = (Ok None, s, []).
Proof.
  intros Hne. unfold buy.
  destruct (String.eqb_spec (token0 log) (WETH W)) as [E|_];
    [contradiction | reflexivity].
Qed.

(** C6. When the sentiment score of the event's token is exactly zero
    (of either sign), [buy] leaves the state as it was, with or without a
    signer: it records no position, submits no transaction and does not
    return a price. *)
Theorem buy_zero_score_no_position
        (log : PairCreated) (s : State Chain) (ratio : float) :
  sentiment W (name_of W log s) (symbol_of W log s) = Ok ratio ->
  eqb ratio zero = true ->
  forall r s' ev,
    buy W log s = (r, s', ev) ->
    s' = s /\
    (forall out, r <> Ok (Some out)) /\
    (forall e, In e ev ->
       is_transaction e = false /\ forall k b, e <> EvStoreSet k b).
Proof.
  unfold name_of, symbol_of. intros Hscore Hzero r s' ev.
  unfold buy.
  destruct (negb (token0 log =? WETH W)%string).
  - intros [= <- <- <-]. split; [reflexivity|].
    split; [discriminate|]. intros e [].
  - unfold bind, read, lift, ask_sentiment, ret; simpl.
    destruct (getReserves W (chain s) (pair log)) as [[reserve0 reserve1] ts].
    destruct (int_truediv reserve0 reserve1) as [spot|err].
    + rewrite Hscore, Hzero. simpl.
      intros [= <- <- <-]. split; [reflexivity|].
      split; [discriminate|].
      intros e Hin. simpl in Hin.
      repeat (destruct Hin as [<-|Hin]; [split; [reflexivity | discriminate]|]).
      destruct Hin.
    + intros [= <- <- <-]. split; [reflexivity|].
      split; [discriminate|].
      intros e Hin. simpl in Hin.
      repeat (destruct Hin as [<-|Hin]; [split; [reflexivity | discriminate]|]).
      destruct Hin.
Qed.

(** C5. In monitoring mode (no signer), an event on the reference asset
    whose pool has a spot price [reserve0 / reserve1] and whose sentiment
    score is not zero makes [buy] record, under the token's symbol, a
    position of [10 ** decimals] units at that spot price; the handler
    emits only reads, the sentiment request and the store update -- no
    transaction. Reserves of 100 and 50 000 give the double nearest to
    0.002. *)
Theorem buy_monitoring_records_unit_position
        (log : PairCreated) (s : State Chain)
        (reserve0 reserve1 ts : Z) (spot ratio : float) :
  signer W = None ->
  token0 log = WETH W ->
  getReserves W (chain s) (pair log) = (reserve0, reserve1, ts) ->
  int_truediv reserve0 reserve1 = Ok spot ->
  sentiment W (name_of W log s) (symbol_of W log s) = Ok ratio ->
  eqb ratio zero = false ->
  let recorded :=
    mkBuy spot (10 ^ Z.of_N (erc20_decimals W (chain s) (token1 log)))
          (utc_now W) (token1 log) (pair log) in
  (exists ev,
      buy W log s =
        (Ok None,
         mkState (dict_set (symbol_of W log s) recorded (buys s)) (chain s),
         ev) /\
      forallb (fun e => negb (is_transaction e)) ev = true) /\
  dict_get (symbol_of W log s)
           (dict_set (symbol_of W log s) recorded (buys s)) = Some recorded /\
  int_truediv 100 50000 = Ok Demo.f_0_002.
Proof.
  intros Hmode Hbase Hres Hspot Hscore Hnz recorded.
  unfold name_of, symbol_of in *.
  split; [|split; [apply dict_get_set_same | reflexivity]].
  unfold buy. rewrite Hbase, String.eqb_refl. simpl.
  unfold bind, read, lift, ask_sentiment, store_set, ret; simpl.
  rewrite Hres, Hspot, Hscore, Hnz, Hmode. simpl.
  eexists. split; reflexivity.
Qed.

(** C3 (as implemented). A run of [buy] that returns a price is a live-mode
    entry: a signer is configured, the score is not zero, and with
    [purchase_amount = int(ratio * balance)] (truncated toward zero) the
    handler submitted one router transaction carrying [purchase_amount] as
    value; the recorded position's price is the signer's token balance
    after that transaction, scaled by [10 ** decimals], divided by
    [purchase_amount] -- tokens per unit of base asset -- and it is the
    price returned. *)
Theorem buy_live_entry_price
        (log : PairCreated) (s s' : State Chain)
        (out : dict float) (ev : list Event) :
  buy W log s = (Ok (Some out), s', ev) ->
  exists account ratio scaled purchase_amount qty buy_price p deadline rc b,
    signer W = Some account /\
    sentiment W (name_of W log s) (symbol_of W log s) = Ok ratio /\
    eqb ratio zero = false /\
    float_mul_int ratio (account_balance W (chain s) account) = Ok scaled /\
    to_int scaled = Ok purchase_amount /\
    In (EvExecute p deadline account purchase_amount (Ok rc)) ev /\
    int_truediv (erc20_balanceOf W (chain s') (token1 log) account)
                (pow10 (erc20_decimals W (chain s) (token1 log))) = Ok qty /\
    float_div_int qty purchase_amount = Ok buy_price /\
    dict_get (symbol_of W log s) (buys s') = Some b /\
    price b = buy_price /\
    token_address b = token1 log /\
    pair_address b = pair log /\
    out = [(symbol_of W log s, buy_price)].
Proof.
  unfold name_of, symbol_of. unfold buy.
  destruct (negb (token0 log =? WETH W)%string); [simpl; discriminate|].
  unfold bind, read, lift, ask_sentiment, store_set, execute, print, emit, ret;
    simpl.
  destruct (getReserves W (chain s) (pair log)) as [[reserve0 reserve1] ts].
  destruct (int_truediv reserve0 reserve1) as [spot|];  [|simpl; discriminate].
  simpl.
  destruct (sentiment W _ _) as [ratio|] eqn:Hscore; [|simpl; discriminate].
  simpl.
  destruct (eqb ratio zero) eqn:Hnz; [simpl; discriminate|].
  destruct (signer W) as [account|] eqn:Hmode; [|simpl; discriminate].
  simpl.
  destruct (float_mul_int ratio _) as [scaled|] eqn:Hscaled;  [|simpl; discriminate].
  simpl.
  destruct (to_int scaled) as [purchase_amount|] eqn:Hpa;  [|simpl; discriminate].
  simpl.
  destruct (float_mul_int (mul f_0_995 spot) purchase_amount) as [fl|];
    [|simpl; discriminate].
  destruct (to_int fl) as [amount_out_min|]; [|simpl; discriminate].
  simpl.
  destruct (router_execute W _ _ _ _ _) as [[rc|] c'] eqn:Hexec;
    [|simpl; discriminate].
  simpl.
  destruct (int_truediv _ _) as [qty|] eqn:Hqty;  [|simpl; discriminate].
  simpl.
  destruct (float_div_int qty purchase_amount) as [buy_price|] eqn:Hprice;
    [|simpl; discriminate].
  simpl. intros [= <- <- <-]. simpl.
  exists account, ratio, scaled, purchase_amount, qty, buy_price.
  do 3 eexists.
  exists (mkBuy buy_price purchase_amount (utc_now W) (token1 log) (pair log)).
  repeat split; auto.
  - do 6 right. left. reflexivity.
  - apply dict_get_set_same.
Qed.

End BuyFacts.

(** ** [pnl]: the exit evaluator *)

Lemma quiet_not_transaction e : quiet e = true -> is_transaction e = false.
Proof. destruct e as [[]| | | | | |]; simpl; congruence. Qed.

Lemma quiet_pops ev : Forall (fun e => quiet e = true) ev -> pops ev = [].
Proof.
  induction 1 as [|e ev He _ IH]; [reflexivity|].
  unfold pops in *. simpl. rewrite IH.
  destruct e as [[]| | | | | |]; simpl in *; congruence.
Qed.

Lemma quiet_submitted ev :
  Forall (fun e => quiet e = true) ev -> submitted ev = [].
Proof.
  induction 1 as [|e ev He _ IH]; [reflexivity|].
  unfold submitted in *. simpl. rewrite IH.
  destruct e as [[]| | | | | |]; simpl in *; congruence.
Qed.

Lemma pops_app ev1 ev2 : pops (ev1 ++ ev2) = pops ev1 ++ pops ev2.
Proof. apply flat_map_app. Qed.

Lemma selling_app ev1 ev2 : selling (ev1 ++ ev2) = selling ev1 ++ selling ev2.
Proof. apply flat_map_app. Qed.

Lemma skipped_app ev1 ev2 : skipped (ev1 ++ ev2) = skipped ev1 ++ skipped ev2.
Proof. apply flat_map_app. Qed.

Lemma submitted_app ev1 ev2 :
  submitted (ev1 ++ ev2) = submitted ev1 ++ submitted ev2.
Proof. apply flat_map_app. Qed.

Lemma swapped_tokens_app p1 p2 :
  swapped_tokens (p1 ++ p2) = swapped_tokens p1 ++ swapped_tokens p2.
Proof. apply flat_map_app. Qed.

(** A loss can never be mistaken for a runaway gain: the two thresholds
    exclude each other. *)
Lemma below_99_not_above_1000 (p : float) :
  ltb p f_99 = true -> gtb p f_1000 = false.
Proof.
  unfold ltb, gtb, SFltb, f_99, f_1000.
  destruct p as [sg|sg| |sg m e]; cbv beta iota delta [SFcompare];
    try reflexivity.
  - destruct sg; [reflexivity | discriminate].
  - destruct sg; [reflexivity|].
    destruct (Z.compare_spec e (-46)) as [->|Hlt|Hgt]; try discriminate.
    + intros _. reflexivity.
    + intros _. destruct (Z.compare_spec (-43) e); try reflexivity; lia.
Qed.

Section ClassifyFacts.
Context {Chain : Type}.

Lemma classify_quiet items :
  forall acc (s : State Chain) r s' ev,
    classify items acc s = (r, s', ev) ->
    s' = s /\ Forall (fun e => quiet e = true) ev.
Proof.
  induction items as [|[symbol [[reserve0 reserve1] ts]] rest IH];
    intros [[cp sw] dr] s r s' ev; simpl.
  - intros [= <- <- <-]. auto.
  - unfold bind, lift, get_buys, print, emit.
    destruct (int_truediv reserve0 reserve1) as [c|]; simpl;
      [|intros [= <- <- <-]; auto].
    destruct (dict_get symbol (buys s)) as [b|].
    + destruct (position_pnl c (price b)) as [p|]; simpl;
        [|intros [= <- <- <-]; auto].
      destruct (gtb p f_1000); [|destruct (ltb p f_99)];
        match goal with
        | |- context [classify rest ?a s] =>
            destruct (classify rest a s) as [[r2 s2] ev2] eqn:E
        end;
        intros [= <- <- <-]; apply IH in E; destruct E as [-> Hq];
        (split; [reflexivity | constructor; [reflexivity | exact Hq]]).
    + destruct (classify rest _ s) as [[r2 s2] ev2] eqn:E.
      intros [= <- <- <-]. apply IH in E. exact E.
Qed.


Lemma classify_cons symbol reserve0 reserve1 ts rest cp sw dr
      (s : State Chain) res s' ev :
  classify ((symbol, (reserve0, reserve1, ts)) :: rest) (cp, sw, dr) s =
    (Ok res, s', ev) ->
  exists c sw1 dr1 ev2,
    int_truediv reserve0 reserve1 = Ok c /\
    marked s symbol c sw dr sw1 dr1 /\
    classify rest (dict_set symbol c cp, sw1, dr1) s = (Ok res, s', ev2).
Proof.
  simpl. unfold bind, lift, get_buys, print, emit, marked.
  destruct (int_truediv reserve0 reserve1) as [c|]; simpl; [|discriminate].
  destruct (dict_get symbol (buys s)) as [b|].
  - destruct (position_pnl c (price b)) as [p|] eqn:Hp; simpl;
      [|discriminate].
    destruct (gtb p f_1000) eqn:Hgt; [|destruct (ltb p f_99) eqn:Hlt];
      match goal with
      | |- context [classify rest ?a s] =>
          destruct (classify rest a s) as [[r2 s2] ev2] eqn:E
      end;
      intros [= -> <- <-]; exists c; do 2 eexists; exists ev2;
      (split; [reflexivity|]); (split; [|exact E]);
      simpl; exists p; (split; [exact Hp|]); auto 10.
  - destruct (classify rest _ s) as [[r2 s2] ev2] eqn:E.
    intros [= -> <- <-]. exists c, sw, dr, ev2. auto.
Qed.

Lemma marked_swaps (s : State Chain) symbol c sw dr sw1 dr1 k :
  marked s symbol c sw dr sw1 dr1 ->
  k <> symbol -> dict_get k sw1 = dict_get k sw.
Proof.
  unfold marked. intros H Hne.
  destruct (dict_get symbol (buys s)) as [b|].
  - destruct H as (p & _ & [(_ & -> & _)|[(_ & _ & -> & _)|(_ & _ & -> & _)]]);
      auto using dict_get_set_other.
  - destruct H as [-> _]. reflexivity.
Qed.

Lemma marked_drops (s : State Chain) symbol c sw dr sw1 dr1 :
  marked s symbol c sw dr sw1 dr1 ->
  dr1 = dr \/ (dr1 = dr ++ [symbol] /\ dict_get symbol (buys s) <> None).
Proof.
  unfold marked. intros H.
  destruct (dict_get symbol (buys s)) as [b|].
  - destruct H as (p & _ & [(_ & _ & ->)|[(_ & _ & _ & ->)|(_ & _ & _ & ->)]]);
      auto.
    right. split; [reflexivity | discriminate].
  - destruct H as [_ ->]. auto.
Qed.

Lemma marked_verdict (s : State Chain) symbol c sw dr sw1 dr1 b :
  marked s symbol c sw dr sw1 dr1 ->
  dict_get symbol (buys s) = Some b ->
  exists p,
    position_pnl c (price b) = Ok p /\
    (gtb p f_1000 = true ->
       dict_get symbol sw1 = Some (token_address b) /\ dr1 = dr) /\
    (gtb p f_1000 = false -> ltb p f_99 = true -> In symbol dr1).
Proof.
  unfold marked. intros H Hb. rewrite Hb in H.
  destruct H as (p & Hp & H). exists p. split; [exact Hp|].
  destruct H as [(Hgt & -> & ->)|[(Hgt & Hlt & -> & ->)|(Hgt & Hlt & -> & ->)]].
  - split; [intros _; split; [apply dict_get_set_same | reflexivity]
           | congruence].
  - split; [congruence | intros _ _; apply in_or_app; right; now left].
  - split; congruence.
Qed.

Lemma classify_ok items :
  forall cp sw dr (s : State Chain) cp' sw' dr' s' ev,
    classify items (cp, sw, dr) s = (Ok (cp', sw', dr'), s', ev) ->
    (dict_wf cp -> dict_wf cp') /\
    (forall k, ~ In k (map fst items) ->
       dict_get k cp' = dict_get k cp /\ dict_get k sw' = dict_get k sw) /\
    (exists l, dr' = dr ++ l /\
       (forall k, In k l ->
          In k (map fst items) /\ dict_get k (buys s) <> None) /\
       (NoDup (map fst items) -> NoDup l)) /\
    (NoDup (map fst items) ->
     forall k r0 r1 t, In (k, (r0, r1, t)) items ->
       exists c,
         int_truediv r0 r1 = Ok c /\ dict_get k cp' = Some c /\
         forall b, dict_get k (buys s) = Some b ->
           exists p,
             position_pnl c (price b) = Ok p /\
             (gtb p f_1000 = true ->
                dict_get k sw' = Some (token_address b) /\
                (In k dr' -> In k dr)) /\
             (gtb p f_1000 = false -> ltb p f_99 = true -> In k dr')).
Proof.
  induction items as [|[symbol [[reserve0 reserve1] ts]] rest IH];
    intros cp sw dr s cp' sw' dr' s' ev H.
  - simpl in H. unfold ret in H. injection H as <- <- <- <- <-.
    split; [auto|]. split; [auto|]. split.
    + exists []. rewrite app_nil_r. split; [reflexivity|].
      split; [intros k [] | constructor].
    + intros _ k r0 r1 t [].
  - apply classify_cons in H.
    destruct H as (c & sw1 & dr1 & ev2 & Hc & Hm & H).
    apply IH in H. destruct H as (Hwf & Hframe & (l & -> & Hl & Hnd) & Hin).
    split; [|split; [|split]].
    + intros Hcp. apply Hwf. now apply dict_wf_set.
    + intros k Hk. simpl in Hk.
      assert (k <> symbol) by (intros ->; apply Hk; now left).
      destruct (Hframe k) as [-> ->]; [tauto|].
      split; [now apply dict_get_set_other|].
      eapply marked_swaps; eauto.
    + destruct (marked_drops _ _ _ _ _ _ _ Hm) as [->|[-> Hpresent]].
      * exists l. split; [reflexivity|]. split.
        -- intros k Hk. destruct (Hl k Hk). simpl. auto.
        -- intros Hnodup. inversion Hnodup; auto.
      * exists (symbol :: l). rewrite <- app_assoc. split; [reflexivity|].
        split.
        -- intros k [<-|Hk]; [simpl; auto|].
           destruct (Hl k Hk). simpl. auto.
        -- intros Hnodup. simpl in Hnodup.
           inversion Hnodup as [|? ? Hnotin Hrest]; subst.
           constructor; [|auto].
           intros Hk. apply Hnotin. now apply Hl.
    + intros Hnodup k r0 r1 t Hk. simpl in Hnodup.
      inversion Hnodup as [|? ? Hnotin Hrest]; subst.
      destruct Hk as [E|Hk].
      * injection E as -> -> -> ->.
        destruct (Hframe k Hnotin) as [Hcp' Hsw'].
        exists c. split; [exact Hc|].
        split; [rewrite Hcp'; apply dict_get_set_same|].
        intros b Hb.
        destruct (marked_verdict _ _ _ _ _ _ _ _ Hm Hb) as (p & Hp & Hs & Hd).
        exists p. split; [exact Hp|]. split.
        -- intros Hgt. destruct (Hs Hgt) as [Hset Hsame].
           split; [rewrite Hsw'; exact Hset|].
           rewrite Hsame. intros Hdr. apply in_app_or in Hdr.
           destruct Hdr as [Hdr|Hdr]; [exact Hdr|].
           exfalso. apply Hnotin. now apply Hl.
        -- intros Hgt Hlt. apply in_or_app. left. auto.
      * destruct (Hin Hrest k r0 r1 t Hk) as (c0 & Hc0 & Hget & Hv).
        exists c0. split; [exact Hc0|]. split; [exact Hget|].
        intros b Hb. destruct (Hv b Hb) as (p & Hp & Hs & Hd).
        exists p. split; [exact Hp|]. split; [|exact Hd].
        intros Hgt. destruct (Hs Hgt) as [Hset Hback].
        split; [exact Hset|].
        intros Hdr. apply Hback in Hdr.
        destruct (marked_drops _ _ _ _ _ _ _ Hm) as [->|[-> _]];
          [exact Hdr|].
        apply in_app_or in Hdr. destruct Hdr as [Hdr|[<-|[]]]; [exact Hdr|].
        exfalso. apply Hnotin. apply (in_map fst) in Hk. exact Hk.
Qed.

End ClassifyFacts.

Section RemoveAllFacts.
Context {V : Type}.
Implicit Types (d : dict V) (k : string).

Lemma remove_all_get_None ks : forall d k,
  dict_get k d = None -> dict_get k (remove_all ks d) = None.
Proof.
  induction ks as [|a ks IH]; intros d k H; simpl; [exact H|].
  apply IH. now apply dict_get_remove_None.
Qed.

Lemma remove_all_wf ks : forall d, dict_wf d -> dict_wf (remove_all ks d).
Proof.
  induction ks as [|a ks IH]; intros d H; simpl; [exact H|].
  apply IH. now apply dict_wf_remove.
Qed.

Lemma remove_all_removed ks : forall d k,
  dict_wf d -> In k ks -> dict_get k (remove_all ks d) = None.
Proof.
  induction ks as [|a ks IH]; intros d k Hwf Hin; simpl; [destruct Hin|].
  destruct (string_dec a k) as [->|Hne].
  - apply remove_all_get_None. now apply dict_get_remove_same.
  - destruct Hin as [E|Hin]; [contradiction|].
    apply IH; [now apply dict_wf_remove | exact Hin].
Qed.

Lemma remove_all_other ks : forall d k,
  ~ In k ks -> dict_get k (remove_all ks d) = dict_get k d.
Proof.
  induction ks as [|a ks IH]; intros d k Hin; simpl; [reflexivity|].
  rewrite IH by (intros H; apply Hin; now right).
  apply dict_get_remove_other. intros ->. apply Hin. now left.
Qed.

End RemoveAllFacts.

Section EvaluateFacts.
Context {Chain : Type} (W : World Chain).

Lemma priced_keys (s : State Chain) :
  map fst (priced W s) = dict_keys (buys s).
Proof. unfold priced, dict_keys. rewrite map_map. reflexivity. Qed.

Lemma combine_priced (s : State Chain) :
  combine (dict_keys (buys s))
          (map (getReserves W (chain s))
               (map (fun kv => pair_address (snd kv)) (buys s))) =
  priced W s.
Proof.
  unfold priced, dict_keys.
  induction (buys s) as [|[k b] d IH]; simpl; [reflexivity|].
  now rewrite IH.
Qed.

Lemma evaluate_run (s : State Chain) :
  evaluate W s =
    (let '(r, s2, ev2) := classify (priced W s) ([], [], []) s in
     (r, s2,
      EvRead (RMulticall (map (fun kv => pair_address (snd kv)) (buys s)))
             :: ev2)).
Proof.
  unfold evaluate, bind, get_buys, read. simpl.
  rewrite combine_priced.
  destruct (classify (priced W s) ([], [], []) s) as [[r2 s2] ev2].
  reflexivity.
Qed.

Lemma evaluate_quiet (s : State Chain) r s' ev :
  evaluate W s = (r, s', ev) ->
  s' = s /\ Forall (fun e => quiet e = true) ev.
Proof.
  rewrite evaluate_run.
  destruct (classify _ _ s) as [[r2 s2] ev2] eqn:E.
  intros [= <- <- <-]. apply classify_quiet in E. destruct E as [-> Hq].
  split; [reflexivity | constructor; [reflexivity | exact Hq]].
Qed.

(** What a completed evaluation has computed for every open position. *)
Lemma evaluate_ok (s : State Chain) cp sw dr s' ev :
  evaluate W s = (Ok (cp, sw, dr), s', ev) ->
  dict_wf (buys s) ->
  dict_wf cp /\
  NoDup dr /\
  (forall k, In k dr -> dict_get k (buys s) <> None) /\
  (forall k b, dict_get k (buys s) = Some b ->
     exists r0 r1 t c p,
       getReserves W (chain s) (pair_address b) = (r0, r1, t) /\
       int_truediv r0 r1 = Ok c /\
       dict_get k cp = Some c /\
       position_pnl c (price b) = Ok p /\
       (gtb p f_1000 = true ->
          dict_get k sw = Some (token_address b) /\ ~ In k dr) /\
       (gtb p f_1000 = false -> ltb p f_99 = true -> In k dr)).
Proof.
  rewrite evaluate_run.
  destruct (classify _ _ s) as [[r2 s2] ev2] eqn:E.
  intros [= -> <- <-] Hwf.
  apply classify_ok in E.
  destruct E as (Hcp & _ & (l & Hl & Hin & Hnd) & Hall).
  simpl in Hl. subst l. rewrite priced_keys in *.
  split; [apply Hcp; constructor|].
  split; [auto|].
  split; [intros k Hk; now apply Hin|].
  intros k b Hb.
  destruct (getReserves W (chain s) (pair_address b)) as [[r0 r1] t] eqn:Hres.
  assert (Hitem : In (k, (r0, r1, t)) (priced W s)).
  { unfold priced. apply dict_get_Some_In in Hb.
    apply (in_map (fun kv =>
                     (fst kv, getReserves W (chain s) (pair_address (snd kv)))))
      in Hb.
    simpl in Hb. rewrite Hres in Hb. exact Hb. }
  destruct (Hall Hwf k r0 r1 t Hitem) as (c & Hc & Hget & Hv).
  destruct (Hv b Hb) as (p & Hp & Hs & Hd).
  exists r0, r1, t, c, p.
  split; [reflexivity|]. split; [exact Hc|]. split; [exact Hget|].
  split; [exact Hp|]. split; [|exact Hd].
  intros Hgt. destruct (Hs Hgt) as [Hset Hno]. split; [exact Hset|].
  intros Hdr. apply Hno in Hdr. destruct Hdr.
Qed.

End EvaluateFacts.

Section DropFacts.
Context {Chain : Type}.

Lemma drop_all_run ks : forall (s : State Chain),
  NoDup ks ->
  (forall k, In k ks -> dict_get k (buys s) <> None) ->
  drop_all ks s =
    (Ok tt, mkState (remove_all ks (buys s)) (chain s), map EvStorePop ks).
Proof.
  induction ks as [|a ks IH]; intros s Hnd Hin; simpl.
  - destruct s; reflexivity.
  - inversion Hnd as [|? ? Hnotin Hrest]; subst.
    unfold bind, store_pop, dict_pop.
    destruct (dict_get a (buys s)) as [b|] eqn:Ha;
      [|exfalso; apply (Hin a); [now left | exact Ha]].
    rewrite IH; [reflexivity | exact Hrest |].
    intros k Hk. simpl.
    rewrite dict_get_remove_other; [apply Hin; now right|].
    intros ->. contradiction.
Qed.

Lemma pops_map_pop ks : pops (map EvStorePop ks) = ks.
Proof.
  induction ks as [|a ks IH]; [reflexivity|].
  unfold pops in *. simpl. now rewrite IH.
Qed.

Lemma submitted_map_pop ks : submitted (map EvStorePop ks) = [].
Proof. induction ks as [|a ks IH]; [reflexivity | exact IH]. Qed.

End DropFacts.

Section SellFacts.
Context {Chain : Type} (W : World Chain).

(** One turn of the selling loop: either the turn raises, or the symbol
    is popped and then skipped (no balance) or sold (its swap is appended
    and its price is popped from [current_prices]). *)
Lemma sell_all_cons account symbol token rest plan cp
      (s : State Chain) r s' ev :
  sell_all W account ((symbol, token) :: rest) plan cp s = (r, s', ev) ->
  (exists e,
      r = Raise e /\ submitted ev = [] /\
      forall k, dict_get k (buys s) = None -> dict_get k (buys s') = None) \/
  (exists b s1 plan1 cp1 evh ev2,
      dict_get symbol (buys s) = Some b /\
      buys s1 = dict_remove symbol (buys s) /\
      sell_all W account rest plan1 cp1 s1 = (r, s', ev2) /\
      ev = evh ++ ev2 /\
      pops evh = [symbol] /\
      submitted evh = [] /\
      ((selling evh = [] /\ skipped evh = [symbol] /\
        plan1 = plan /\ cp1 = cp) \/
       (selling evh = [symbol] /\ skipped evh = [] /\
        swapped_tokens plan1 = swapped_tokens plan ++ [token] /\
        cp1 = dict_remove symbol cp /\
        dict_get symbol cp <> None))).
Proof.
  simpl. unfold bind at 1. unfold store_pop, dict_pop.
  destruct (dict_get symbol (buys s)) as [b|] eqn:Hb.
  2:{ intros [= <- <- <-]. left. eexists. auto. }
  assert (Hmono : forall k,
             dict_get k (buys s) = None ->
             dict_get k (dict_remove symbol (buys s)) = None)
    by (intros k; apply dict_get_remove_None).
  unfold bind at 1. unfold read at 1. cbn [chain buys].
  destruct (erc20_balanceOf W (chain s) token account =? 0) eqn:Hheld.
  - unfold bind at 1. unfold print, emit.
    match goal with
    | |- context [sell_all W account rest plan cp ?st] =>
        destruct (sell_all W account rest plan cp st) as [[r2 s2] ev2] eqn:E
    end.
    intros [= <- <- <-]. right.
    exists b, (mkState (dict_remove symbol (buys s)) (chain s)), plan, cp.
    exists [EvStorePop symbol; EvRead (RBalanceOf token account);
            EvPrint (LogNoBalance symbol)], ev2.
    split; [reflexivity|]. split; [reflexivity|].
    split; [exact E|]. split; [reflexivity|].
    split; [reflexivity|]. split; [reflexivity|]. left. auto.
  - unfold bind at 1. unfold read at 1. cbn [chain buys].
    unfold bind at 1. unfold read at 1. cbn [chain buys].
    unfold bind at 1.
    set (bal := erc20_balanceOf W (chain s) token account).
    set (allowed := erc20_allowance W (chain s) (pair_address b) account
                                    (router_contract W)).
    set (tail := fun c : Chain =>
                   (if allowed <? bal
                    then [EvApprove (pair_address b) (router_contract W)
                                    MAX_UINT256 account]
                    else [])).
    assert (Hap : exists c1,
               (if allowed <? bal
                then approve W (pair_address b) (router_contract W)
                             MAX_UINT256 account
                else ret tt)
                 (mkState (dict_remove symbol (buys s)) (chain s)) =
               (Ok tt, mkState (dict_remove symbol (buys s)) c1,
                tail c1)).
    { unfold tail. destruct (allowed <? bal); eexists; reflexivity. }
    destruct Hap as (c1 & ->).
    unfold bind at 1. unfold lift at 1.
    destruct (float_mul_int f_0_95 bal) as [scaled|];
      [|intros [= <- <- <-]; left; eexists;
        split; [reflexivity|];
        split; [unfold tail; destruct (allowed <? bal); reflexivity
               | exact Hmono]].
    unfold bind at 1. unfold lift at 1. unfold dict_pop.
    destruct (dict_get symbol cp) as [c|] eqn:Hc;
      [|intros [= <- <- <-]; left; eexists;
        split; [reflexivity|];
        split; [unfold tail; destruct (allowed <? bal); reflexivity
               | exact Hmono]].
    unfold bind at 1. unfold lift at 1.
    destruct (truediv scaled c) as [fl|];
      [|intros [= <- <- <-]; left; eexists;
        split; [reflexivity|];
        split; [unfold tail; destruct (allowed <? bal); reflexivity
               | exact Hmono]].
    unfold bind at 1. unfold lift at 1.
    destruct (to_int fl) as [amount_out_min|];
      [|intros [= <- <- <-]; left; eexists;
        split; [reflexivity|];
        split; [unfold tail; destruct (allowed <? bal); reflexivity
               | exact Hmono]].
    unfold bind at 1. unfold read at 1. cbn [chain buys].
    unfold bind at 1. unfold lift at 1.
    destruct (int_truediv bal (pow10 (erc20_decimals W c1 token))) as [qty|];
      [|intros [= <- <- <-]; left; eexists;
        split; [reflexivity|];
        split; [unfold tail; destruct (allowed <? bal); reflexivity
               | exact Hmono]].
    unfold bind at 1. unfold print, emit.
    match goal with
    | |- context [sell_all W account rest ?p ?d ?st] =>
        destruct (sell_all W account rest p d st) as [[r2 s2] ev2] eqn:E
    end.
    intros [= <- <- <-]. right.
    exists b, (mkState (dict_remove symbol (buys s)) c1). do 2 eexists.
    exists ([EvStorePop symbol; EvRead (RBalanceOf token account);
             EvRead (RBalanceOf token account);
             EvRead (RAllowance (pair_address b) account (router_contract W))]
              ++ tail c1 ++
              [EvRead (RDecimals token); EvPrint (LogSelling qty symbol)]),
           ev2.
    split; [reflexivity|]. split; [reflexivity|].
    split; [exact E|].
    split; [unfold tail; destruct (allowed <? bal); reflexivity|].
    split; [unfold tail; destruct (allowed <? bal); reflexivity|].
    split; [unfold tail; destruct (allowed <? bal); reflexivity|].
    right.
    split; [unfold tail; destruct (allowed <? bal); reflexivity|].
    split; [unfold tail; destruct (allowed <? bal); reflexivity|].
    split.
    { unfold plan_add. rewrite !swapped_tokens_app. simpl.
      now rewrite app_nil_r. }
    split; [reflexivity | discriminate].
Qed.


(** However the selling loop ends, it submits nothing to the router and
    adds no position to the store. *)
Lemma sell_all_any account items :
  forall plan cp (s : State Chain) r s' ev,
    sell_all W account items plan cp s = (r, s', ev) ->
    submitted ev = [] /\
    forall k, dict_get k (buys s) = None -> dict_get k (buys s') = None.
Proof.
  induction items as [|[symbol token] rest IH]; intros plan cp s r s' ev H.
  - simpl in H. unfold ret in H. injection H as <- <- <-. auto.
  - apply sell_all_cons in H.
    destruct H as [(e & _ & Hsub & Hmono)|
                   (b & s1 & plan1 & cp1 & evh & ev2 &
                    Hb & Hs1 & Hrest & -> & _ & Hsub & _)]; [auto|].
    apply IH in Hrest. destruct Hrest as [Hsub2 Hmono2].
    rewrite submitted_app, Hsub, Hsub2. split; [reflexivity|].
    intros k Hk. apply Hmono2. rewrite Hs1. now apply dict_get_remove_None.
Qed.

(** A selling loop that completes has popped every symbol of
    [tokens_to_swap] once, in order; the symbols it announced as sold are
    the ones whose swap is in the plan and whose price left
    [current_prices]; the symbols it skipped kept their price. *)
Lemma sell_all_ok account items :
  forall plan cp (s : State Chain) plan' cp' s' ev,
    sell_all W account items plan cp s = (Ok (plan', cp'), s', ev) ->
    pops ev = map fst items /\
    buys s' = remove_all (map fst items) (buys s) /\
    (dict_wf (buys s) -> NoDup (map fst items)) /\
    (forall k, In k (map fst items) -> dict_get k (buys s) <> None) /\
    incl (selling ev) (map fst items) /\
    incl (skipped ev) (map fst items) /\
    (exists sold,
        incl sold items /\ selling ev = map fst sold /\
        swapped_tokens plan' = swapped_tokens plan ++ map snd sold) /\
    (dict_wf cp ->
       (forall k, In k (selling ev) -> dict_get k cp' = None) /\
       (forall k, ~ In k (selling ev) -> dict_get k cp' = dict_get k cp)) /\
    (dict_wf (buys s) ->
       forall k, In k (skipped ev) -> ~ In k (selling ev)).
Proof.
  induction items as [|[symbol token] rest IH];
    intros plan cp s plan' cp' s' ev H.
  - simpl in H. unfold ret in H. injection H as <- <- <- <-. simpl.
    split; [reflexivity|]. split; [reflexivity|].
    split; [constructor|]. split; [intros k []|].
    split; [apply incl_nil_l|]. split; [apply incl_nil_l|].
    split.
    { exists []. rewrite app_nil_r. repeat split. apply incl_nil_l. }
    split; [|intros _ k []].
    intros _. split; [intros k [] | reflexivity].
  - apply sell_all_cons in H.
    destruct H as [(e & He & _)|
                   (b & s1 & plan1 & cp1 & evh & ev2 &
                    Hb & Hs1 & Hrest & -> & Hpop & Hsub & Hcase)];
      [discriminate|].
    apply IH in Hrest.
    destruct Hrest as (Hpops & Hbuys & Hnd & Hpresent & Hsell & Hskip &
                       (sold & Hsold & Hsellmap & Hplan) & Hprices & Hdisj).
    assert (Hgone : dict_wf (buys s) -> ~ In symbol (map fst rest)).
    { intros Hwf Hin. apply (Hpresent symbol Hin).
      rewrite Hs1. now apply dict_get_remove_same. }
    assert (Hwf1 : dict_wf (buys s) -> dict_wf (buys s1))
      by (rewrite Hs1; apply dict_wf_remove).
    rewrite pops_app, selling_app, skipped_app, Hpop, Hpops. simpl.
    split; [reflexivity|].
    split; [now rewrite Hbuys, Hs1|].
    split; [intros Hwf; constructor; auto|].
    split.
    { intros k [<-|Hk]; [congruence|].
      intros Habs. apply (Hpresent k Hk). rewrite Hs1.
      now apply dict_get_remove_None. }
    destruct Hcase as [(Hs & Hk & -> & ->)|(Hs & Hk & Hp1 & -> & Hc)];
      rewrite Hs, Hk; simpl.
    + split; [now apply incl_tl|].
      split; [apply incl_cons; [now left | now apply incl_tl]|].
      split.
      { exists sold. split; [now apply incl_tl | auto]. }
      split; [exact Hprices|].
      intros Hwf k [<-|Hin].
      * intros Hin. apply (Hgone Hwf). now apply Hsell.
      * now apply Hdisj; auto.
    + split; [apply incl_cons; [now left | now apply incl_tl]|].
      split; [now apply incl_tl|].
      split.
      { exists ((symbol, token) :: sold). simpl.
        split; [apply incl_cons; [now left | now apply incl_tl]|].
        split; [now rewrite Hsellmap|].
        rewrite Hplan, Hp1, <- app_assoc. reflexivity. }
      split.
      { intros Hwf.
        destruct (Hprices (dict_wf_remove _ _ Hwf)) as [Hnone Hkeep].
        split.
        - intros k [<-|Hin]; [|auto].
          destruct (in_dec string_dec symbol (selling ev2)) as [Hi|Hni];
            [auto|].
          rewrite (Hkeep _ Hni). now apply dict_get_remove_same.
        - intros k Hnot.
          rewrite Hkeep by (intros Hi; apply Hnot; now right).
          apply dict_get_remove_other. intros ->. apply Hnot. now left. }
      intros Hwf k Hin [<-|Hin2].
      * apply (Hgone Hwf). now apply Hskip.
      * now apply (Hdisj (Hwf1 Hwf) k).
Qed.

End SellFacts.

Section CloseFacts.
Context {Chain : Type} (W : World Chain).

Lemma in_execute_submitted ev p d a v res :
  In (EvExecute p d a v res) ev -> In p (submitted ev).
Proof.
  unfold submitted. intros H. apply in_flat_map.
  exists (EvExecute p d a v res). split; [exact H | now left].
Qed.

(** However the batched exit ends, it adds no position to the store, and
    a failed submission is what it raises. *)
Lemma close_all_any blk account sw cp (s : State Chain) r s' ev :
  close_all W blk account sw cp s = (r, s', ev) ->
  (forall k, dict_get k (buys s) = None -> dict_get k (buys s') = None) /\
  (forall p d a v res,
      In (EvExecute p d a v res) ev ->
      submission_failed res = true ->
      r = Raise (failure_of res)).
Proof.
  unfold close_all. intros H. apply bind_inv in H.
  destruct H as [(e & Hsell & ->)|
                 ([plan cp'] & s1 & ev1 & ev2 & Hsell & Hk & ->)].
  - apply sell_all_any in Hsell. destruct Hsell as [Hsub Hmono].
    split; [exact Hmono|].
    intros p d a v res Hin. apply in_execute_submitted in Hin.
    rewrite Hsub in Hin. destruct Hin.
  - apply sell_all_any in Hsell. destruct Hsell as [Hsub Hmono].
    revert Hk. unfold bind, read, execute, print, emit, lift, ret.
    cbn [chain buys].
    destruct (router_execute W (chain s1) _ _ _ _) as [[tx|e] c'] eqn:Hexec.
    + destruct (failed tx) eqn:Hfailed; intros [= <- <- <-];
        (split; [exact Hmono|]);
        intros p d a v res Hin Hfail;
        apply in_app_or in Hin;
        (destruct Hin as [Hin|Hin];
         [apply in_execute_submitted in Hin; rewrite Hsub in Hin;
          destruct Hin|]).
      * simpl in Hin.
        destruct Hin as [Hin|[Hin|[Hin|Hin]]]; try discriminate;
          [|destruct Hin].
        injection Hin as <- <- <- <- <-. reflexivity.
      * simpl in Hin.
        destruct Hin as [Hin|[Hin|[Hin|[Hin|Hin]]]]; try discriminate;
          [|destruct Hin].
        injection Hin as <- <- <- <- <-. simpl in Hfail. congruence.
    + intros [= <- <- <-]. split; [exact Hmono|].
      intros p d a v res Hin Hfail.
      apply in_app_or in Hin.
      destruct Hin as [Hin|Hin];
        [apply in_execute_submitted in Hin; rewrite Hsub in Hin;
         destruct Hin|].
      simpl in Hin.
      destruct Hin as [Hin|[Hin|Hin]]; try discriminate; [|destruct Hin].
      injection Hin as <- <- <- <- <-. reflexivity.
Qed.

(** A batched exit that returns has sold through exactly one plan, built
    by the selling loop and closed by the unwrap command. *)
Lemma close_all_ok blk account sw cp (s : State Chain) out s' ev :
  close_all W blk account sw cp s = (Ok out, s', ev) ->
  exists plan cp' s1 ev1 evt,
    sell_all W account sw [] cp s = (Ok (plan, cp'), s1, ev1) /\
    out = Some cp' /\
    buys s' = buys s1 /\
    ev = ev1 ++ evt /\
    pops evt = [] /\ selling evt = [] /\ skipped evt = [] /\
    submitted evt = [plan_add plan (UNWRAP_WETH MSG_SENDER 0)].
Proof.
  unfold close_all. intros H. apply bind_ok_inv in H.
  destruct H as ([plan cp'] & s1 & ev1 & ev2 & Hsell & Hk & ->).
  revert Hk. unfold bind, read, execute, print, emit, lift, ret.
  cbn [chain buys].
  destruct (router_execute W (chain s1) _ _ _ _) as [[tx|e] c'] eqn:Hexec;
    [|discriminate].
  destruct (failed tx) eqn:Hfailed; [discriminate|].
  intros [= <- <- <-].
  exists plan, cp', s1, ev1. eexists.
  split; [exact Hsell|]. split; [reflexivity|]. split; [reflexivity|].
  split; [reflexivity|]. repeat split.
Qed.

End CloseFacts.

Section PnlFacts.
Context {Chain : Type} (W : World Chain).

Lemma length_zero_nil {A} (l : list A) :
  (List.length l =? 0)%nat = true <-> l = [].
Proof.
  destruct l; simpl; split; intros H; try reflexivity; discriminate.
Qed.

Lemma drop_all_any ks : forall (s : State Chain) r s' ev,
  drop_all ks s = (r, s', ev) ->
  submitted ev = [] /\
  Forall (fun e => is_transaction e = false) ev.
Proof.
  induction ks as [|a ks IH]; intros s r s' ev; simpl.
  - intros [= <- <- <-]. auto.
  - unfold bind, store_pop.
    destruct (dict_pop a (buys s)) as [[b d]|e].
    + destruct (drop_all ks _) as [[r2 s2] ev2] eqn:E.
      intros [= <- <- <-]. apply IH in E. destruct E as [Hsub Htx].
      split; [exact Hsub | constructor; [reflexivity | exact Htx]].
    + intros [= <- <- <-]. auto.
Qed.

(** The shape of a tick once the evaluation has completed: the drops,
    then -- with a signer and something to sell -- the batched exit. *)
Lemma pnl_after_evaluate blk (s : State Chain) cp sw dr s1 ev1 :
  dict_wf (buys s) ->
  buys s <> [] ->
  evaluate W s = (Ok (cp, sw, dr), s1, ev1) ->
  let mid := mkState (remove_all dr (buys s)) (chain s) in
  pnl W blk s =
    match signer W, sw with
    | None, _ | Some _, [] =>
        (Ok (Some cp), mid, ev1 ++ map EvStorePop dr ++ [])
    | Some account, _ :: _ =>
        let '(r, s', ev2) := close_all W blk account sw cp mid in
        (r, s', ev1 ++ map EvStorePop dr ++ ev2)
    end.
Proof.
  intros Hwf Hne Heval mid.
  destruct (evaluate_quiet W _ _ _ _ Heval) as [-> _].
  destruct (evaluate_ok W _ _ _ _ _ _ Heval Hwf) as (_ & Hnd & Hin & _).
  unfold pnl. unfold bind at 1. unfold get_buys.
  destruct (List.length (buys s) =? 0)%nat eqn:Hlen;
    [apply length_zero_nil in Hlen; contradiction|].
  rewrite (bind_ok _ _ _ _ _ _ Heval).
  rewrite (bind_ok _ _ _ _ _ _ (drop_all_run dr s Hnd Hin)).
  fold mid.
  destruct (signer W) as [account|]; [destruct sw as [|item sw]|];
    try reflexivity.
  destruct (close_all W blk account (item :: sw) cp mid) as [[r s'] ev2].
  reflexivity.
Qed.

End PnlFacts.

Section ExitClaims.
Context {Chain : Type} (W : World Chain).

(** C8 (as implemented). A tick on an empty position store changes
    nothing -- neither the store nor the chain -- and calls no
    collaborator: the handler prints ["No buys yet"] and returns without
    a value ([None], not an empty price map), so that no price is
    reported for the tick. *)
Theorem pnl_empty_store_noop (blk : Block) (s : State Chain) :
  buys s = [] ->
  pnl W blk s = (Ok None, s, [EvPrint LogNoBuys]) /\
  forallb (fun e => negb (is_external e)) [EvPrint LogNoBuys] = true.
Proof.
  intros Hempty. split; [|reflexivity].
  unfold pnl, bind, get_buys, print, emit, ret.
  rewrite Hempty. reflexivity.
Qed.

(** A position below the drop threshold, on a tick whose evaluation
    completes: it is marked, popped before any transaction, and absent
    from the store however the tick ends. *)
Lemma dropped_below_99 blk (s : State Chain) k b r0 r1 t c p
      cp sw dr s1 ev1 r s' ev :
  dict_wf (buys s) ->
  dict_get k (buys s) = Some b ->
  getReserves W (chain s) (pair_address b) = (r0, r1, t) ->
  int_truediv r0 r1 = Ok c ->
  position_pnl c (price b) = Ok p ->
  ltb p f_99 = true ->
  evaluate W s = (Ok (cp, sw, dr), s1, ev1) ->
  pnl W blk s = (r, s', ev) ->
  In k dr /\
  dict_get k (buys s') = None /\
  exists pre post,
    ev = pre ++ EvStorePop k :: post /\
    Forall (fun e => is_transaction e = false) pre.
Proof.
  intros Hwf Hb Hres Hc Hp Hlt Heval Hrun.
  assert (Hne : buys s <> []) by (intros E; rewrite E in Hb; discriminate).
  destruct (evaluate_quiet W _ _ _ _ Heval) as [_ Hquiet].
  destruct (evaluate_ok W _ _ _ _ _ _ Heval Hwf) as (_ & _ & _ & Hall).
  destruct (Hall k b Hb) as (r0' & r1' & t' & c' & p' &
                             Hres' & Hc' & _ & Hp' & _ & Hdrop).
  rewrite Hres in Hres'. injection Hres' as <- <- <-.
  rewrite Hc in Hc'. injection Hc' as <-.
  rewrite Hp in Hp'. injection Hp' as <-.
  assert (Hk : In k dr)
    by (apply Hdrop; [now apply below_99_not_above_1000 | exact Hlt]).
  split; [exact Hk|].
  assert (Hmid : dict_get k (remove_all dr (buys s)) = None)
    by (now apply remove_all_removed).
  assert (Hpre : forall l1,
             Forall (fun e => is_transaction e = false)
                    (ev1 ++ map EvStorePop l1)).
  { intros l1. apply Forall_app. split.
    - eapply Forall_impl; [|exact Hquiet].
      intros e. apply quiet_not_transaction.
    - apply Forall_forall. intros e He. apply in_map_iff in He.
      destruct He as (x & <- & _). reflexivity. }
  destruct (in_split _ _ Hk) as (l1 & l2 & Hdr).
  rewrite (pnl_after_evaluate W blk s cp sw dr s1 ev1 Hwf Hne Heval) in Hrun.
  cbv zeta in Hrun.
  destruct (signer W) as [account|]; [destruct sw as [|item sw]|].
  - injection Hrun as <- <- <-. split; [exact Hmid|].
    exists (ev1 ++ map EvStorePop l1), (map EvStorePop l2 ++ []).
    split; [|apply Hpre].
    rewrite Hdr, map_app, <- !app_assoc. reflexivity.
  - destruct (close_all W blk account (item :: sw) cp _)
      as [[r2 s2] ev2] eqn:Hclose.
    injection Hrun as <- <- <-.
    apply close_all_any in Hclose. destruct Hclose as [Hmono _].
    split; [now apply Hmono|].
    exists (ev1 ++ map EvStorePop l1), (map EvStorePop l2 ++ ev2).
    split; [|apply Hpre].
    rewrite Hdr, map_app, <- !app_assoc. reflexivity.
  - injection Hrun as <- <- <-. split; [exact Hmid|].
    exists (ev1 ++ map EvStorePop l1), (map EvStorePop l2 ++ []).
    split; [|apply Hpre].
    rewrite Hdr, map_app, <- !app_assoc. reflexivity.
Qed.


(** C2 (as implemented). For an open position entered at 0.002 whose pool now
    prices it at 0.00001, the [pnl] is the double nearest to -0.995; that
    value is below 99.0 and not above 1000.0, so on a tick whose
    evaluation completes the position is marked for drop and is absent
    from the position store after the tick. *)
Theorem pnl_drops_crashed_position
        (blk : Block) (s : State Chain) (k : string) (b : Buy)
        (r0 r1 t : Z) (cp : dict float) (sw : dict address)
        (dr : list string) (s1 : State Chain) (ev1 : list Event)
        (r : pyresult (option (dict float))) (s' : State Chain)
        (ev : list Event) :
  dict_wf (buys s) ->
  dict_get k (buys s) = Some b ->
  price b = Demo.f_0_002 ->
  getReserves W (chain s) (pair_address b) = (r0, r1, t) ->
  int_truediv r0 r1 = Ok Demo.f_0_00001 ->
  evaluate W s = (Ok (cp, sw, dr), s1, ev1) ->
  pnl W blk s = (r, s', ev) ->
  position_pnl Demo.f_0_00001 Demo.f_0_002 = Ok Demo.f_minus_0_995 /\
  ltb Demo.f_minus_0_995 f_99 = true /\
  gtb Demo.f_minus_0_995 f_1000 = false /\
  In k dr /\
  dict_get k (buys s') = None.
Proof.
  intros Hwf Hb Hprice Hres Hc Heval Hrun.
  assert (Hp : position_pnl Demo.f_0_00001 Demo.f_0_002 =
               Ok Demo.f_minus_0_995) by (vm_compute; reflexivity).
  assert (Hlt : ltb Demo.f_minus_0_995 f_99 = true) by reflexivity.
  split; [exact Hp|]. split; [exact Hlt|]. split; [reflexivity|].
  rewrite <- Hprice in Hp.
  destruct (dropped_below_99 blk s k b r0 r1 t Demo.f_0_00001
                             Demo.f_minus_0_995 cp sw dr s1 ev1 r s' ev)
    as (Hk & Hgone & _); auto.
Qed.


(** A live tick that returns: what was popped, what was sold and what is
    reported, in terms of the marks of the evaluation. *)
Lemma pnl_live_ok blk (s : State Chain) account cp sw dr s1 ev1
      out s' ev :
  signer W = Some account ->
  dict_wf (buys s) ->
  buys s <> [] ->
  evaluate W s = (Ok (cp, sw, dr), s1, ev1) ->
  sw <> [] ->
  pnl W blk s = (Ok out, s', ev) ->
  let mid := mkState (remove_all dr (buys s)) (chain s) in
  exists plan cp' s2 ev2 evt,
    sell_all W account sw [] cp mid = (Ok (plan, cp'), s2, ev2) /\
    out = Some cp' /\
    buys s' = buys s2 /\
    ev = ev1 ++ map EvStorePop dr ++ ev2 ++ evt /\
    pops ev = dr ++ map fst sw /\
    selling ev = selling ev2 /\
    skipped ev = skipped ev2 /\
    submitted ev = [plan_add plan (UNWRAP_WETH MSG_SENDER 0)].
Proof.
  intros Hmode Hwf Hne Heval Hsw Hrun mid.
  destruct (evaluate_quiet W _ _ _ _ Heval) as [_ Hquiet].
  rewrite (pnl_after_evaluate W blk s cp sw dr s1 ev1 Hwf Hne Heval) in Hrun.
  cbv zeta in Hrun. rewrite Hmode in Hrun.
  destruct sw as [|item sw]; [contradiction|].
  fold mid in Hrun.
  destruct (close_all W blk account (item :: sw) cp mid)
    as [[r2 s2] ev2] eqn:Hclose.
  injection Hrun as -> <- <-.
  apply close_all_ok in Hclose.
  destruct Hclose as (plan & cp' & s3 & ev3 & evt & Hsell & -> & Hb & -> &
                      Hp & Hs & Hk & Hsub).
  exists plan, cp', s3, ev3, evt.
  split; [exact Hsell|]. split; [reflexivity|]. split; [exact Hb|].
  split; [reflexivity|].
  pose proof (sell_all_ok W _ _ _ _ _ _ _ _ _ Hsell) as (Hpops & _).
  pose proof (sell_all_any W _ _ _ _ _ _ _ _ Hsell) as (Hnosub & _).
  assert (Hq1 : selling ev1 = [] /\ skipped ev1 = []).
  { clear - Hquiet. induction Hquiet as [|e l He _ [IH1 IH2]]; [auto|].
    unfold selling, skipped in *. simpl. rewrite IH1, IH2.
    destruct e as [[]| | | | | |]; simpl in *; try discriminate; auto. }
  assert (Hq2 : selling (map EvStorePop dr) = [] /\
                skipped (map EvStorePop dr) = []).
  { clear. induction dr as [|a l [IH1 IH2]]; [auto|]. simpl. auto. }
  destruct Hq1 as [Hq1s Hq1k]. destruct Hq2 as [Hq2s Hq2k].
  rewrite !pops_app, !selling_app, !skipped_app, !submitted_app.
  rewrite (quiet_pops _ Hquiet), (quiet_submitted _ Hquiet).
  rewrite pops_map_pop, submitted_map_pop.
  rewrite Hpops, Hp, Hs, Hk, Hsub, Hnosub, Hq1s, Hq1k, Hq2s, Hq2k.
  simpl. rewrite !app_nil_r. auto.
Qed.


(** C9. Whenever the router submission of a tick fails -- the router
    raises, or the receipt is marked failed -- the tick raises that
    failure to its caller; in particular it does not return a value. *)
Theorem pnl_failed_exit_raises
        (blk : Block) (s : State Chain)
        (r : pyresult (option (dict float))) (s' : State Chain)
        (ev : list Event) (p : Plan) (d : Z) (a : address) (v : Z)
        (res : pyresult Receipt) :
  pnl W blk s = (r, s', ev) ->
  In (EvExecute p d a v res) ev ->
  submission_failed res = true ->
  r = Raise (failure_of res) /\ forall out, r <> Ok out.
Proof.
  intros Hrun Hin Hfail.
  cut (r = Raise (failure_of res)); [intros ->; split; [auto | discriminate]|].
  revert Hrun. unfold pnl. unfold bind at 1. unfold get_buys.
  destruct (List.length (buys s) =? 0)%nat.
  - unfold bind, print, emit, ret. intros [= <- <- <-].
    destruct Hin as [Hin|[]]. discriminate.
  - destruct (bind _ _ s) as [[r2 s2] ev2] eqn:H.
    intros [= <- <- <-]. simpl in Hin.
    apply bind_inv in H.
    destruct H as [(e & Heval & ->)|
                   ([[cp sw] dr] & s1 & ev1 & ev3 & Heval & H & ->)].
    { apply evaluate_quiet in Heval. destruct Heval as [_ Hq].
      apply in_execute_submitted in Hin.
      rewrite (quiet_submitted _ Hq) in Hin. destruct Hin. }
    apply evaluate_quiet in Heval. destruct Heval as [_ Hq].
    apply in_app_or in Hin. destruct Hin as [Hin|Hin].
    { apply in_execute_submitted in Hin.
      rewrite (quiet_submitted _ Hq) in Hin. destruct Hin. }
    apply bind_inv in H.
    destruct H as [(e & Hdrop & ->)|
                   ([] & s3 & ev4 & ev5 & Hdrop & H & ->)].
    { apply drop_all_any in Hdrop. destruct Hdrop as [Hsub _].
      apply in_execute_submitted in Hin. rewrite Hsub in Hin.
      destruct Hin. }
    apply drop_all_any in Hdrop. destruct Hdrop as [Hsub _].
    apply in_app_or in Hin. destruct Hin as [Hin|Hin].
    { apply in_execute_submitted in Hin. rewrite Hsub in Hin.
      destruct Hin. }
    destruct (signer W) as [account|]; [destruct sw as [|item sw]|].
    + injection H as <- <- <-. destruct Hin.
    + apply close_all_any in H. destruct H as [_ H]. eauto.
    + injection H as <- <- <-. destruct Hin.
Qed.

(** C10. On a live tick with a non-empty profit-take set that returns a
    price map: one plan was submitted, its swaps are, in order, those of
    the symbols announced as sold, and none of these symbols has an entry
    in the returned map; every symbol that was dropped, and every symbol
    skipped because the signer held no balance of it, is in the returned
    map with the price computed for it on this tick. *)
Theorem pnl_reports_unsold_prices
        (blk : Block) (s : State Chain) (account : address)
        (cp : dict float) (sw : dict address) (dr : list string)
        (s1 : State Chain) (ev1 : list Event)
        (prices : dict float) (s' : State Chain) (ev : list Event) :
  signer W = Some account ->
  dict_wf (buys s) ->
  evaluate W s = (Ok (cp, sw, dr), s1, ev1) ->
  sw <> [] ->
  pnl W blk s = (Ok (Some prices), s', ev) ->
  (exists plan sold,
      submitted ev = [plan] /\
      incl sold sw /\
      selling ev = map fst sold /\
      swapped_tokens plan = map snd sold) /\
  (forall k, In k (selling ev) -> dict_get k prices = None) /\
  (forall k, In k dr \/ In k (skipped ev) ->
     exists b r0 r1 t c,
       dict_get k (buys s) = Some b /\
       getReserves W (chain s) (pair_address b) = (r0, r1, t) /\
       int_truediv r0 r1 = Ok c /\
       dict_get k prices = Some c).
Proof.
  intros Hmode Hwf Heval Hsw Hrun.
  assert (Hne : buys s <> []).
  { intros E. revert Hrun. unfold pnl, bind, get_buys, print, emit, ret.
    rewrite E. discriminate. }
  destruct (evaluate_ok W _ _ _ _ _ _ Heval Hwf)
    as (Hcpwf & _ & Hdrin & Hall).
  destruct (pnl_live_ok blk s account cp sw dr s1 ev1 _ s' ev
                        Hmode Hwf Hne Heval Hsw Hrun)
    as (plan & cp' & s2 & ev2 & evt & Hsell & Hout & _ & _ & _ &
        Hselling & Hskipped & Hsub).
  injection Hout as ->.
  pose proof (sell_all_ok W _ _ _ _ _ _ _ _ _ Hsell)
    as (_ & _ & _ & Hpresent & Hsellin & Hskipin &
        (sold & Hsold & Hsoldmap & Hplan) & Hprices & Hdisj).
  cbn [buys] in *.
  assert (Hwfmid : dict_wf (remove_all dr (buys s)))
    by (now apply remove_all_wf).
  destruct (Hprices Hcpwf) as [Hnone Hkeep].
  rewrite Hselling, Hskipped.
  split; [|split].
  - exists (plan_add plan (UNWRAP_WETH MSG_SENDER 0)), sold.
    split; [exact Hsub|]. split; [exact Hsold|]. split; [exact Hsoldmap|].
    unfold plan_add. rewrite swapped_tokens_app, Hplan. simpl.
    now rewrite app_nil_r.
  - exact Hnone.
  - intros k Hk.
    assert (Hunsold : ~ In k (selling ev2)).
    { destruct Hk as [Hk|Hk].
      - intros Hs. apply Hsellin in Hs. apply (Hpresent k Hs).
        now apply remove_all_removed.
      - now apply Hdisj. }
    assert (Hopen : dict_get k (buys s) <> None).
    { destruct Hk as [Hk|Hk]; [now apply Hdrin|].
      intros Habs. apply Hskipin in Hk. apply (Hpresent k Hk).
      now apply remove_all_get_None. }
    destruct (dict_get k (buys s)) as [b|] eqn:Hb; [|contradiction].
    destruct (Hall k b Hb) as (r0 & r1 & t & c & p & Hres & Hc & Hcp & _).
    exists b, r0, r1, t, c. repeat split; auto.
    rewrite (Hkeep k Hunsold). exact Hcp.
Qed.

End ExitClaims.

(** ** The handlers on the concrete world *)

Lemma demo_portfolio_wf : dict_wf (buys Demo.portfolio).
Proof.
  unfold dict_wf. simpl.
  repeat constructor; simpl; intuition discriminate.
Defined.

Lemma demo_rug_only_wf : dict_wf (buys Demo.rug_only).
Proof.
  unfold dict_wf. simpl.
  repeat constructor; simpl; intuition discriminate.
Defined.

(** C7 on an event whose base asset is USDC. *)
Lemma buy_other_base_no_effect_witness :
  token0 Demo.created_on_usdc <> WETH Demo.monitoring /\
  buy Demo.monitoring Demo.created_on_usdc Demo.no_positions =
    (Ok None, Demo.no_positions, []).
Proof.
  assert (H : token0 Demo.created_on_usdc <> WETH Demo.monitoring)
    by discriminate.
  split; [exact H|].
  exact (buy_other_base_no_effect Demo.monitoring Demo.created_on_usdc
                                  Demo.no_positions H).
Defined.

(** C6 on a model that answers zero. *)
Lemma buy_zero_score_no_position_witness :
  eqb zero zero = true /\
  snd (fst Demo.entry_indifferent) = Demo.no_positions.
Proof.
  split; [reflexivity|].
  exact (proj1 (buy_zero_score_no_position
                  Demo.indifferent Demo.created Demo.no_positions zero
                  eq_refl eq_refl
                  (fst (fst Demo.entry_indifferent))
                  (snd (fst Demo.entry_indifferent))
                  (snd Demo.entry_indifferent)
                  eq_refl)).
Defined.

(** C5 on reserves of 100 and 50 000, eighteen decimals. *)
Lemma buy_monitoring_records_unit_position_witness :
  int_truediv 100 50000 = Ok Demo.f_0_002 /\
  dict_get "MEME" (buys (snd (fst Demo.entry_monitoring))) =
    Some (mkBuy Demo.f_0_002 (10 ^ 18) 1700000000 "T_MEME" "POOL").
Proof.
  split; [reflexivity|].
  destruct (buy_monitoring_records_unit_position
              Demo.monitoring Demo.created Demo.no_positions
              100 50000 0 Demo.f_0_002 Demo.f_0_1
              eq_refl eq_refl eq_refl eq_refl eq_refl eq_refl)
    as ((ev & Hrun & _) & Hget & _).
  unfold Demo.entry_monitoring. rewrite Hrun. exact Hget.
Defined.

(** C3 on a purchase of 10^18 that yields 500 * 10^18 tokens. *)
Lemma buy_live_entry_price_witness :
  fst (fst Demo.entry_live) = Ok (Some [("MEME", Demo.live_entry_price)]) /\
  int_truediv Demo.acquired (pow10 18) = Ok Demo.f_500 /\
  float_div_int Demo.f_500 Demo.purchase = Ok Demo.live_entry_price /\
  option_map price (dict_get "MEME" (buys (snd (fst Demo.entry_live)))) =
    Some Demo.live_entry_price.
Proof.
  assert (Hrun : buy Demo.live Demo.created Demo.no_positions =
                 (Ok (Some [("MEME", Demo.live_entry_price)]),
                  snd (fst Demo.entry_live), snd Demo.entry_live))
    by (vm_compute; reflexivity).
  split; [vm_compute; reflexivity|].
  split; [vm_compute; reflexivity|].
  split; [vm_compute; reflexivity|].
  destruct (buy_live_entry_price Demo.live Demo.created Demo.no_positions
                                 _ _ _ Hrun)
    as (account & ratio & scaled & pa & qty & bp & p & d & rc & b &
        _ & _ & _ & _ & _ & _ & _ & _ & Hget & Hprice & _ & _ & Hout).
  injection Hout as <-.
  change (symbol_of Demo.live Demo.created Demo.no_positions) with "MEME"
    in Hget.
  rewrite Hget. simpl. now rewrite Hprice.
Defined.

(** C3 as written fails on that purchase: the price recorded is not
    purchase / acquired (0.002) but its scaled inverse, and the amount
    recorded is the purchase amount, not the tokens acquired. *)
Lemma buy_live_entry_not_cost_basis :
  erc20_balanceOf Demo.live (chain (snd (fst Demo.entry_live)))
                  "T_MEME" "SIGNER"
  - erc20_balanceOf Demo.live (chain Demo.no_positions) "T_MEME" "SIGNER"
    = Demo.acquired /\
  In (EvExecute
        [WRAP_ETH ADDRESS_THIS Demo.purchase;
         V2_SWAP_EXACT_IN MSG_SENDER Demo.purchase 1990000000000000
                          ["WETH"; "T_MEME"] false]
        1700000120 "SIGNER" Demo.purchase (Ok Demo.success))
     (snd Demo.entry_live) /\
  int_truediv Demo.purchase Demo.acquired = Ok Demo.f_0_002 /\
  option_map price (dict_get "MEME" (buys (snd (fst Demo.entry_live)))) =
    Some Demo.live_entry_price /\
  Demo.live_entry_price <> Demo.f_0_002 /\
  option_map amount (dict_get "MEME" (buys (snd (fst Demo.entry_live)))) =
    Some Demo.purchase /\
  Demo.purchase <> Demo.acquired.
Proof.
  split; [vm_compute; reflexivity|].
  split; [vm_compute; do 6 right; left; reflexivity|].
  split; [vm_compute; reflexivity|].
  split; [vm_compute; reflexivity|].
  split; [discriminate|].
  split; [vm_compute; reflexivity|].
  vm_compute. discriminate.
Qed.

(** C8 on the empty store. *)
Lemma pnl_empty_store_noop_witness :
  buys Demo.no_positions = [] /\
  pnl Demo.live Demo.block Demo.no_positions =
    (Ok None, Demo.no_positions, [EvPrint LogNoBuys]).
Proof.
  split; [reflexivity|].
  exact (proj1 (pnl_empty_store_noop Demo.live Demo.block Demo.no_positions
                                     eq_refl)).
Defined.


(** C2 on the ["RUG"] position: entered at 0.002, now at 0.00001. *)
Lemma pnl_drops_crashed_position_witness :
  price (Demo.position "T_RUG" "POOL_RUG") = Demo.f_0_002 /\
  int_truediv 1 100000 = Ok Demo.f_0_00001 /\
  dict_get "RUG" (buys (snd (fst Demo.tick_monitoring_rug))) = None.
Proof.
  split; [reflexivity|]. split; [reflexivity|].
  assert (Heval : evaluate Demo.monitoring Demo.rug_only =
                  (Ok ([("RUG", Demo.f_0_00001)], [], ["RUG"]),
                   snd (fst (evaluate Demo.monitoring Demo.rug_only)),
                   snd (evaluate Demo.monitoring Demo.rug_only)))
    by (vm_compute; reflexivity).
  assert (Hrun : pnl Demo.monitoring Demo.block Demo.rug_only =
                 (fst (fst Demo.tick_monitoring_rug),
                  snd (fst Demo.tick_monitoring_rug),
                  snd Demo.tick_monitoring_rug))
    by (vm_compute; reflexivity).
  destruct (pnl_drops_crashed_position
              Demo.monitoring Demo.block Demo.rug_only "RUG"
              (Demo.position "T_RUG" "POOL_RUG") 1 100000 0
              _ _ _ _ _ _ _ _
              demo_rug_only_wf eq_refl eq_refl eq_refl eq_refl Heval Hrun)
    as (_ & _ & _ & _ & Hgone).
  exact Hgone.
Defined.

(** C2 as written fails on that position: -0.995 is below 99.0, the
    position is marked for drop and popped from the store. *)
Lemma pnl_crashed_position_is_dropped :
  position_pnl Demo.f_0_00001 Demo.f_0_002 = Ok Demo.f_minus_0_995 /\
  ltb Demo.f_minus_0_995 f_99 = true /\
  fst (fst (evaluate Demo.monitoring Demo.rug_only)) = Ok Demo.rug_marks /\
  dict_get "RUG" (buys Demo.rug_only) =
    Some (Demo.position "T_RUG" "POOL_RUG") /\
  dict_get "RUG" (buys (snd (fst Demo.tick_monitoring_rug))) = None /\
  pops (snd Demo.tick_monitoring_rug) = ["RUG"].
Proof. repeat split; vm_compute; reflexivity. Qed.



(** C9 on a router whose receipt is marked failed. *)
Lemma pnl_failed_exit_raises_witness :
  submission_failed (Ok Demo.reverted) = true /\
  fst (fst Demo.tick_reverting) =
    Raise (TransactionError "execution reverted").
Proof.
  split; [reflexivity|].
  assert (Hrun : pnl Demo.live_reverting Demo.block Demo.portfolio =
                 (fst (fst Demo.tick_reverting),
                  snd (fst Demo.tick_reverting),
                  snd Demo.tick_reverting))
    by (vm_compute; reflexivity).
  assert (Hin : In (EvExecute
                      [APPROVE_ERC20 "T_MOON" "POOL_MOON";
                       V2_SWAP_EXACT_IN ADDRESS_THIS 7 3
                                        ["T_MOON"; "WETH"] true;
                       UNWRAP_WETH MSG_SENDER 0]
                      1700000132 "SIGNER" 0 (Ok Demo.reverted))
                   (snd Demo.tick_reverting)).
  { vm_compute. do 16 right. left. reflexivity. }
  exact (proj1 (pnl_failed_exit_raises
                  Demo.live_reverting Demo.block Demo.portfolio
                  _ _ _ _ _ _ _ _ Hrun Hin eq_refl)).
Defined.

(** C10 on the live world: ["MOON"] is sold and left out, ["RUG"]
    (dropped) and ["GHOST"] (no balance) are reported. *)
Lemma pnl_reports_unsold_prices_witness :
  selling (snd Demo.tick_live) = ["MOON"] /\
  skipped (snd Demo.tick_live) = ["GHOST"] /\
  dict_get "MOON" [("RUG", Demo.f_0_00001); ("GHOST", Demo.f_2_2)] = None /\
  (exists b r0 r1 t c,
      dict_get "RUG" (buys Demo.portfolio) = Some b /\
      getReserves Demo.live (chain Demo.portfolio) (pair_address b) =
        (r0, r1, t) /\
      int_truediv r0 r1 = Ok c /\
      dict_get "RUG" [("RUG", Demo.f_0_00001); ("GHOST", Demo.f_2_2)] =
        Some c) /\
  (exists b r0 r1 t c,
      dict_get "GHOST" (buys Demo.portfolio) = Some b /\
      getReserves Demo.live (chain Demo.portfolio) (pair_address b) =
        (r0, r1, t) /\
      int_truediv r0 r1 = Ok c /\
      dict_get "GHOST" [("RUG", Demo.f_0_00001); ("GHOST", Demo.f_2_2)] =
        Some c).
Proof.
  assert (Hs : selling (snd Demo.tick_live) = ["MOON"])
    by (vm_compute; reflexivity).
  assert (Hk : skipped (snd Demo.tick_live) = ["GHOST"])
    by (vm_compute; reflexivity).
  assert (Heval : evaluate Demo.live Demo.portfolio =
                  (Ok (fst (fst Demo.portfolio_marks),
                       snd (fst Demo.portfolio_marks),
                       snd Demo.portfolio_marks),
                   snd (fst (evaluate Demo.live Demo.portfolio)),
                   snd (evaluate Demo.live Demo.portfolio)))
    by (vm_compute; reflexivity).
  assert (Hrun : pnl Demo.live Demo.block Demo.portfolio =
                 (Ok (Some [("RUG", Demo.f_0_00001); ("GHOST", Demo.f_2_2)]),
                  snd (fst Demo.tick_live), snd Demo.tick_live))
    by (vm_compute; reflexivity).
  assert (Hsw : snd (fst Demo.portfolio_marks) <> []) by discriminate.
  destruct (pnl_reports_unsold_prices
              Demo.live Demo.block Demo.portfolio "SIGNER" _ _ _ _ _ _ _ _
              eq_refl demo_portfolio_wf Heval Hsw Hrun)
    as (_ & Hsold & Hkept).
  split; [exact Hs|]. split; [exact Hk|].
  split; [apply Hsold; rewrite Hs; now left|].
  split.
  - apply Hkept. left. now left.
  - apply Hkept. right. rewrite Hk. now left.
Defined.

(** C8 as written fails on the empty store: the tick returns no value,
    which is not the empty price map. *)
Lemma pnl_empty_store_returns_none :
  buys Demo.no_positions = [] /\
  fst (fst (pnl Demo.live Demo.block Demo.no_positions)) = Ok None /\
  fst (fst (pnl Demo.live Demo.block Demo.no_positions)) <> Ok (Some []) /\
  fst (fst (pnl Demo.monitoring Demo.block Demo.no_positions)) = Ok None.
Proof.
  split; [reflexivity|]. split; [reflexivity|].
  split; [discriminate | reflexivity].
Qed.


(** * Further properties of the handlers *)

(** ** [buy] *)

Section BuyExtras.
Context {Chain : Type} (W : World Chain).

(** X1. When the sentiment model cannot be asked or its reply does not
    parse, an event on the reference asset whose pool has a spot price
    makes [buy] raise that very error after its four reads and the
    request: the state is as before, nothing is stored, nothing is
    submitted. *)
Theorem buy_sentiment_error_propagates
        (log : PairCreated) (s : State Chain)
        (reserve0 reserve1 ts : Z) (spot : float) (e : exn) :
  token0 log = WETH W ->
  getReserves W (chain s) (pair log) = (reserve0, reserve1, ts) ->
  int_truediv reserve0 reserve1 = Ok spot ->
  sentiment W (name_of W log s) (symbol_of W log s) = Raise e ->
  buy W log s =
    (Raise e, s,
     [EvRead (RSymbol (token1 log)); EvRead (RDecimals (token1 log));
      EvRead (RGetReserves (pair log)); EvRead (RName (token1 log));
      EvSentiment (name_of W log s) (symbol_of W log s)]).
Proof.
  unfold name_of, symbol_of. intros Hbase Hres Hspot Hscore.
  unfold buy. rewrite Hbase, String.eqb_refl. simpl.
  unfold bind, read, lift, ask_sentiment; simpl.
  rewrite Hres, Hspot, Hscore. destruct s; reflexivity.
Qed.

(** X2. A pool without counter-asset reserve ([reserve1 = 0], as a pair
    has before liquidity is added) makes [buy] raise [ZeroDivisionError]
    while computing the spot price: the sentiment model is never asked
    and the state is as before. *)
Theorem buy_empty_pool_raises
        (log : PairCreated) (s : State Chain) (reserve0 ts : Z) :
  token0 log = WETH W ->
  getReserves W (chain s) (pair log) = (reserve0, 0, ts) ->
  buy W log s =
    (Raise ZeroDivisionError, s,
     [EvRead (RSymbol (token1 log)); EvRead (RDecimals (token1 log));
      EvRead (RGetReserves (pair log))]).
Proof.
  intros Hbase Hres.
  unfold buy. rewrite Hbase, String.eqb_refl. simpl.
  unfold bind, read, lift; simpl.
  rewrite Hres. destruct s; reflexivity.
Qed.

(** The store after [buy], whatever its outcome: untouched, or with one
    entry written under the token's symbol. *)
Lemma buy_store (log : PairCreated) (s : State Chain) r s' ev :
  buy W log s = (r, s', ev) ->
  buys s' = buys s \/
  exists b, buys s' = dict_set (symbol_of W log s) b (buys s).
Proof.
  unfold symbol_of, buy.
  destruct (negb (token0 log =? WETH W)%string);
    [intros [= <- <- <-]; auto|].
  unfold bind, read, lift, ask_sentiment, store_set, execute, print, emit, ret;
    simpl.
  destruct (getReserves W (chain s) (pair log)) as [[reserve0 reserve1] ts].
  destruct (int_truediv reserve0 reserve1) as [spot|];
    [|intros [= <- <- <-]; auto].
  destruct (sentiment W _ _) as [ratio|]; [|intros [= <- <- <-]; auto].
  simpl.
  destruct (eqb ratio zero); [intros [= <- <- <-]; auto|].
  destruct (signer W) as [account|]; simpl;
    [|intros [= <- <- <-]; right; eexists; reflexivity].
  destruct (float_mul_int ratio _) as [scaled|]; simpl;
    [|intros [= <- <- <-]; auto].
  destruct (to_int scaled) as [purchase_amount|]; simpl;
    [|intros [= <- <- <-]; auto].
  destruct (float_mul_int (mul f_0_995 spot) purchase_amount) as [fl|]; simpl;
    [|intros [= <- <- <-]; auto].
  destruct (to_int fl) as [amount_out_min|]; simpl;
    [|intros [= <- <- <-]; auto].
  destruct (router_execute W _ _ _ _ _) as [[rc|] c']; simpl;
    [|intros [= <- <- <-]; auto].
  destruct (int_truediv _ _) as [qty|]; simpl;
    [|intros [= <- <- <-]; auto].
  destruct (float_div_int qty purchase_amount) as [buy_price|]; simpl;
    intros [= <- <- <-]; [right; eexists; reflexivity | auto].
Qed.

(** X3. Whatever its outcome, [buy] changes at most the entry under the
    symbol of the event's token: every other position is as before, the
    keys of the store stay unique, and an entry for a symbol that is
    already open takes the place of the old one without adding a key. *)
Theorem buy_writes_only_its_symbol
        (log : PairCreated) (s : State Chain)
        (r : pyresult (option (dict float))) (s' : State Chain)
        (ev : list Event) :
  buy W log s = (r, s', ev) ->
  (forall k, k <> symbol_of W log s ->
     dict_get k (buys s') = dict_get k (buys s)) /\
  (dict_wf (buys s) -> dict_wf (buys s')) /\
  (In (symbol_of W log s) (dict_keys (buys s)) ->
     dict_keys (buys s') = dict_keys (buys s)).
Proof.
  intros Hrun. apply buy_store in Hrun.
  destruct Hrun as [->|(b & ->)]; [auto|].
  split; [intros k Hk; now apply dict_get_set_other|].
  split; [apply dict_wf_set|].
  generalize (symbol_of W log s) as k. intros k.
  induction (buys s) as [|[k0 v0] d IH]; simpl; [intros []|].
  destruct (String.eqb_spec k k0) as [->|Hne]; simpl; [reflexivity|].
  intros [E|Hin]; [congruence|]. now rewrite IH.
Qed.

(** The transactions of [buy], whatever its outcome. *)
Lemma buy_events (log : PairCreated) (s : State Chain) r s' ev :
  buy W log s = (r, s', ev) ->
  (Forall (fun e => is_transaction e = false) ev /\ chain s' = chain s) \/
  (exists account spot scaled v fl m res pre post,
      signer W = Some account /\
      (let '(r0, r1, _) := getReserves W (chain s) (pair log) in
       int_truediv r0 r1 = Ok spot) /\
      to_int scaled = Ok v /\
      float_mul_int (mul f_0_995 spot) v = Ok fl /\
      to_int fl = Ok m /\
      ev = pre ++
           EvExecute
             [WRAP_ETH ADDRESS_THIS v;
              V2_SWAP_EXACT_IN MSG_SENDER v m [WETH W; token1 log] false]
             (utc_now W + 120) account v res
           :: post /\
      Forall (fun e => is_transaction e = false) pre /\
      Forall (fun e => is_transaction e = false) post).
Proof.
  unfold buy.
  destruct (negb (token0 log =? WETH W)%string);
    [intros [= <- <- <-]; auto|].
  unfold bind, read, lift, ask_sentiment, store_set, execute, print, emit, ret;
    simpl.
  destruct (getReserves W (chain s) (pair log)) as [[reserve0 reserve1] ts].
  destruct (int_truediv reserve0 reserve1) as [spot|] eqn:Hspot;
    [|intros [= <- <- <-]; left; split; [repeat constructor | reflexivity]].
  destruct (sentiment W _ _) as [ratio|];
    [|intros [= <- <- <-]; left; split; [repeat constructor | reflexivity]].
  simpl.
  destruct (eqb ratio zero);
    [intros [= <- <- <-]; left; split; [repeat constructor | reflexivity]|].
  destruct (signer W) as [account|]; simpl;
    [|intros [= <- <- <-]; left; split; [repeat constructor | reflexivity]].
  destruct (float_mul_int ratio _) as [scaled|]; simpl;
    [|intros [= <- <- <-]; left; split; [repeat constructor | reflexivity]].
  destruct (to_int scaled) as [v|] eqn:Hv; simpl;
    [|intros [= <- <- <-]; left; split; [repeat constructor | reflexivity]].
  destruct (float_mul_int (mul f_0_995 spot) v) as [fl|] eqn:Hfl; simpl;
    [|intros [= <- <- <-]; left; split; [repeat constructor | reflexivity]].
  destruct (to_int fl) as [m|] eqn:Hm; simpl;
    [|intros [= <- <- <-]; left; split; [repeat constructor | reflexivity]].
  destruct (router_execute W _ _ _ _ _) as [[rc|e] c'] eqn:Hexec; simpl.
  - destruct (int_truediv (erc20_balanceOf W c' (token1 log) account) _)
      as [qty|]; simpl;
      [destruct (float_div_int qty v) as [buy_price|]; simpl|];
      intros [= <- <- <-]; right;
      exists account, spot, scaled, v, fl, m;
      eexists; eexists (_ :: _ :: _ :: _ :: _ :: _ :: []); eexists;
      (split; [reflexivity|]); (split; [first [exact Hspot | reflexivity]|]);
      (split; [exact Hv|]); (split; [exact Hfl|]); (split; [exact Hm|]);
      (split; [reflexivity|]); split; repeat constructor.
  - intros [= <- <- <-]. right.
    exists account, spot, scaled, v, fl, m.
    eexists; eexists (_ :: _ :: _ :: _ :: _ :: _ :: []); eexists.
    split; [reflexivity|]. split; [first [exact Hspot | reflexivity]|].
    split; [exact Hv|]. split; [exact Hfl|]. split; [exact Hm|].
    split; [reflexivity|]. split; repeat constructor.
Qed.

(** X4. Whatever its outcome, [buy] sends at most one transaction, and
    only with a signer: a router plan that wraps [v] of the native asset
    and swaps exactly [v] of it for the event's token, paid from the
    router, with [v] attached as value, a deadline of two minutes and a
    minimal output of [int(0.995 * spot * v)]. It never sends an
    approval. *)
Theorem buy_sends_at_most_one_swap
        (log : PairCreated) (s : State Chain)
        (r : pyresult (option (dict float))) (s' : State Chain)
        (ev : list Event) :
  buy W log s = (r, s', ev) ->
  (List.length (filter is_transaction ev) <= 1)%nat /\
  (signer W = None -> filter is_transaction ev = []) /\
  forall e, In e ev -> is_transaction e = true ->
    exists account spot v fl m res,
      signer W = Some account /\
      (let '(r0, r1, _) := getReserves W (chain s) (pair log) in
       int_truediv r0 r1 = Ok spot) /\
      float_mul_int (mul f_0_995 spot) v = Ok fl /\
      to_int fl = Ok m /\
      e = EvExecute
            [WRAP_ETH ADDRESS_THIS v;
             V2_SWAP_EXACT_IN MSG_SENDER v m [WETH W; token1 log] false]
            (utc_now W + 120) account v res.
Proof.
  intros Hrun. apply buy_events in Hrun.
  assert (Hnone : forall l,
             Forall (fun e => is_transaction e = false) l ->
             filter is_transaction l = []).
  { induction 1 as [|x l Hx _ IH]; simpl; [reflexivity|].
    now rewrite Hx. }
  destruct Hrun as [[Hq _]|
                    (account & spot & scaled & v & fl & m & res & pre & post &
                     Hmode & Hspot & Hv & Hfl & Hm & -> & Hpre & Hpost)].
  - rewrite (Hnone _ Hq). split; [simpl; lia|]. split; [reflexivity|].
    intros e He Htx. rewrite Forall_forall in Hq.
    rewrite (Hq e He) in Htx. discriminate.
  - rewrite filter_app. simpl. rewrite (Hnone _ Hpre), (Hnone _ Hpost).
    split; [simpl; lia|]. split; [congruence|].
    intros e He Htx. apply in_app_or in He.
    rewrite Forall_forall in Hpre, Hpost.
    destruct He as [He|[<-|He]].
    + rewrite (Hpre e He) in Htx. discriminate.
    + exists account, spot, v, fl, m, res. auto.
    + rewrite (Hpost e He) in Htx. discriminate.
Qed.

(** Closes a leaf of [buy] that stores nothing and submits nothing. *)
Ltac nothing_recorded :=
  let Hin := fresh "Hin" in
  split; [reflexivity|]; split; [discriminate|];
  split; [intros ? ? Hin | intros ? ? ? ? ? Hin]; simpl in Hin;
  repeat (destruct Hin as [Hin|Hin]; [discriminate|]); destruct Hin.

Lemma int_truediv_error (a b : Z) (e : exn) :
  int_truediv a b = Raise e ->
  e = ZeroDivisionError \/ e = OverflowError.
Proof.
  unfold int_truediv.
  destruct (b =? 0); [intros H; injection H as <-; auto|].
  destruct (a =? 0); [discriminate|].
  destruct (SFdiv_core_binary _ _ _ _ _ _) as [[mz ez] lz].
  destruct (is_finite _); [discriminate|].
  intros H. injection H as <-. auto.
Qed.

(** X5. In live mode, when [int(ratio * balance)] is zero -- the score
    is too small for the signer's balance -- [buy] records no position
    and returns no price: once the (empty) swap has been submitted, the
    division by the purchase amount raises [ZeroDivisionError]. *)
Theorem buy_zero_purchase_records_nothing
        (log : PairCreated) (s : State Chain) (account : address)
        (ratio scaled : float)
        (r : pyresult (option (dict float))) (s' : State Chain)
        (ev : list Event) :
  signer W = Some account ->
  sentiment W (name_of W log s) (symbol_of W log s) = Ok ratio ->
  float_mul_int ratio (account_balance W (chain s) account) = Ok scaled ->
  to_int scaled = Ok 0 ->
  buy W log s = (r, s', ev) ->
  buys s' = buys s /\
  (forall out, r <> Ok (Some out)) /\
  (forall k b, ~ In (EvStoreSet k b) ev) /\
  (forall p d a v res,
      In (EvExecute p d a v (Ok res)) ev ->
      r = Raise ZeroDivisionError \/ r = Raise OverflowError).
Proof.
  unfold name_of, symbol_of. intros Hmode Hscore Hscaled Hzero.
  unfold buy.
  destruct (negb (token0 log =? WETH W)%string).
  { intros [= <- <- <-]. nothing_recorded. }
  unfold bind, read, lift, ask_sentiment, store_set, execute, print, emit, ret;
    simpl.
  destruct (getReserves W (chain s) (pair log)) as [[reserve0 reserve1] ts].
  destruct (int_truediv reserve0 reserve1) as [spot|].
  2:{ intros [= <- <- <-]. nothing_recorded. }
  rewrite Hscore. simpl.
  destruct (eqb ratio zero).
  { intros [= <- <- <-]. nothing_recorded. }
  rewrite Hmode. simpl. rewrite Hscaled. simpl. rewrite Hzero. simpl.
  destruct (to_int (mul _ _)) as [amount_out_min|]; simpl.
  2:{ intros [= <- <- <-]. nothing_recorded. }
  destruct (router_execute W _ _ _ _ _) as [[rc|e] c']; simpl.
  2:{ intros [= <- <- <-]. nothing_recorded. }
  destruct (int_truediv _ _) as [qty|] eqn:Hqty; simpl.
  - intros [= <- <- <-]. split; [reflexivity|]. split; [discriminate|].
    split; [|intros; left; reflexivity].
    intros k b Hin. simpl in Hin.
    repeat (destruct Hin as [Hin|Hin]; [discriminate|]); destruct Hin.
  - intros [= <- <- <-]. split; [reflexivity|]. split; [discriminate|].
    split.
    + intros k b Hin. simpl in Hin.
      repeat (destruct Hin as [Hin|Hin]; [discriminate|]); destruct Hin.
    + intros p d a v res _.
      destruct (int_truediv_error _ _ _ Hqty) as [-> | ->]; auto.
Qed.

End BuyExtras.

(** ** The loops of [pnl], whatever their outcome *)

Section LoopExtras.
Context {Chain : Type} (W : World Chain).

Lemma remove_all_get_Some {V : Type} ks (d : dict V) k v :
  dict_wf d ->
  dict_get k (remove_all ks d) = Some v -> dict_get k d = Some v.
Proof.
  intros Hwf H.
  destruct (in_dec string_dec k ks) as [Hin|Hnin].
  - rewrite remove_all_removed in H by assumption. discriminate.
  - now rewrite remove_all_other in H.
Qed.

Lemma dict_get_remove_Some {V : Type} (d : dict V) k k' v :
  dict_wf d ->
  dict_get k' (dict_remove k d) = Some v -> dict_get k' d = Some v.
Proof. intros Hwf. apply (remove_all_get_Some [k] d k' v Hwf). Qed.

(** One turn of the selling loop, whatever its outcome. *)
Lemma sell_all_turn account symbol token rest plan cp
      (s : State Chain) r s' ev :
  sell_all W account ((symbol, token) :: rest) plan cp s = (r, s', ev) ->
  (exists e, r = Raise e /\ ev = [] /\ s' = s) \/
  (exists b,
      dict_get symbol (buys s) = Some b /\
      ((exists e,
           r = Raise e /\
           buys s' = dict_remove symbol (buys s) /\
           Forall (turn_event W account symbol (pair_address b)) ev /\
           pops ev = [symbol]) \/
       (exists s1 plan1 cp1 evh ev2,
           buys s1 = dict_remove symbol (buys s) /\
           sell_all W account rest plan1 cp1 s1 = (r, s', ev2) /\
           ev = evh ++ ev2 /\
           Forall (turn_event W account symbol (pair_address b)) evh /\
           pops evh = [symbol] /\
           (plan1 = plan \/
            exists bal m,
              bal <> 0 /\
              plan1 = plan ++
                      [APPROVE_ERC20 token (pair_address b);
                       V2_SWAP_EXACT_IN ADDRESS_THIS bal m
                                        [token; WETH W] true])))).
Proof.
  simpl. unfold bind at 1. unfold store_pop, dict_pop.
  destruct (dict_get symbol (buys s)) as [b|] eqn:Hb.
  2:{ intros [= <- <- <-]. left. eexists. auto. }
  intros Hrun. right. exists b. split; [reflexivity|]. revert Hrun.
  unfold bind at 1. unfold read at 1. cbn [chain buys].
  destruct (erc20_balanceOf W (chain s) token account =? 0) eqn:Hheld.
  - unfold bind at 1. unfold print, emit.
    match goal with
    | |- context [sell_all W account rest plan cp ?st] =>
        destruct (sell_all W account rest plan cp st) as [[r2 s2] ev2] eqn:E
    end.
    intros [= <- <- <-]. right.
    exists (mkState (dict_remove symbol (buys s)) (chain s)), plan, cp.
    exists [EvStorePop symbol; EvRead (RBalanceOf token account);
            EvPrint (LogNoBalance symbol)], ev2.
    split; [reflexivity|]. split; [exact E|]. split; [reflexivity|].
    split; [repeat constructor|]. split; [reflexivity|]. left. reflexivity.
  - apply Z.eqb_neq in Hheld.
    unfold bind at 1. unfold read at 1. cbn [chain buys].
    unfold bind at 1. unfold read at 1. cbn [chain buys].
    unfold bind at 1.
    set (bal := erc20_balanceOf W (chain s) token account) in *.
    set (allowed := erc20_allowance W (chain s) (pair_address b) account
                                    (router_contract W)).
    set (tail := fun c : Chain =>
                   (if allowed <? bal
                    then [EvApprove (pair_address b) (router_contract W)
                                    MAX_UINT256 account]
                    else [])).
    assert (Htail : forall c,
               Forall (turn_event W account symbol (pair_address b))
                      (tail c) /\ pops (tail c) = []).
    { intros c. unfold tail. destruct (allowed <? bal);
        split; try reflexivity; repeat constructor. }
    assert (Hap : exists c1,
               (if allowed <? bal
                then approve W (pair_address b) (router_contract W)
                             MAX_UINT256 account
                else ret tt)
                 (mkState (dict_remove symbol (buys s)) (chain s)) =
               (Ok tt, mkState (dict_remove symbol (buys s)) c1,
                tail c1)).
    { unfold tail. destruct (allowed <? bal); eexists; reflexivity. }
    destruct Hap as (c1 & ->).
    destruct (Htail c1) as [Hturn Hnopop].
    assert (Hhead : forall l,
               Forall (turn_event W account symbol (pair_address b)) l ->
               pops l = [] ->
               Forall (turn_event W account symbol (pair_address b))
                      ([EvStorePop symbol] ++
                       [EvRead (RBalanceOf token account)] ++
                       [EvRead (RBalanceOf token account)] ++
                       [EvRead (RAllowance (pair_address b) account
                                           (router_contract W))] ++
                       tail c1 ++ l) /\
               pops ([EvStorePop symbol] ++
                     [EvRead (RBalanceOf token account)] ++
                     [EvRead (RBalanceOf token account)] ++
                     [EvRead (RAllowance (pair_address b) account
                                         (router_contract W))] ++
                     tail c1 ++ l) = [symbol]).
    { intros l Hl Hp. split.
      - repeat (apply Forall_app; split); auto; repeat constructor.
      - rewrite !pops_app, Hnopop, Hp. reflexivity. }
    unfold bind at 1. unfold lift at 1.
    destruct (float_mul_int f_0_95 bal) as [scaled|];
      [|intros [= <- <- <-]; left; eexists;
        split; [reflexivity|]; split; [reflexivity|];
        apply (Hhead []); [constructor | reflexivity]].
    unfold bind at 1. unfold lift at 1. unfold dict_pop.
    destruct (dict_get symbol cp) as [c|] eqn:Hc;
      [|intros [= <- <- <-]; left; eexists;
        split; [reflexivity|]; split; [reflexivity|];
        apply (Hhead []); [constructor | reflexivity]].
    unfold bind at 1. unfold lift at 1.
    destruct (truediv scaled c) as [fl|];
      [|intros [= <- <- <-]; left; eexists;
        split; [reflexivity|]; split; [reflexivity|];
        apply (Hhead []); [constructor | reflexivity]].
    unfold bind at 1. unfold lift at 1.
    destruct (to_int fl) as [amount_out_min|];
      [|intros [= <- <- <-]; left; eexists;
        split; [reflexivity|]; split; [reflexivity|];
        apply (Hhead []); [constructor | reflexivity]].
    unfold bind at 1. unfold read at 1. cbn [chain buys].
    unfold bind at 1. unfold lift at 1.
    destruct (int_truediv bal (pow10 (erc20_decimals W c1 token))) as [qty|];
      [|intros [= <- <- <-]; left; eexists;
        split; [reflexivity|]; split; [reflexivity|];
        apply (Hhead [EvRead (RDecimals token)]);
        [repeat constructor | reflexivity]].
    unfold bind at 1. unfold print, emit.
    match goal with
    | |- context [sell_all W account rest ?p ?d ?st] =>
        destruct (sell_all W account rest p d st) as [[r2 s2] ev2] eqn:E
    end.
    intros [= <- <- <-]. right.
    exists (mkState (dict_remove symbol (buys s)) c1). do 2 eexists.
    exists ([EvStorePop symbol] ++
            [EvRead (RBalanceOf token account)] ++
            [EvRead (RBalanceOf token account)] ++
            [EvRead (RAllowance (pair_address b) account
                                (router_contract W))] ++
            tail c1 ++
            [EvRead (RDecimals token); EvPrint (LogSelling qty symbol)]),
           ev2.
    split; [reflexivity|]. split; [exact E|].
    split; [simpl; rewrite <- app_assoc; reflexivity|].
    destruct (Hhead [EvRead (RDecimals token);
                     EvPrint (LogSelling qty symbol)])
      as [H1 H2]; [repeat constructor | reflexivity |].
    split; [exact H1|]. split; [exact H2|].
    right. exists bal, amount_out_min. split; [exact Hheld|].
    unfold plan_add. rewrite <- app_assoc. reflexivity.
Qed.


Lemma turn_exit_event blk account symbol b (d : dict Buy) e :
  dict_get symbol d = Some b ->
  turn_event W account symbol (pair_address b) e ->
  exit_event W blk account d e.
Proof.
  intros Hb. destruct e as [[]| | | | | |]; simpl; auto; try tauto.
  intros (-> & -> & -> & ->). repeat split. exists symbol, b. auto.
Qed.

Lemma exit_event_mono blk account (d1 d : dict Buy) e :
  (forall k b, dict_get k d1 = Some b -> dict_get k d = Some b) ->
  exit_event W blk account d1 e -> exit_event W blk account d e.
Proof.
  intros Hsub. destruct e; simpl; auto.
  intros (-> & -> & -> & k & b & Hb & ->). repeat split.
  exists k, b. auto.
Qed.

(** The selling loop, whatever its outcome: it has popped a prefix of
    [tokens_to_swap] (all of it when it completes), and nothing else has
    left the store; it emits only events of a batched exit, none of them
    a submission; it only appends selling commands to the plan. *)
Lemma sell_all_frame blk account items :
  forall plan cp (s : State Chain) r s' ev,
    dict_wf (buys s) ->
    sell_all W account items plan cp s = (r, s', ev) ->
    (exists done rest,
        map fst items = done ++ rest /\
        pops ev = done /\
        buys s' = remove_all done (buys s) /\
        (forall out, r = Ok out -> rest = [])) /\
    Forall (exit_event W blk account (buys s)) ev /\
    (forall plan' cp',
        r = Ok (plan', cp') ->
        Forall (sell_command W) plan -> Forall (sell_command W) plan').
Proof.
  induction items as [|[symbol token] rest IH];
    intros plan cp s r s' ev Hwf H.
  - simpl in H. unfold ret in H. injection H as <- <- <-.
    split; [exists [], []; auto|]. split; [constructor|].
    intros plan' cp' [= <- <-]. auto.
  - apply sell_all_turn in H.
    destruct H as [(e & -> & -> & ->)|
                   (b & Hb &
                    [(e & -> & Hs' & Hturn & Hpops)|
                     (s1 & plan1 & cp1 & evh & ev2 &
                      Hs1 & Hrest & -> & Hturn & Hpops & Hplan)])].
    + split; [|split; [constructor | discriminate]].
      exists [], (symbol :: map fst rest). simpl.
      repeat split; auto. discriminate.
    + split; [|split; [|discriminate]].
      * exists [symbol], (map fst rest). simpl.
        repeat split; auto. discriminate.
      * eapply Forall_impl; [|exact Hturn].
        intros e0. now apply turn_exit_event.
    + assert (Hwf1 : dict_wf (buys s1))
        by (rewrite Hs1; now apply dict_wf_remove).
      destruct (IH plan1 cp1 s1 r s' ev2 Hwf1 Hrest)
        as ((done & rest' & Hkeys & Hp2 & Hstore & Hall) & Hev2 & Hshape).
      split; [|split].
      * exists (symbol :: done), rest'. simpl.
        rewrite Hkeys, pops_app, Hpops, Hp2, Hstore, Hs1.
        repeat split; auto.
      * apply Forall_app. split.
        -- eapply Forall_impl; [|exact Hturn].
           intros e0. now apply turn_exit_event.
        -- eapply Forall_impl; [|exact Hev2].
           intros e0. apply exit_event_mono.
           intros k b0. rewrite Hs1. now apply dict_get_remove_Some.
      * intros plan' cp' Hr Hplan0. apply (Hshape plan' cp' Hr).
        destruct Hplan as [->|(bal & m & Hbal & ->)]; [exact Hplan0|].
        apply Forall_app. split; [exact Hplan0|].
        repeat constructor; simpl; auto.
        exists token. reflexivity.
Qed.

(** The batched exit, whatever its outcome. *)
Lemma close_all_frame blk account sw cp (s : State Chain) r s' ev :
  dict_wf (buys s) ->
  close_all W blk account sw cp s = (r, s', ev) ->
  (exists done rest,
      map fst sw = done ++ rest /\
      pops ev = done /\
      buys s' = remove_all done (buys s) /\
      (submitted ev <> [] -> rest = [])) /\
  Forall (exit_event W blk account (buys s)) ev /\
  (List.length (submitted ev) <= 1)%nat.
Proof.
  intros Hwf. unfold close_all. intros H. apply bind_inv in H.
  destruct H as [(e & Hsell & ->)|
                 ([plan cp'] & s1 & ev1 & ev2 & Hsell & Hk & ->)].
  - pose proof (sell_all_any W _ _ _ _ _ _ _ _ Hsell) as [Hsub _].
    destruct (sell_all_frame blk _ _ _ _ _ _ _ _ Hwf Hsell)
      as ((done & rest & Hkeys & Hp & Hstore & _) & Hev & _).
    split; [|split; [exact Hev | rewrite Hsub; simpl; lia]].
    exists done, rest. repeat split; auto. rewrite Hsub. congruence.
  - pose proof (sell_all_any W _ _ _ _ _ _ _ _ Hsell) as [Hsub _].
    destruct (sell_all_frame blk _ _ _ _ _ _ _ _ Hwf Hsell)
      as ((done & rest & Hkeys & Hp & Hstore & Hall) & Hev & Hshape).
    specialize (Hall _ eq_refl). subst rest.
    specialize (Hshape plan cp' eq_refl (Forall_nil _)).
    assert (Htail : buys s' = buys s1 /\ pops ev2 = [] /\
                    Forall (exit_event W blk account (buys s)) ev2 /\
                    (List.length (submitted ev2) <= 1)%nat).
    { revert Hk. unfold bind, read, execute, print, emit, lift, ret.
      cbn [chain buys].
      destruct (router_execute W (chain s1) _ _ _ _) as [[tx|e] c'].
      - destruct (failed tx); intros [= <- <- <-];
          (split; [reflexivity|]); (split; [reflexivity|]);
          (split; [|simpl; lia]);
          repeat constructor; simpl; auto;
          exists plan; auto.
      - intros [= <- <- <-].
        split; [reflexivity|]. split; [reflexivity|].
        split; [|simpl; lia].
        repeat constructor; simpl; auto. exists plan. auto. }
    destruct Htail as (Hb & Hp2 & Hev2 & Hlen).
    split; [|split].
    + exists done, []. rewrite pops_app, Hp, Hp2, Hb.
      rewrite !app_nil_r in *. repeat split; auto.
    + apply Forall_app. auto.
    + rewrite submitted_app, Hsub. exact Hlen.
Qed.

End LoopExtras.

(** ** The evaluation of a tick *)

Section EvaluateExtras.
Context {Chain : Type} (W : World Chain).

Lemma dict_In_get {V : Type} (d : dict V) k v :
  dict_wf d -> In (k, v) d -> dict_get k d = Some v.
Proof.
  unfold dict_wf.
  induction d as [|[k' v'] d IH]; simpl; [tauto|].
  intros Hwf [E|E].
  - inversion E; subst. now rewrite String.eqb_refl.
  - inversion Hwf as [|? ? Hnin Hnd]; subst.
    destruct (String.eqb_spec k k') as [->|Hne].
    + exfalso. apply Hnin. apply (in_map fst) in E. exact E.
    + auto.
Qed.

Lemma dict_keys_set_new {V : Type} (d : dict V) k v :
  ~ In k (dict_keys d) -> dict_keys (dict_set k v d) = dict_keys d ++ [k].
Proof.
  induction d as [|[k0 v0] d IH]; simpl; [reflexivity|].
  intros Hnin. destruct (String.eqb_spec k k0) as [->|Hne]; simpl.
  - exfalso. apply Hnin. now left.
  - rewrite IH; [reflexivity|]. intros H. apply Hnin. now right.
Qed.

Lemma marked_only (s : State Chain) symbol c sw dr sw1 dr1 :
  marked s symbol c sw dr sw1 dr1 ->
  (forall k, In k dr1 ->
     In k dr \/
     (k = symbol /\
      exists b p,
        dict_get symbol (buys s) = Some b /\
        position_pnl c (price b) = Ok p /\
        gtb p f_1000 = false /\ ltb p f_99 = true)) /\
  (forall k tok, dict_get k sw1 = Some tok ->
     dict_get k sw = Some tok \/
     (k = symbol /\
      exists b p,
        dict_get symbol (buys s) = Some b /\
        position_pnl c (price b) = Ok p /\
        gtb p f_1000 = true /\ tok = token_address b)) /\
  (dict_wf sw -> dict_wf sw1).
Proof.
  unfold marked.
  destruct (dict_get symbol (buys s)) as [b|].
  - intros (p & Hp &
            [(Hgt & -> & ->)|[(Hgt & Hlt & -> & ->)|(Hgt & Hlt & -> & ->)]]).
    + split; [auto|]. split; [|apply dict_wf_set].
      intros k tok Hk.
      destruct (string_dec k symbol) as [->|Hne].
      * rewrite dict_get_set_same in Hk. injection Hk as <-.
        right. split; [reflexivity|]. exists b, p. auto.
      * rewrite dict_get_set_other in Hk by assumption. auto.
    + split; [|auto].
      intros k Hk. apply in_app_or in Hk.
      destruct Hk as [Hk|[<-|[]]]; [auto|].
      right. split; [reflexivity|]. exists b, p. auto.
    + auto.
  - intros [-> ->]. auto.
Qed.

(** Only positions whose [pnl] is below 99.0 (and not above 1000.0) are
    marked for drop, only positions whose [pnl] is above 1000.0 are marked
    for profit-take, and [current_prices] gets one key per item, in
    order. *)
Lemma classify_only items :
  forall cp sw dr (s : State Chain) cp' sw' dr' s' ev,
    classify items (cp, sw, dr) s = (Ok (cp', sw', dr'), s', ev) ->
    (forall k, In k dr' ->
       In k dr \/
       exists r0 r1 t c b p,
         In (k, (r0, r1, t)) items /\
         int_truediv r0 r1 = Ok c /\
         dict_get k (buys s) = Some b /\
         position_pnl c (price b) = Ok p /\
         gtb p f_1000 = false /\ ltb p f_99 = true) /\
    (forall k tok, dict_get k sw' = Some tok ->
       dict_get k sw = Some tok \/
       exists r0 r1 t c b p,
         In (k, (r0, r1, t)) items /\
         int_truediv r0 r1 = Ok c /\
         dict_get k (buys s) = Some b /\
         position_pnl c (price b) = Ok p /\
         gtb p f_1000 = true /\ tok = token_address b) /\
    (dict_wf sw -> dict_wf sw') /\
    (NoDup (dict_keys cp ++ map fst items) ->
       dict_keys cp' = dict_keys cp ++ map fst items).
Proof.
  induction items as [|[symbol [[reserve0 reserve1] ts]] rest IH];
    intros cp sw dr s cp' sw' dr' s' ev H.
  - simpl in H. unfold ret in H. injection H as <- <- <- <- <-.
    repeat split; auto. simpl. now rewrite app_nil_r.
  - apply classify_cons in H.
    destruct H as (c & sw1 & dr1 & ev2 & Hc & Hm & H).
    apply IH in H. destruct H as (Hdr & Hsw & Hwf & Hkeys).
    destruct (marked_only _ _ _ _ _ _ _ Hm) as (Hdr1 & Hsw1 & Hwf1).
    split; [|split; [|split]].
    + intros k Hk. destruct (Hdr k Hk) as [Hk1|Hrest].
      * destruct (Hdr1 k Hk1) as [Hk0|(-> & b & p & Hb & Hp & Hgt & Hlt)];
          [auto|].
        right. exists reserve0, reserve1, ts, c, b, p.
        repeat split; auto. now left.
      * right.
        destruct Hrest as (r0 & r1 & t & c0 & b & p & Hin & Hrest).
        exists r0, r1, t, c0, b, p. split; [now right | exact Hrest].
    + intros k tok Hk. destruct (Hsw k tok Hk) as [Hk1|Hrest].
      * destruct (Hsw1 k tok Hk1)
          as [Hk0|(-> & b & p & Hb & Hp & Hgt & Htok)]; [auto|].
        right. exists reserve0, reserve1, ts, c, b, p.
        repeat split; auto. now left.
      * right.
        destruct Hrest as (r0 & r1 & t & c0 & b & p & Hin & Hrest).
        exists r0, r1, t, c0, b, p. split; [now right | exact Hrest].
    + auto.
    + simpl. intros Hnd.
      assert (Hnew : ~ In symbol (dict_keys cp)).
      { intros Hin. apply NoDup_remove_2 in Hnd. apply Hnd.
        apply in_or_app. now left. }
      rewrite Hkeys; rewrite (dict_keys_set_new cp symbol c Hnew).
      * rewrite <- app_assoc. reflexivity.
      * rewrite <- app_assoc. simpl.
        apply NoDup_remove_1 in Hnd as Hnd1.
        apply NoDup_remove_2 in Hnd as Hnd2.
        clear - Hnd1 Hnd2.
        induction (dict_keys cp) as [|a l IHl]; simpl in *.
        -- constructor; auto.
        -- inversion Hnd1 as [|? ? Ha Hl]; subst.
           constructor.
           ++ intros Hin. apply in_app_or in Hin.
              destruct Hin as [Hin|[<-|Hin]].
              ** apply Ha. apply in_or_app. now left.
              ** apply Hnd2. now left.
              ** apply Ha. apply in_or_app. now right.
           ++ apply IHl; [exact Hl|].
              intros Hin. apply Hnd2. now right.
Qed.

(** A position whose pool has no counter-asset reserve, or whose entry
    price is zero, makes the classification raise. *)
Lemma classify_raises items :
  forall acc (s : State Chain) k r0 r1 t,
    In (k, (r0, r1, t)) items ->
    r1 = 0 \/
    (exists b, dict_get k (buys s) = Some b /\ eqb (price b) zero = true) ->
    exists e ev, classify items acc s = (Raise e, s, ev).
Proof.
  induction items as [|[symbol [[reserve0 reserve1] ts]] rest IH];
    intros [[cp sw] dr] s k r0 r1 t Hin Hbad; [destruct Hin|].
  destruct (classify ((symbol, (reserve0, reserve1, ts)) :: rest)
                     (cp, sw, dr) s) as [[r s'] ev] eqn:Hrun.
  destruct (classify_quiet _ _ _ _ _ _ Hrun) as [-> _].
  destruct r as [[[cp' sw'] dr']|e]; [|eauto].
  exfalso. apply classify_cons in Hrun.
  destruct Hrun as (c & sw1 & dr1 & ev2 & Hc & Hm & Hrest).
  destruct Hin as [E|Hin].
  - injection E as -> -> -> ->.
    destruct Hbad as [->|(b & Hb & Hzero)].
    + discriminate.
    + unfold marked in Hm. rewrite Hb in Hm.
      destruct Hm as (p & Hp & _). unfold position_pnl, truediv in Hp.
      rewrite Hzero in Hp. discriminate.
  - destruct (IH (dict_set symbol c cp, sw1, dr1) s k r0 r1 t Hin Hbad)
      as (e & ev' & Hraise).
    rewrite Hraise in Hrest. discriminate.
Qed.

Lemma priced_item (s : State Chain) k r0 r1 t :
  dict_wf (buys s) ->
  In (k, (r0, r1, t)) (priced W s) ->
  exists b,
    dict_get k (buys s) = Some b /\
    getReserves W (chain s) (pair_address b) = (r0, r1, t).
Proof.
  intros Hwf Hin. unfold priced in Hin. apply in_map_iff in Hin.
  destruct Hin as ([k0 b] & E & Hin). simpl in E.
  injection E as -> E. exists b. split; [|exact E].
  now apply dict_In_get.
Qed.

End EvaluateExtras.

(** ** [pnl], whatever its outcome *)

Section PnlExtras.
Context {Chain : Type} (W : World Chain).

Lemma evaluate_only (s : State Chain) cp sw dr s1 ev1 :
  evaluate W s = (Ok (cp, sw, dr), s1, ev1) ->
  dict_wf (buys s) ->
  (forall k, In k dr ->
     exists b r0 r1 t c p,
       dict_get k (buys s) = Some b /\
       getReserves W (chain s) (pair_address b) = (r0, r1, t) /\
       int_truediv r0 r1 = Ok c /\
       position_pnl c (price b) = Ok p /\
       gtb p f_1000 = false /\ ltb p f_99 = true) /\
  (forall k tok, dict_get k sw = Some tok ->
     exists b r0 r1 t c p,
       dict_get k (buys s) = Some b /\
       getReserves W (chain s) (pair_address b) = (r0, r1, t) /\
       int_truediv r0 r1 = Ok c /\
       position_pnl c (price b) = Ok p /\
       gtb p f_1000 = true /\ tok = token_address b) /\
  dict_wf sw /\
  dict_keys cp = dict_keys (buys s).
Proof.
  rewrite evaluate_run.
  destruct (classify _ _ s) as [[r2 s2] ev2] eqn:E.
  intros [= -> <- <-] Hwf.
  apply classify_only in E. destruct E as (Hdr & Hsw & Hwfsw & Hkeys).
  split; [|split; [|split]].
  - intros k Hk.
    destruct (Hdr k Hk)
      as [[]|(r0 & r1 & t & c & b & p & Hin & Hc & Hb & Hrest)].
    destruct (priced_item W s k r0 r1 t Hwf Hin) as (b' & Hb' & Hres).
    rewrite Hb in Hb'. injection Hb' as <-.
    exists b, r0, r1, t, c, p. auto.
  - intros k tok Hk.
    destruct (Hsw k tok Hk)
      as [Habs|(r0 & r1 & t & c & b & p & Hin & Hc & Hb & Hrest)];
      [discriminate|].
    destruct (priced_item W s k r0 r1 t Hwf Hin) as (b' & Hb' & Hres).
    rewrite Hb in Hb'. injection Hb' as <-.
    exists b, r0, r1, t, c, p. auto.
  - apply Hwfsw. constructor.
  - simpl in Hkeys. rewrite (priced_keys W s) in Hkeys. apply Hkeys.
    exact Hwf.
Qed.

(** The two sets of marks never share a symbol and hold none twice. *)
Lemma marks_disjoint (s : State Chain) cp sw dr s1 ev1 :
  evaluate W s = (Ok (cp, sw, dr), s1, ev1) ->
  dict_wf (buys s) ->
  NoDup (dr ++ map fst sw).
Proof.
  intros Heval Hwf.
  destruct (evaluate_ok W _ _ _ _ _ _ Heval Hwf) as (_ & Hnd & _ & _).
  destruct (evaluate_only _ _ _ _ _ _ Heval Hwf) as (Hdr & Hsw & Hwfsw & _).
  assert (Hdisj : forall k, In k dr -> ~ In k (map fst sw)).
  { intros k Hk Hin.
    destruct (Hdr k Hk) as (b & r0 & r1 & t & c & p &
                            Hb & Hres & Hc & Hp & Hgt & _).
    destruct (dict_get k sw) as [tok|] eqn:Hget.
    - destruct (Hsw k tok Hget) as (b' & r0' & r1' & t' & c' & p' &
                                    Hb' & Hres' & Hc' & Hp' & Hgt' & _).
      rewrite Hb in Hb'. injection Hb' as <-.
      rewrite Hres in Hres'. injection Hres' as <- <- <-.
      rewrite Hc in Hc'. injection Hc' as <-.
      rewrite Hp in Hp'. injection Hp' as <-. congruence.
    - apply dict_get_None in Hget. contradiction. }
  clear - Hnd Hwfsw Hdisj. unfold dict_wf, dict_keys in Hwfsw.
  induction dr as [|a l IH]; simpl; [exact Hwfsw|].
  inversion Hnd as [|? ? Ha Hl]; subst.
  constructor.
  - intros Hin. apply in_app_or in Hin. destruct Hin as [Hin|Hin];
      [contradiction|]. apply (Hdisj a); [now left | exact Hin].
  - apply IH; [exact Hl|]. intros k Hk. apply Hdisj. now right.
Qed.

(** The shape of a tick: on an empty store, when the evaluation raises,
    and when it completes. *)
Lemma pnl_shape blk (s : State Chain) r s' ev :
  dict_wf (buys s) ->
  pnl W blk s = (r, s', ev) ->
  (buys s = [] /\ r = Ok None /\ s' = s /\ ev = [EvPrint LogNoBuys]) \/
  (buys s <> [] /\
   exists e, evaluate W s = (Raise e, s, ev) /\ r = Raise e /\ s' = s) \/
  (buys s <> [] /\
   exists cp sw dr ev1 ev2 done rest,
     evaluate W s = (Ok (cp, sw, dr), s, ev1) /\
     ev = ev1 ++ map EvStorePop dr ++ ev2 /\
     map fst sw = done ++ rest /\
     pops ev2 = done /\
     buys s' = remove_all done (remove_all dr (buys s)) /\
     (submitted ev2 <> [] -> rest = []) /\
     (List.length (submitted ev2) <= 1)%nat /\
     match signer W, sw with
     | Some account, _ :: _ =>
         Forall (exit_event W blk account (buys s)) ev2
     | _, _ => ev2 = [] /\ r = Ok (Some cp) /\ chain s' = chain s
     end).
Proof.
  intros Hwf Hrun.
  destruct (buys s) as [|item d] eqn:Hstore.
  { left. revert Hrun. unfold pnl, bind, get_buys, print, emit, ret.
    rewrite Hstore. intros [= <- <- <-]. auto. }
  right.
  assert (Hne : buys s <> []) by (rewrite Hstore; discriminate).
  rewrite <- Hstore in *. clear Hstore item d.
  destruct (evaluate W s) as [[[[[cp sw] dr]|e] s1] ev1] eqn:Heval.
  - right. split; [exact Hne|].
    destruct (evaluate_quiet W _ _ _ _ Heval) as [-> _].
    rewrite (pnl_after_evaluate W blk s cp sw dr s ev1 Hwf Hne Heval)
      in Hrun.
    cbv zeta in Hrun.
    assert (Hmono : forall k b,
               dict_get k (remove_all dr (buys s)) = Some b ->
               dict_get k (buys s) = Some b)
      by (intros k b; now apply remove_all_get_Some).
    exists cp, sw, dr, ev1.
    destruct (signer W) as [account|]; [destruct sw as [|item sw]|].
    + injection Hrun as <- <- <-. exists [], [], [].
      repeat split; auto; simpl; try lia; try congruence.
    + destruct (close_all W blk account (item :: sw) cp _)
        as [[r2 s2] ev2] eqn:Hclose.
      injection Hrun as <- <- <-.
      apply (close_all_frame W blk) in Hclose;
        [|now apply remove_all_wf].
      destruct Hclose as ((done & rest & Hkeys & Hp & Hb & Hsub) &
                          Hev & Hlen).
      exists ev2, done, rest. cbn [buys] in *.
      repeat split; auto.
      eapply Forall_impl; [|exact Hev].
      intros e0. now apply exit_event_mono.
    + injection Hrun as <- <- <-. exists [], [], (map fst sw).
      repeat split; auto; simpl; try lia; try congruence.
  - left. split; [exact Hne|].
    destruct (evaluate_quiet W _ _ _ _ Heval) as [-> _].
    revert Hrun. unfold pnl. unfold bind at 1. unfold get_buys.
    destruct (List.length (buys s) =? 0)%nat eqn:Hlen;
      [apply length_zero_nil in Hlen; contradiction|].
    unfold bind at 1. rewrite Heval.
    intros [= <- <- <-]. exists e. auto.
Qed.

End PnlExtras.

(** ** The plan of the batched exit *)

Section ExitPlan.
Context {Chain : Type} (W : World Chain).

(** The plan the selling loop hands over: what it was given, extended by
    one leg for every position it sold, each symbol at most once. *)
Lemma sell_all_legs account items :
  forall plan cp (s : State Chain) r s' ev,
    dict_wf (buys s) ->
    NoDup (map fst items) ->
    sell_all W account items plan cp s = (r, s', ev) ->
    forall plan' cp',
      r = Ok (plan', cp') ->
      exists sold : list (string * ExitLeg),
        plan' = plan ++ flat_map (exit_pair W) (map snd sold) /\
        incl (map fst sold) (map fst items) /\
        NoDup (map fst sold) /\
        Forall (fun item : string * ExitLeg =>
                  let '(k, (token, pool, _, _)) := item in
                  In (k, token) items /\
                  exists b, dict_get k (buys s) = Some b /\
                            pool = pair_address b) sold.
Proof.
  induction items as [|[symbol token] rest IH];
    intros plan cp s r s' ev Hwf Hnd Hrun plan' cp' ->.
  - simpl in Hrun. unfold ret in Hrun. injection Hrun as <- _ _ _.
    exists []. simpl. rewrite app_nil_r.
    split; [reflexivity|]. split; [intros x []|].
    split; constructor.
  - apply sell_all_turn in Hrun.
    destruct Hrun
      as [(e & He & _)|
          (b & Hb & [(e & He & _)|
                     (s1 & plan1 & cp1 & evh & ev2 &
                      Hs1 & Hrest & _ & _ & _ & Hplan)])];
      [discriminate | discriminate |].
    simpl in Hnd. inversion Hnd as [|? ? Hnotin Hnd']; subst.
    assert (Hwf1 : dict_wf (buys s1))
      by (rewrite Hs1; now apply dict_wf_remove).
    destruct (IH plan1 cp1 s1 _ _ _ Hwf1 Hnd' Hrest plan' cp' eq_refl)
      as (sold & Hp & Hincl & Hnds & Hall).
    assert (Hall' :
              Forall (fun item : string * ExitLeg =>
                        let '(k, (tok, pool, _, _)) := item in
                        In (k, tok) ((symbol, token) :: rest) /\
                        exists b0, dict_get k (buys s) = Some b0 /\
                                   pool = pair_address b0) sold).
    { eapply Forall_impl; [|exact Hall].
      intros [k [[[tok pool] a] m]] (Hin & b0 & Hb0 & Hpool).
      split; [right; exact Hin|]. exists b0. split; [|exact Hpool].
      rewrite Hs1 in Hb0. eapply dict_get_remove_Some; eauto. }
    destruct Hplan as [->|(bal & m & _ & ->)].
    + exists sold. split; [exact Hp|].
      split; [intros x Hx; right; now apply Hincl|]. split; assumption.
    + exists ((symbol, (token, pair_address b, bal, m)) :: sold). simpl.
      split; [rewrite Hp, <- app_assoc; reflexivity|].
      split; [intros x [<-|Hx]; [now left | right; now apply Hincl]|].
      split; [constructor; [intros Hin; now apply Hnotin, Hincl | exact Hnds]|].
      constructor; [|exact Hall'].
      split; [now left|]. exists b. auto.
Qed.

(** The plan the batched exit submits. *)
Lemma close_all_plan blk account sw cp (s : State Chain) r s' ev
      p d a v res :
  dict_wf (buys s) ->
  dict_wf sw ->
  close_all W blk account sw cp s = (r, s', ev) ->
  In (EvExecute p d a v res) ev ->
  exists sold : list (string * ExitLeg),
    p = exit_plan W (map snd sold) /\
    NoDup (map fst sold) /\
    Forall (fun item : string * ExitLeg =>
              let '(k, (token, pool, _, _)) := item in
              In (k, token) sw /\
              exists b, dict_get k (buys s) = Some b /\
                        pool = pair_address b) sold.
Proof.
  intros Hwf Hwfsw. unfold close_all. intros H Hin. apply bind_inv in H.
  destruct H as [(e & Hsell & ->)|
                 ([plan cp'] & s1 & ev1 & ev2 & Hsell & Hk & ->)].
  - pose proof (sell_all_any W _ _ _ _ _ _ _ _ Hsell) as [Hsub _].
    apply in_execute_submitted in Hin. rewrite Hsub in Hin. destruct Hin.
  - pose proof (sell_all_any W _ _ _ _ _ _ _ _ Hsell) as [Hsub _].
    apply in_app_or in Hin. destruct Hin as [Hin|Hin].
    { apply in_execute_submitted in Hin. rewrite Hsub in Hin.
      destruct Hin. }
    destruct (sell_all_legs account sw [] cp s _ _ _ Hwf Hwfsw Hsell
                            plan cp' eq_refl)
      as (sold & Hp & _ & Hnd & Hall).
    simpl in Hp. subst plan.
    exists sold. split; [|split; assumption].
    revert Hk Hin. unfold bind, read, execute, print, emit, lift, ret.
    cbn [chain buys].
    destruct (router_execute W (chain s1) _ _ _ _) as [[tx|e] c'].
    + destruct (failed tx); intros [= <- <- <-] Hin; simpl in Hin;
        repeat (destruct Hin as [Hin|Hin]; try discriminate);
        try contradiction; now injection Hin as <- _ _ _ _.
    + intros [= <- <- <-] Hin; simpl in Hin;
        repeat (destruct Hin as [Hin|Hin]; try discriminate);
        try contradiction; now injection Hin as <- _ _ _ _.
Qed.

(** The plans a tick submits: one leg for each position sold, read off
    the store the tick started on. *)
Lemma pnl_plans blk (s : State Chain) r s' ev p d a v res :
  dict_wf (buys s) ->
  pnl W blk s = (r, s', ev) ->
  In (EvExecute p d a v res) ev ->
  exists sold : list (string * ExitLeg),
    p = exit_plan W (map snd sold) /\
    NoDup (map fst sold) /\
    Forall (sells (buys s)) sold.
Proof.
  intros Hwf Hrun Hin.
  destruct (pnl_shape W blk s r s' ev Hwf Hrun)
    as [(_ & _ & _ & ->)|[(_ & e0 & Heval & _ & _)|
                      (Hne & cp & sw & dr & ev1 & ev2 & done & rest &
                       Heval & _)]].
  - destruct Hin as [Hin|[]]. discriminate.
  - destruct (evaluate_quiet W _ _ _ _ Heval) as [_ Hq].
    apply in_execute_submitted in Hin.
    rewrite (quiet_submitted _ Hq) in Hin. destruct Hin.
  - destruct (evaluate_quiet W _ _ _ _ Heval) as [_ Hq].
    destruct (evaluate_only W _ _ _ _ _ _ Heval Hwf)
      as (_ & Hsw & Hwfsw & _).
    rewrite (pnl_after_evaluate W blk s cp sw dr s ev1 Hwf Hne Heval)
      in Hrun.
    cbv zeta in Hrun.
    assert (Hquiet : forall l,
               In (EvExecute p d a v res) (ev1 ++ map EvStorePop dr ++ l) ->
               In (EvExecute p d a v res) l).
    { intros l H. apply in_app_or in H. destruct H as [H|H].
      - apply in_execute_submitted in H.
        rewrite (quiet_submitted _ Hq) in H. destruct H.
      - apply in_app_or in H. destruct H as [H|H]; [|exact H].
        apply in_map_iff in H. destruct H as (x & Hx & _). discriminate. }
    destruct (signer W) as [account|]; [destruct sw as [|item sw]|].
    + injection Hrun as _ _ <-. apply Hquiet in Hin. destruct Hin.
    + destruct (close_all W blk account (item :: sw) cp _)
        as [[r2 s2] ev2'] eqn:Hclose.
      injection Hrun as _ _ <-. apply Hquiet in Hin.
      assert (Hmid : dict_wf
                       (buys (mkState (remove_all dr (buys s)) (chain s))))
        by (cbn [buys]; now apply remove_all_wf).
      destruct (close_all_plan blk account (item :: sw) cp _ _ _ _
                               p d a v res Hmid Hwfsw Hclose Hin)
        as (sold & Hp & Hnd & Hall).
      exists sold. split; [exact Hp|]. split; [exact Hnd|].
      eapply Forall_impl; [|exact Hall].
      intros [k [[[tok pool] amt] m]] (Hmark & b & Hb & Hpool).
      cbn [buys] in Hb. apply remove_all_get_Some in Hb; [|exact Hwf].
      apply (dict_In_get _ _ _ Hwfsw) in Hmark.
      destruct (Hsw k tok Hmark)
        as (b' & _ & _ & _ & _ & _ & Hb' & _ & _ & _ & _ & Htok).
      rewrite Hb in Hb'. injection Hb' as <-.
      exists b. auto.
    + injection Hrun as _ _ <-. apply Hquiet in Hin. destruct Hin.
Qed.

End ExitPlan.

Section TickProperties.
Context {Chain : Type} (W : World Chain).

Lemma remove_all_concat {V : Type} ks1 ks2 (d : dict V) :
  remove_all (ks1 ++ ks2) d = remove_all ks2 (remove_all ks1 d).
Proof. apply fold_left_app. Qed.

Lemma classify_prints items :
  forall acc (s : State Chain) r s' ev,
    classify items acc s = (r, s', ev) ->
    Forall (fun e => exists k v, e = EvPrint (LogPnl k v)) ev.
Proof.
  induction items as [|[symbol [[reserve0 reserve1] ts]] rest IH];
    intros [[cp sw] dr] s r s' ev; simpl.
  - intros [= <- <- <-]. constructor.
  - unfold bind, lift, get_buys, print, emit.
    destruct (int_truediv reserve0 reserve1) as [c|]; simpl;
      [|intros [= <- <- <-]; constructor].
    destruct (dict_get symbol (buys s)) as [b|].
    + destruct (position_pnl c (price b)) as [p|]; simpl;
        [|intros [= <- <- <-]; constructor].
      destruct (gtb p f_1000); [|destruct (ltb p f_99)];
        match goal with
        | |- context [classify rest ?a s] =>
            destruct (classify rest a s) as [[r2 s2] ev2] eqn:E
        end;
        intros [= <- <- <-]; apply IH in E;
        (constructor; [eauto | exact E]).
    + destruct (classify rest _ s) as [[r2 s2] ev2] eqn:E.
      intros [= <- <- <-]. apply IH in E. exact E.
Qed.

Lemma quiet_filter ev :
  Forall (fun e => quiet e = true) ev -> filter is_transaction ev = [].
Proof.
  induction 1 as [|e ev He _ IH]; [reflexivity|].
  simpl. rewrite (quiet_not_transaction _ He). exact IH.
Qed.

Lemma pops_filter ks : filter is_transaction (map EvStorePop ks) = [].
Proof. induction ks as [|a ks IH]; [reflexivity | exact IH]. Qed.

(** The verdict of a completed evaluation on one open position. *)
Lemma evaluate_verdict
      (s : State Chain) (cp : dict float) (sw : dict address)
      (dr : list string) (s1 : State Chain) (ev1 : list Event)
      (k : string) (b : Buy) (r0 r1 t : Z) (c p : float) :
  dict_wf (buys s) ->
  evaluate W s = (Ok (cp, sw, dr), s1, ev1) ->
  dict_get k (buys s) = Some b ->
  getReserves W (chain s) (pair_address b) = (r0, r1, t) ->
  int_truediv r0 r1 = Ok c ->
  position_pnl c (price b) = Ok p ->
  (In k (dict_keys sw) <-> gtb p f_1000 = true) /\
  (In k dr <-> gtb p f_1000 = false /\ ltb p f_99 = true).
Proof.
  intros Hwf Heval Hb Hres Hc Hp.
  destruct (evaluate_ok W _ _ _ _ _ _ Heval Hwf) as (_ & _ & _ & Hall).
  destruct (evaluate_only W _ _ _ _ _ _ Heval Hwf)
    as (Hdr & Hsw & _ & _).
  destruct (Hall k b Hb) as (r0' & r1' & t' & c' & p' &
                             Hres' & Hc' & _ & Hp' & Htake & Hdrop).
  rewrite Hres in Hres'. injection Hres' as <- <- <-.
  rewrite Hc in Hc'. injection Hc' as <-.
  rewrite Hp in Hp'. injection Hp' as <-.
  split.
  - split.
    + intros Hin.
      destruct (dict_get k sw) as [tok|] eqn:Hget;
        [|apply dict_get_None in Hget; contradiction].
      destruct (Hsw k tok Hget) as (b' & r0' & r1' & t' & c' & p' &
                                    Hb' & Hres' & Hc' & Hp' & Hgt & _).
      rewrite Hb in Hb'. injection Hb' as <-.
      rewrite Hres in Hres'. injection Hres' as <- <- <-.
      rewrite Hc in Hc'. injection Hc' as <-.
      rewrite Hp in Hp'. injection Hp' as <-. exact Hgt.
    + intros Hgt. eapply dict_get_Some_key. apply (Htake Hgt).
  - split.
    + intros Hin.
      destruct (Hdr k Hin) as (b' & r0' & r1' & t' & c' & p' &
                               Hb' & Hres' & Hc' & Hp' & Hgt & Hlt).
      rewrite Hb in Hb'. injection Hb' as <-.
      rewrite Hres in Hres'. injection Hres' as <- <- <-.
      rewrite Hc in Hc'. injection Hc' as <-.
      rewrite Hp in Hp'. injection Hp' as <-. auto.
    + intros [Hgt Hlt]. auto.
Qed.

(** X6. When the evaluation of a tick completes, an open position is in
    the profit-take set exactly when its [pnl] is above 1000.0 and in the
    drop list exactly when its [pnl] is not above 1000.0 and below 99.0;
    its current price is recorded; no symbol is in both sets or twice in
    one, and [current_prices] has the keys of the store, in its order. *)
Theorem evaluate_marks_exactly
        (s : State Chain) (cp : dict float) (sw : dict address)
        (dr : list string) (s1 : State Chain) (ev1 : list Event)
        (k : string) (b : Buy) (r0 r1 t : Z) (c p : float) :
  dict_wf (buys s) ->
  evaluate W s = (Ok (cp, sw, dr), s1, ev1) ->
  dict_get k (buys s) = Some b ->
  getReserves W (chain s) (pair_address b) = (r0, r1, t) ->
  int_truediv r0 r1 = Ok c ->
  position_pnl c (price b) = Ok p ->
  dict_get k cp = Some c /\
  (In k (dict_keys sw) <-> gtb p f_1000 = true) /\
  (In k dr <-> gtb p f_1000 = false /\ ltb p f_99 = true) /\
  NoDup (dr ++ dict_keys sw) /\
  dict_keys cp = dict_keys (buys s).
Proof.
  intros Hwf Heval Hb Hres Hc Hp.
  destruct (evaluate_ok W _ _ _ _ _ _ Heval Hwf) as (_ & _ & _ & Hall).
  destruct (evaluate_only W _ _ _ _ _ _ Heval Hwf) as (_ & _ & _ & Hkeys).
  destruct (Hall k b Hb) as (r0' & r1' & t' & c' & p' &
                             Hres' & Hc' & Hcp & _).
  rewrite Hres in Hres'. injection Hres' as <- <- <-.
  rewrite Hc in Hc'. injection Hc' as <-.
  destruct (evaluate_verdict s cp sw dr s1 ev1 k b r0 r1 t c p
                             Hwf Heval Hb Hres Hc Hp) as [Htake Hdrop].
  split; [exact Hcp|]. split; [exact Htake|]. split; [exact Hdrop|].
  split; [|exact Hkeys].
  apply (marks_disjoint W s cp sw dr s1 ev1 Heval Hwf).
Qed.

(** X7. An open position whose pool has no counter-asset reserve, or
    whose entry price is zero, blocks the tick: [pnl] raises while it
    evaluates the positions, before anything is dropped or sold. The
    state is as before and no transaction is sent. *)
Theorem pnl_bad_position_blocks_tick
        (blk : Block) (s : State Chain) (k : string) (b : Buy)
        (r0 r1 t : Z) :
  dict_get k (buys s) = Some b ->
  getReserves W (chain s) (pair_address b) = (r0, r1, t) ->
  r1 = 0 \/ eqb (price b) zero = true ->
  exists e ev,
    pnl W blk s = (Raise e, s, ev) /\
    pops ev = [] /\
    filter is_transaction ev = [].
Proof.
  intros Hb Hres Hbad.
  assert (Hitem : In (k, (r0, r1, t)) (priced W s)).
  { unfold priced. apply dict_get_Some_In in Hb.
    apply (in_map (fun kv =>
                     (fst kv, getReserves W (chain s) (pair_address (snd kv)))))
      in Hb.
    simpl in Hb. rewrite Hres in Hb. exact Hb. }
  assert (Hbad' : r1 = 0 \/
                  exists b0, dict_get k (buys s) = Some b0 /\
                             eqb (price b0) zero = true)
    by (destruct Hbad; [auto | right; exists b; auto]).
  destruct (classify_raises (priced W s) ([], [], []) s k r0 r1 t
                            Hitem Hbad') as (e & ev & Hraise).
  assert (Heval : evaluate W s =
                  (Raise e, s,
                   EvRead (RMulticall
                             (map (fun kv => pair_address (snd kv)) (buys s)))
                          :: ev))
    by (rewrite evaluate_run, Hraise; reflexivity).
  destruct (evaluate_quiet W _ _ _ _ Heval) as [_ Hq].
  exists e. eexists. split; [|split].
  - unfold pnl. unfold bind at 1. unfold get_buys.
    destruct (List.length (buys s) =? 0)%nat eqn:Hlen.
    + apply length_zero_nil in Hlen. rewrite Hlen in Hb. discriminate.
    + unfold bind at 1. rewrite Heval. reflexivity.
  - now apply quiet_pops.
  - now apply quiet_filter.
Qed.

(** X8. A position whose [pnl] is neither above 1000.0 nor below 99.0
    -- a [pnl] that is not a number included -- is held: however the
    tick ends, the position is in the store afterwards, unchanged, and
    it was not popped. *)
Theorem pnl_holds_position_in_band
        (blk : Block) (s : State Chain) (k : string) (b : Buy)
        (r0 r1 t : Z) (c p : float)
        (r : pyresult (option (dict float))) (s' : State Chain)
        (ev : list Event) :
  dict_wf (buys s) ->
  dict_get k (buys s) = Some b ->
  getReserves W (chain s) (pair_address b) = (r0, r1, t) ->
  int_truediv r0 r1 = Ok c ->
  position_pnl c (price b) = Ok p ->
  gtb p f_1000 = false ->
  ltb p f_99 = false ->
  pnl W blk s = (r, s', ev) ->
  dict_get k (buys s') = Some b /\ ~ In k (pops ev).
Proof.
  intros Hwf Hb Hres Hc Hp Hgt Hlt Hrun.
  destruct (pnl_shape W blk s r s' ev Hwf Hrun)
    as [(Hempty & _)|[(_ & e & Heval & _ & ->)|
                      (_ & cp & sw & dr & ev1 & ev2 & done & rest &
                       Heval & -> & Hkeys & Hpops & Hstore & _)]].
  - rewrite Hempty in Hb. discriminate.
  - destruct (evaluate_quiet W _ _ _ _ Heval) as [_ Hq].
    split; [exact Hb|]. rewrite (quiet_pops _ Hq). intros [].
  - destruct (evaluate_quiet W _ _ _ _ Heval) as [_ Hq].
    destruct (evaluate_verdict s cp sw dr s ev1 k b r0 r1 t c p
                               Hwf Heval Hb Hres Hc Hp) as [Htake Hdrop].
    assert (Hndr : ~ In k dr) by (rewrite Hdrop; intros [_ H]; congruence).
    assert (Hnsw : ~ In k done).
    { intros Hin. assert (Hk : In k (dict_keys sw)).
      { unfold dict_keys. rewrite Hkeys. apply in_or_app. now left. }
      apply Htake in Hk. congruence. }
    split.
    + rewrite Hstore, !remove_all_other; assumption.
    + rewrite !pops_app, (quiet_pops _ Hq), pops_map_pop, Hpops. simpl.
      intros Hin. apply in_app_or in Hin. tauto.
Qed.

(** X9. However a tick ends, no symbol is popped twice from the store,
    every popped symbol was an open position at the start of the tick and
    is absent at its end, and every other symbol has the position it had:
    a tick only removes positions, it never adds or alters one. *)
Theorem pnl_only_removes_each_once
        (blk : Block) (s : State Chain)
        (r : pyresult (option (dict float))) (s' : State Chain)
        (ev : list Event) :
  dict_wf (buys s) ->
  pnl W blk s = (r, s', ev) ->
  NoDup (pops ev) /\
  buys s' = remove_all (pops ev) (buys s) /\
  (forall k, In k (pops ev) ->
     dict_get k (buys s) <> None /\ dict_get k (buys s') = None) /\
  (forall k, ~ In k (pops ev) ->
     dict_get k (buys s') = dict_get k (buys s)) /\
  dict_wf (buys s') /\
  (forall k b, ~ In (EvStoreSet k b) ev).
Proof.
  intros Hwf Hrun.
  assert (Hgoal : forall ks,
             NoDup ks -> pops ev = ks ->
             buys s' = remove_all ks (buys s) ->
             (forall k, In k ks -> dict_get k (buys s) <> None) ->
             (forall k b, ~ In (EvStoreSet k b) ev) ->
             NoDup (pops ev) /\
             buys s' = remove_all (pops ev) (buys s) /\
             (forall k, In k (pops ev) ->
                dict_get k (buys s) <> None /\
                dict_get k (buys s') = None) /\
             (forall k, ~ In k (pops ev) ->
                dict_get k (buys s') = dict_get k (buys s)) /\
             dict_wf (buys s') /\
             (forall k b, ~ In (EvStoreSet k b) ev)).
  { intros ks Hnd -> Hstore Hopen Hset. rewrite Hstore.
    split; [exact Hnd|]. split; [reflexivity|].
    split; [|split; [|split; [|exact Hset]]].
    - intros k Hk. split; [now apply Hopen|].
      now apply remove_all_removed.
    - intros k Hk. now apply remove_all_other.
    - now apply remove_all_wf. }
  destruct (pnl_shape W blk s r s' ev Hwf Hrun)
    as [(Hempty & _ & -> & ->)|[(_ & e & Heval & _ & ->)|
                      (_ & cp & sw & dr & ev1 & ev2 & done & rest &
                       Heval & -> & Hkeys & Hpops & Hstore & _ & _ & Htail)]].
  - apply (Hgoal []).
    + constructor.
    + reflexivity.
    + reflexivity.
    + intros k [].
    + intros k b [H|[]]. discriminate.
  - destruct (evaluate_quiet W _ _ _ _ Heval) as [_ Hq].
    apply (Hgoal []).
    + constructor.
    + now apply quiet_pops.
    + reflexivity.
    + intros k [].
    + intros k b Hin. rewrite Forall_forall in Hq. apply Hq in Hin.
      discriminate.
  - destruct (evaluate_quiet W _ _ _ _ Heval) as [_ Hq].
    pose proof (marks_disjoint W s cp sw dr s ev1 Heval Hwf) as Hnd.
    destruct (evaluate_ok W _ _ _ _ _ _ Heval Hwf) as (_ & _ & Hdrin & _).
    destruct (evaluate_only W _ _ _ _ _ _ Heval Hwf) as (_ & Hsw & _ & _).
    rewrite Hkeys, app_assoc in Hnd. apply NoDup_app_remove_r in Hnd.
    apply (Hgoal (dr ++ done)).
    + exact Hnd.
    + rewrite !pops_app, (quiet_pops _ Hq), pops_map_pop, Hpops.
      reflexivity.
    + rewrite Hstore. symmetry. apply remove_all_concat.
    + intros k Hk. apply in_app_or in Hk. destruct Hk as [Hk|Hk];
        [now apply Hdrin|].
      assert (Hin : In k (map fst sw))
        by (rewrite Hkeys; apply in_or_app; now left).
      destruct (dict_get k sw) as [tok|] eqn:Hget;
        [|apply dict_get_None in Hget; contradiction].
      destruct (Hsw k tok Hget) as (b & _ & _ & _ & _ & _ & Hb & _).
      congruence.
    + intros k b Hin. apply in_app_or in Hin. destruct Hin as [Hin|Hin].
      { rewrite Forall_forall in Hq. apply Hq in Hin. discriminate. }
      apply in_app_or in Hin. destruct Hin as [Hin|Hin].
      { apply in_map_iff in Hin. destruct Hin as (x & Hx & _).
        discriminate. }
      destruct (signer W) as [account|]; [destruct sw as [|item sw]|].
      * destruct Htail as [-> _]. destruct Hin.
      * rewrite Forall_forall in Htail. apply Htail in Hin. exact Hin.
      * destruct Htail as [-> _]. destruct Hin.
Qed.

End TickProperties.

Section ExitProperties.
Context {Chain : Type} (W : World Chain).

(** The events of the tail of a tick, traced back to the whole tick. *)
Lemma pnl_events blk (s : State Chain) r s' ev e :
  dict_wf (buys s) ->
  pnl W blk s = (r, s', ev) ->
  In e ev ->
  is_transaction e = true ->
  exists account, signer W = Some account /\
                  exit_event W blk account (buys s) e.
Proof.
  intros Hwf Hrun Hin Htx.
  destruct (pnl_shape W blk s r s' ev Hwf Hrun)
    as [(_ & _ & _ & ->)|[(_ & e0 & Heval & _ & _)|
                      (_ & cp & sw & dr & ev1 & ev2 & done & rest &
                       Heval & -> & _ & _ & _ & _ & _ & Htail)]].
  - destruct Hin as [<-|[]]. discriminate.
  - destruct (evaluate_quiet W _ _ _ _ Heval) as [_ Hq].
    rewrite Forall_forall in Hq. apply Hq in Hin.
    apply quiet_not_transaction in Hin. congruence.
  - destruct (evaluate_quiet W _ _ _ _ Heval) as [_ Hq].
    apply in_app_or in Hin. destruct Hin as [Hin|Hin].
    { rewrite Forall_forall in Hq. apply Hq in Hin.
      apply quiet_not_transaction in Hin. congruence. }
    apply in_app_or in Hin. destruct Hin as [Hin|Hin].
    { apply in_map_iff in Hin. destruct Hin as (x & <- & _).
      discriminate. }
    destruct (signer W) as [account|]; [destruct sw as [|item sw]|].
    + destruct Htail as [-> _]. destruct Hin.
    + exists account. split; [reflexivity|].
      rewrite Forall_forall in Htail. now apply Htail.
    + destruct Htail as [-> _]. destruct Hin.
Qed.

(** X10. However a tick ends, it submits at most one plan to the
    router, and only with a signer: sent by the signer without value, due
    120 seconds after the block's timestamp. The plan is a run of legs
    closed by the unwrap of the proceeds to the sender; each leg is the
    pair [approve_erc20(token, pair)], [v2_swap_exact_in(ADDRESS_THIS,
    amount, minimum, [token, WETH], True)] on the token and the pair of
    a position that was open when the tick started, and no position has
    two legs. *)
Theorem pnl_submits_one_exit_plan
        (blk : Block) (s : State Chain)
        (r : pyresult (option (dict float))) (s' : State Chain)
        (ev : list Event) :
  dict_wf (buys s) ->
  pnl W blk s = (r, s', ev) ->
  (List.length (submitted ev) <= 1)%nat /\
  forall p d a v res,
    In (EvExecute p d a v res) ev ->
    signer W = Some a /\ d = timestamp blk + 120 /\ v = 0 /\
    exists sold : list (string * ExitLeg),
      p = exit_plan W (map snd sold) /\
      NoDup (map fst sold) /\
      Forall (sells (buys s)) sold.
Proof.
  intros Hwf Hrun. split.
  - destruct (pnl_shape W blk s r s' ev Hwf Hrun)
      as [(_ & _ & _ & ->)|[(_ & e0 & Heval & _ & _)|
                        (_ & cp & sw & dr & ev1 & ev2 & done & rest &
                         Heval & -> & _ & _ & _ & _ & Hlen & _)]].
    + simpl. lia.
    + destruct (evaluate_quiet W _ _ _ _ Heval) as [_ Hq].
      rewrite (quiet_submitted _ Hq). simpl. lia.
    + destruct (evaluate_quiet W _ _ _ _ Heval) as [_ Hq].
      rewrite !submitted_app, (quiet_submitted _ Hq), submitted_map_pop.
      exact Hlen.
  - intros p d a v res Hin.
    destruct (pnl_events blk s r s' ev _ Hwf Hrun Hin eq_refl)
      as (account & Hmode & Hshape).
    simpl in Hshape. destruct Hshape as (-> & -> & -> & _).
    split; [exact Hmode|]. split; [reflexivity|]. split; [reflexivity|].
    exact (pnl_plans W blk s r s' ev p _ _ _ res Hwf Hrun Hin).
Qed.

(** X11. However a tick ends, every approval it sends is an unlimited
    one ([2**256 - 1]), granted to the router by the signer on the pool
    contract of a position that was open when the tick started. *)
Theorem pnl_approves_only_the_router
        (blk : Block) (s : State Chain)
        (r : pyresult (option (dict float))) (s' : State Chain)
        (ev : list Event)
        (token spender : address) (value : Z) (sender : address) :
  dict_wf (buys s) ->
  pnl W blk s = (r, s', ev) ->
  In (EvApprove token spender value sender) ev ->
  spender = router_contract W /\
  value = MAX_UINT256 /\
  signer W = Some sender /\
  exists k b, dict_get k (buys s) = Some b /\ token = pair_address b.
Proof.
  intros Hwf Hrun Hin.
  destruct (pnl_events blk s r s' ev _ Hwf Hrun Hin eq_refl)
    as (account & Hmode & Hshape).
  simpl in Hshape. destruct Hshape as (-> & -> & -> & Hpos). auto.
Qed.

(** X12. Once a tick has submitted its exit plan, every position marked
    for profit-take or for drop has left the store -- also when the
    submission fails and the tick raises: the positions are no longer
    tracked although they were not sold. *)
Theorem pnl_submission_forgets_positions
        (blk : Block) (s : State Chain)
        (cp : dict float) (sw : dict address) (dr : list string)
        (s1 : State Chain) (ev1 : list Event)
        (r : pyresult (option (dict float))) (s' : State Chain)
        (ev : list Event) :
  dict_wf (buys s) ->
  evaluate W s = (Ok (cp, sw, dr), s1, ev1) ->
  pnl W blk s = (r, s', ev) ->
  submitted ev <> [] ->
  forall k, In k dr \/ In k (dict_keys sw) -> dict_get k (buys s') = None.
Proof.
  intros Hwf Heval Hrun Hsub k Hk.
  destruct (pnl_shape W blk s r s' ev Hwf Hrun)
    as [(_ & _ & _ & ->)|[(_ & e0 & Heval' & _ & _)|
                      (_ & cp' & sw' & dr' & ev1' & ev2 & done & rest &
                       Heval' & -> & Hkeys & _ & Hstore & Hall & _)]].
  - exfalso. apply Hsub. reflexivity.
  - destruct (evaluate_quiet W _ _ _ _ Heval') as [_ Hq].
    exfalso. apply Hsub. now apply quiet_submitted.
  - destruct (evaluate_quiet W _ _ _ _ Heval') as [_ Hq].
    rewrite Heval in Heval'. injection Heval' as <- <- <- _ _.
    rewrite !submitted_app, (quiet_submitted _ Hq), submitted_map_pop in Hsub.
    simpl in Hsub. specialize (Hall Hsub). subst rest.
    rewrite app_nil_r in Hkeys. subst done.
    rewrite Hstore. destruct Hk as [Hk|Hk].
    + apply remove_all_get_None. now apply remove_all_removed.
    + apply remove_all_removed; [now apply remove_all_wf | exact Hk].
Qed.

(** X13. Without a signer a tick never sends a transaction and leaves
    the chain as it is, however it ends; its only chain read is the one
    batched read of the reserves. *)
Theorem pnl_monitoring_only_reads_reserves
        (blk : Block) (s : State Chain)
        (r : pyresult (option (dict float))) (s' : State Chain)
        (ev : list Event) :
  signer W = None ->
  dict_wf (buys s) ->
  pnl W blk s = (r, s', ev) ->
  filter is_transaction ev = [] /\
  chain s' = chain s /\
  (forall c, In (EvRead c) ev ->
     c = RMulticall (map (fun kv => pair_address (snd kv)) (buys s))) /\
  (List.length (filter (fun e => match e with EvRead _ => true | _ => false end)
                       ev) <= 1)%nat.
Proof.
  intros Hmode Hwf Hrun.
  assert (Hread : forall r0 s0 ev0,
             evaluate W s = (r0, s0, ev0) ->
             (forall c, In (EvRead c) ev0 ->
                c = RMulticall
                      (map (fun kv => pair_address (snd kv)) (buys s))) /\
             (List.length
                (filter (fun e => match e with EvRead _ => true | _ => false end)
                        ev0) <= 1)%nat).
  { intros r0 s0 ev0. rewrite evaluate_run.
    destruct (classify _ _ s) as [[r2 s2] ev2] eqn:E.
    intros [= <- <- <-]. apply classify_prints in E.
    rewrite Forall_forall in E. split.
    - intros c [H|H]; [congruence|].
      apply E in H. destruct H as (k & v & H). discriminate.
    - simpl.
      assert (Hnone : filter (fun e => match e with
                                       | EvRead _ => true
                                       | _ => false
                                       end) ev2 = []).
      { clear - E. induction ev2 as [|x l IH]; [reflexivity|]. simpl.
        destruct (E x (or_introl eq_refl)) as (k & v & ->).
        apply IH. intros y Hy. apply E. now right. }
      rewrite Hnone. simpl. lia. }
  destruct (pnl_shape W blk s r s' ev Hwf Hrun)
    as [(_ & _ & -> & ->)|[(_ & e0 & Heval & _ & ->)|
                      (_ & cp & sw & dr & ev1 & ev2 & done & rest &
                       Heval & -> & _ & _ & _ & _ & _ & Htail)]].
  - split; [reflexivity|]. split; [reflexivity|]. split.
    + intros c [H|[]]. discriminate.
    + simpl. lia.
  - destruct (evaluate_quiet W _ _ _ _ Heval) as [_ Hq].
    destruct (Hread _ _ _ Heval) as [Hr Hlen].
    split; [now apply quiet_filter|]. split; [reflexivity|]. auto.
  - destruct (evaluate_quiet W _ _ _ _ Heval) as [_ Hq].
    destruct (Hread _ _ _ Heval) as [Hr Hlen].
    rewrite Hmode in Htail. destruct Htail as (-> & _ & Hchain).
    rewrite app_nil_r.
    split; [|split; [exact Hchain|split]].
    + rewrite filter_app, (quiet_filter _ Hq), pops_filter. reflexivity.
    + intros c Hin. apply in_app_or in Hin. destruct Hin as [Hin|Hin];
        [auto|].
      apply in_map_iff in Hin. destruct Hin as (x & Hx & _). discriminate.
    + rewrite filter_app.
      assert (Hnone : filter (fun e => match e with
                                       | EvRead _ => true
                                       | _ => false
                                       end) (map EvStorePop dr) = [])
        by (clear; induction dr as [|a l IH]; [reflexivity | exact IH]).
      rewrite Hnone, app_nil_r. exact Hlen.
Qed.

(** X14. Without a signer, a tick that returns reports a price for every
    position that was open when it started -- the dropped ones included
    -- under the symbols of the store and in its order, each price being
    [reserve0 / reserve1] of the position's pool. *)
Theorem pnl_monitoring_reports_every_position
        (blk : Block) (s : State Chain)
        (out : option (dict float)) (s' : State Chain) (ev : list Event) :
  signer W = None ->
  dict_wf (buys s) ->
  buys s <> [] ->
  pnl W blk s = (Ok out, s', ev) ->
  exists prices,
    out = Some prices /\
    dict_keys prices = dict_keys (buys s) /\
    forall k b, dict_get k (buys s) = Some b ->
      exists r0 r1 t c,
        getReserves W (chain s) (pair_address b) = (r0, r1, t) /\
        int_truediv r0 r1 = Ok c /\
        dict_get k prices = Some c.
Proof.
  intros Hmode Hwf Hne Hrun.
  destruct (pnl_shape W blk s (Ok out) s' ev Hwf Hrun)
    as [(Hempty & _)|[(_ & e0 & _ & Habs & _)|
                      (_ & cp & sw & dr & ev1 & ev2 & done & rest &
                       Heval & _ & _ & _ & _ & _ & _ & Htail)]];
    [contradiction | discriminate |].
  rewrite Hmode in Htail. destruct Htail as (_ & Hout & _).
  injection Hout as ->.
  destruct (evaluate_ok W _ _ _ _ _ _ Heval Hwf) as (_ & _ & _ & Hall).
  destruct (evaluate_only W _ _ _ _ _ _ Heval Hwf) as (_ & _ & _ & Hkeys).
  exists cp. split; [reflexivity|]. split; [exact Hkeys|].
  intros k b Hb.
  destruct (Hall k b Hb) as (r0 & r1 & t & c & p & Hres & Hc & Hcp & _).
  exists r0, r1, t, c. auto.
Qed.

End ExitProperties.

(** ** [transfer_all_to_backup] *)

Section SweepProperties.
Context {Chain : Type} (W : World Chain).
Variable BACKUP : option address.
Variable erc20_transfer :
  Chain -> address -> address -> Z -> address -> pyresult unit * Chain.

(** X15. The sweep does nothing unless both a signer and a backup
    address are configured: without a signer it returns at once, in
    silence; with a signer but no backup address (unset or empty) it
    prints its warning and returns. Either way it reads nothing from the
    chain, transfers nothing and leaves the state as it is. *)
Theorem sweep_needs_signer_and_backup (s : State Chain) :
  signer W = None \/ unset BACKUP = true ->
  transfer_all_to_backup W BACKUP erc20_transfer s =
    (Ok tt, s,
     match signer W with
     | None => []
     | Some _ => [SwPrint LogNoBackup]
     end).
Proof.
  unfold transfer_all_to_backup. intros [Hmode|Hunset].
  - rewrite Hmode. reflexivity.
  - destruct (signer W) as [account|]; [|reflexivity].
    rewrite Hunset. reflexivity.
Qed.

Lemma subseq_nil_l {A : Type} (l : list A) : subseq [] l.
Proof. induction l; constructor; assumption. Qed.

(** The loop of the sweep, whatever its outcome. *)
Lemma sweep_all_spec account recipient items :
  forall c r c' ev,
    sweep_all W erc20_transfer account recipient items c = (r, c', ev) ->
    (exists swept,
        subseq swept items /\
        map fst (transfers ev) =
          map (fun kv => token_address (snd kv)) swept) /\
    (forall token to value sender sent,
       In (SwTransfer token to value sender sent) ev ->
       to = recipient /\ sender = account /\ value <> 0 /\
       (exists k b, In (k, b) items /\ token = token_address b) /\
       (forall e, sent = Raise e ->
          r = Raise e /\
          exists pre, ev = pre ++ [SwTransfer token to value sender sent])) /\
    ((forall k b, In (k, b) items ->
        erc20_balanceOf W c (token_address b) account = 0) ->
     r = Ok tt /\ c' = c /\
     ev = map (fun kv => SwRead (RBalanceOf (token_address (snd kv)) account))
              items).
Proof.
  induction items as [|[symbol b] rest IH]; intros c r c' ev; simpl.
  - intros [= <- <- <-].
    split; [exists []; split; [constructor | reflexivity]|].
    split; [|auto].
    intros token to value sender sent [].
  - destruct (erc20_balanceOf W c (token_address b) account =? 0) eqn:Hz.
    + destruct (sweep_all _ _ _ _ rest c) as [[r2 c2] ev2] eqn:E.
      intros [= <- <- <-]. apply IH in E.
      destruct E as ((swept & Hsub & Htok) & Hev & Hzero).
      split; [exists swept; split; [now apply subseq_skip | exact Htok]|].
      split.
      * intros token to value sender sent [H|He]; [discriminate|].
        destruct (Hev _ _ _ _ _ He)
          as (-> & -> & Hv & (k & b0 & Hin & ->) & Hfail).
        split; [reflexivity|]. split; [reflexivity|]. split; [exact Hv|].
        split; [exists k, b0; auto|].
        intros e He'. destruct (Hfail e He') as (-> & pre & ->).
        split; [reflexivity|]. eexists (_ :: pre). reflexivity.
      * intros Hall. destruct Hzero as (-> & -> & ->).
        { intros k b0 Hin. apply (Hall k b0). now right. }
        auto.
    + apply Z.eqb_neq in Hz.
      destruct (int_truediv _ _) as [qty|e].
      * destruct (erc20_transfer _ _ _ _ _) as [[[]|e] c1].
        -- destruct (sweep_all _ _ _ _ rest c1) as [[r2 c2] ev2] eqn:E.
           intros [= <- <- <-]. apply IH in E.
           destruct E as ((swept & Hsub & Htok) & Hev & _).
           split.
           { exists ((symbol, b) :: swept).
             split; [now apply subseq_take|].
             simpl. now rewrite Htok. }
           split.
           ++ intros token to value sender sent Hin. simpl in Hin.
              destruct Hin as [H|[H|[H|[H|He]]]]; try discriminate.
              ** injection H as <- <- <- <- <-.
                 split; [reflexivity|]. split; [reflexivity|].
                 split; [exact Hz|]. split; [exists symbol, b; auto|].
                 discriminate.
              ** destruct (Hev _ _ _ _ _ He)
                   as (-> & -> & Hv & (k & b0 & Hin & ->) & Hfail).
                 split; [reflexivity|]. split; [reflexivity|].
                 split; [exact Hv|]. split; [exists k, b0; auto|].
                 intros e He'. destruct (Hfail e He') as (-> & pre & ->).
                 split; [reflexivity|].
                 eexists (_ :: _ :: _ :: _ :: pre). reflexivity.
           ++ intros Hall. exfalso. apply Hz.
              apply (Hall symbol b). now left.
        -- intros [= <- <- <-]. split.
           { exists [(symbol, b)].
             split; [apply subseq_take, subseq_nil_l | reflexivity]. }
           split.
           ++ intros token to value sender sent Hin. simpl in Hin.
              destruct Hin as [H|[H|[H|[H|[]]]]]; try discriminate.
              injection H as <- <- <- <- <-.
              split; [reflexivity|]. split; [reflexivity|].
              split; [exact Hz|]. split; [exists symbol, b; auto|].
              intros e0 [= <-]. split; [reflexivity|].
              eexists [_; _; _]. reflexivity.
           ++ intros Hall. exfalso. apply Hz.
              apply (Hall symbol b). now left.
      * intros [= <- <- <-].
        split; [exists []; split; [apply subseq_nil_l | reflexivity]|].
        split.
        -- intros token to value sender sent [H|[H|[]]]; discriminate.
        -- intros Hall. exfalso. apply Hz.
           apply (Hall symbol b). now left.
Qed.

(** X16. However the sweep ends, it leaves the position store as it is
    (a swept position stays open) and sends at most one transfer per
    open position: the tokens it transfers are, in order, those of some
    of the store's positions, each taken at most once. Every transfer
    moves a non-zero amount of the token of an open position from the
    signer to the (non-empty) backup address. *)
Theorem sweep_transfers_only_to_backup
        (s : State Chain) (r : pyresult unit) (s' : State Chain)
        (ev : list SweepEvent) :
  transfer_all_to_backup W BACKUP erc20_transfer s = (r, s', ev) ->
  buys s' = buys s /\
  (exists swept,
      subseq swept (buys s) /\
      map fst (transfers ev) =
        map (fun kv => token_address (snd kv)) swept) /\
  forall token to value sender sent,
    In (SwTransfer token to value sender sent) ev ->
    BACKUP = Some to /\ to <> "" /\
    signer W = Some sender /\
    value <> 0 /\
    exists k b, In (k, b) (buys s) /\ token = token_address b.
Proof.
  unfold transfer_all_to_backup.
  destruct (signer W) as [account|].
  2:{ intros [= <- <- <-]. split; [reflexivity|].
      split; [exists []; split; [apply subseq_nil_l | reflexivity]|].
      intros token to value sender sent []. }
  destruct (unset BACKUP) eqn:Hunset.
  { intros [= <- <- <-]. split; [reflexivity|].
    split; [exists []; split; [apply subseq_nil_l | reflexivity]|].
    intros token to value sender sent [H|[]]. discriminate. }
  destruct BACKUP as [recipient|]; [|discriminate].
  simpl in Hunset. apply String.eqb_neq in Hunset.
  destruct (sweep_all _ _ _ _ _ _) as [[r2 c2] ev2] eqn:E.
  intros [= <- <- <-]. apply sweep_all_spec in E.
  destruct E as (Hsub & Hev & _).
  split; [reflexivity|]. split; [exact Hsub|].
  intros token to value sender sent Hin.
  destruct (Hev _ _ _ _ _ Hin) as (-> & -> & Hv & Hpos & _). auto.
Qed.

(** X17. A transfer that raises ends the sweep: the error is the
    outcome of the handler, the failed transfer is the last thing it
    did, and the positions after it in the store are not swept. *)
Theorem sweep_stops_at_failed_transfer
        (s : State Chain) (r : pyresult unit) (s' : State Chain)
        (ev : list SweepEvent)
        (token to : address) (value : Z) (sender : address) (e : exn) :
  transfer_all_to_backup W BACKUP erc20_transfer s = (r, s', ev) ->
  In (SwTransfer token to value sender (Raise e)) ev ->
  r = Raise e /\
  exists pre, ev = pre ++ [SwTransfer token to value sender (Raise e)].
Proof.
  unfold transfer_all_to_backup.
  destruct (signer W) as [account|].
  2:{ intros [= <- <- <-] []. }
  destruct (unset BACKUP).
  { intros [= <- <- <-] [H|[]]. discriminate. }
  destruct (sweep_all _ _ _ _ _ _) as [[r2 c2] ev2] eqn:E.
  intros [= <- <- <-] Hin. apply sweep_all_spec in E.
  destruct E as (_ & Hev & _).
  destruct (Hev _ _ _ _ _ Hin) as (_ & _ & _ & _ & Hfail).
  exact (Hfail e eq_refl).
Qed.

(** X18. When the signer holds nothing of the tokens of the open
    positions, the sweep completes without a transfer and leaves the
    state as it is: all it does is read one balance per position, in the
    order of the store. *)
Theorem sweep_without_balances_is_noop
        (s : State Chain) (account to : address) :
  signer W = Some account ->
  BACKUP = Some to ->
  to <> "" ->
  (forall k b, In (k, b) (buys s) ->
     erc20_balanceOf W (chain s) (token_address b) account = 0) ->
  transfer_all_to_backup W BACKUP erc20_transfer s =
    (Ok tt, s,
     map (fun kv => SwRead (RBalanceOf (token_address (snd kv)) account))
         (buys s)).
Proof.
  intros Hmode -> Hto Hzero. unfold transfer_all_to_backup.
  rewrite Hmode. simpl. apply String.eqb_neq in Hto. rewrite Hto.
  destruct (sweep_all _ _ _ _ _ _) as [[r2 c2] ev2] eqn:E.
  apply sweep_all_spec in E. destruct E as (_ & _ & Hnoop).
  destruct (Hnoop Hzero) as (-> & -> & ->).
  destruct s. reflexivity.
Qed.

End SweepProperties.

(** ** From start-up to the first tick *)

Section PaperTrading.
Context {Chain : Type} (W : World Chain).

Lemma int_truediv_finite (a b : Z) (x : float) :
  int_truediv a b = Ok x -> is_finite x = true.
Proof.
  unfold int_truediv.
  destruct (b =? 0); [discriminate|].
  destruct (a =? 0); [intros [= <-]; reflexivity|].
  destruct (SFdiv_core_binary _ _ _ _ _ _) as [[mz ez] lz].
  destruct (is_finite _) eqn:Hfin; [|discriminate].
  intros [= <-]. exact Hfin.
Qed.

(** The [pnl] of a position whose price has not moved is zero: neither a
    winner, nor spared from the drop. *)
Lemma position_pnl_unmoved (x : float) :
  is_finite x = true ->
  eqb x zero = false ->
  exists p,
    position_pnl x x = Ok p /\ gtb p f_1000 = false /\ ltb p f_99 = true.
Proof.
  destruct x as [sg| | |sg m e]; try discriminate.
  intros _ _. exists (S754_zero (xorb false sg)).
  unfold position_pnl, truediv, sub, SFsub.
  rewrite Z.min_id, Z.sub_diag. simpl binary_normalize.
  split; [destruct sg; reflexivity|].
  split; destruct sg; reflexivity.
Qed.

(** X19. Paper trading forgets what it buys. After start-up, without a
    signer, an entry on a pool with a non-zero spot price records the
    position at that spot price; a tick that finds the reserves as they
    were computes a [pnl] of zero, which is below 99.0: it drops the
    position, reports its price and leaves the store empty again. *)
Theorem paper_position_dropped_by_next_tick
        (log : PairCreated) (blk : Block) (s0 : State Chain)
        (reserve0 reserve1 ts : Z) (spot ratio : float) :
  signer W = None ->
  token0 log = WETH W ->
  getReserves W (chain s0) (pair log) = (reserve0, reserve1, ts) ->
  int_truediv reserve0 reserve1 = Ok spot ->
  eqb spot zero = false ->
  sentiment W (name_of W log s0) (symbol_of W log s0) = Ok ratio ->
  eqb ratio zero = false ->
  exists s1 ev1 ev2,
    buy W log (load_state s0) = (Ok None, s1, ev1) /\
    option_map price (dict_get (symbol_of W log s0) (buys s1)) = Some spot /\
    pnl W blk s1 =
      (Ok (Some [(symbol_of W log s0, spot)]), load_state s0, ev2) /\
    pops ev2 = [symbol_of W log s0] /\
    filter is_transaction (ev1 ++ ev2) = [].
Proof.
  unfold name_of, symbol_of, load_state.
  intros Hmode Hbase Hres Hspot Hnz Hscore Hratio.
  destruct (position_pnl_unmoved spot (int_truediv_finite _ _ _ Hspot) Hnz)
    as (p & Hp & Hgt & Hlt).
  set (symbol := erc20_symbol W (chain s0) (token1 log)) in *.
  set (b := mkBuy spot (pow10 (erc20_decimals W (chain s0) (token1 log)))
                  (utc_now W) (token1 log) (pair log)).
  exists (mkState [(symbol, b)] (chain s0)).
  assert (Hbuy : buy W log (mkState [] (chain s0)) =
                 (Ok None, mkState [(symbol, b)] (chain s0),
                  [EvRead (RSymbol (token1 log));
                   EvRead (RDecimals (token1 log));
                   EvRead (RGetReserves (pair log));
                   EvRead (RName (token1 log));
                   EvSentiment (erc20_name W (chain s0) (token1 log)) symbol;
                   EvStoreSet symbol b])).
  { subst symbol b. unfold buy. rewrite Hbase, String.eqb_refl. simpl.
    unfold bind, read, lift, ask_sentiment, store_set, ret.
    cbn [chain buys]. rewrite Hres, Hspot. cbn [chain buys].
    rewrite Hscore. simpl.
    rewrite Hratio, Hmode. reflexivity. }
  assert (Htick : pnl W blk (mkState [(symbol, b)] (chain s0)) =
                  (Ok (Some [(symbol, spot)]), mkState [] (chain s0),
                   [EvRead (RMulticall [pair log]);
                    EvPrint (LogPnl symbol (mul f_100 p));
                    EvStorePop symbol])).
  { subst symbol b. unfold pnl, evaluate. simpl.
    unfold bind, get_buys, read, lift, print, emit, ret; simpl.
    rewrite Hres. simpl.
    unfold bind, get_buys, read, lift, print, emit, ret; simpl.
    rewrite Hspot, String.eqb_refl. simpl. rewrite Hp. simpl.
    rewrite Hgt, Hlt. simpl.
    unfold store_pop, dict_pop, bind, ret. simpl.
    rewrite String.eqb_refl, Hmode. reflexivity. }
  eexists; eexists.
  split; [exact Hbuy|]. split; [simpl; now rewrite String.eqb_refl|].
  split; [exact Htick|]. split; reflexivity.
Qed.

End PaperTrading.

(** ** [buy] and the receipt of its swap *)

Section BuyReceipt.
Context {Chain : Type} (W : World Chain).

Lemma float_div_int_error (x : float) (n : Z) (e : exn) :
  float_div_int x n = Raise e ->
  e = ZeroDivisionError \/ e = OverflowError.
Proof.
  unfold float_div_int, of_int, truediv.
  destruct (is_finite _); [|intros [= <-]; auto].
  destruct (eqb _ zero); [intros [= <-]; auto | discriminate].
Qed.

(** Closes a leaf of [buy] that submitted nothing. *)
Ltac nothing_submitted :=
  let Hin := fresh "Hin" in
  intros Hin; simpl in Hin;
  repeat (destruct Hin as [Hin|Hin]; [discriminate|]); destruct Hin.

(** X20. [buy] never looks at the receipt of its swap. Once the router
    has returned one -- reverted or not -- the handler either fails on
    the arithmetic of the entry price or records the position, with the
    value it sent as amount and the tokens the signer then holds, per
    unit of value, as price, and returns that price: a swap that
    reverted is recorded like one that went through. *)
Theorem buy_records_whatever_the_receipt
        (log : PairCreated) (s : State Chain)
        (r : pyresult (option (dict float))) (s' : State Chain)
        (ev : list Event)
        (p : Plan) (deadline : Z) (sender : address) (value : Z)
        (rc : Receipt) :
  buy W log s = (r, s', ev) ->
  In (EvExecute p deadline sender value (Ok rc)) ev ->
  (r = Raise ZeroDivisionError \/ r = Raise OverflowError) \/
  exists qty buy_price,
    int_truediv (erc20_balanceOf W (chain s') (token1 log) sender)
                (pow10 (erc20_decimals W (chain s) (token1 log))) = Ok qty /\
    float_div_int qty value = Ok buy_price /\
    r = Ok (Some [(symbol_of W log s, buy_price)]) /\
    dict_get (symbol_of W log s) (buys s') =
      Some (mkBuy buy_price value (utc_now W) (token1 log) (pair log)).
Proof.
  unfold symbol_of, buy.
  destruct (negb (token0 log =? WETH W)%string).
  { intros [= <- <- <-]. nothing_submitted. }
  unfold bind, read, lift, ask_sentiment, store_set, execute, print, emit, ret;
    simpl.
  destruct (getReserves W (chain s) (pair log)) as [[reserve0 reserve1] ts].
  destruct (int_truediv reserve0 reserve1) as [spot|].
  2:{ intros [= <- <- <-]. nothing_submitted. }
  destruct (sentiment W _ _) as [ratio|].
  2:{ intros [= <- <- <-]. nothing_submitted. }
  simpl.
  destruct (eqb ratio zero).
  { intros [= <- <- <-]. nothing_submitted. }
  destruct (signer W) as [account|]; simpl.
  2:{ intros [= <- <- <-]. nothing_submitted. }
  destruct (float_mul_int ratio _) as [scaled|]; simpl.
  2:{ intros [= <- <- <-]. nothing_submitted. }
  destruct (to_int scaled) as [purchase_amount|]; simpl.
  2:{ intros [= <- <- <-]. nothing_submitted. }
  destruct (float_mul_int (mul f_0_995 spot) purchase_amount) as [fl|]; simpl.
  2:{ intros [= <- <- <-]. nothing_submitted. }
  destruct (to_int fl) as [amount_out_min|]; simpl.
  2:{ intros [= <- <- <-]. nothing_submitted. }
  destruct (router_execute W _ _ _ _ _) as [[rc0|e] c']; simpl.
  2:{ intros [= <- <- <-] Hin. simpl in Hin.
      repeat (destruct Hin as [Hin|Hin]; [discriminate|]). destruct Hin. }
  destruct (int_truediv _ _) as [qty|e] eqn:Hqty; simpl.
  2:{ intros [= <- <- <-] _. left.
      destruct (int_truediv_error _ _ _ Hqty) as [-> | ->]; auto. }
  destruct (float_div_int qty purchase_amount) as [buy_price|e] eqn:Hprice;
    simpl.
  2:{ intros [= <- <- <-] _. left.
      destruct (float_div_int_error _ _ _ Hprice) as [-> | ->]; auto. }
  intros [= <- <- <-] Hin. simpl in Hin.
  do 6 (destruct Hin as [Hin|Hin]; [discriminate|]).
  destruct Hin as [Hin|Hin].
  2:{ repeat (destruct Hin as [Hin|Hin]; [discriminate|]). destruct Hin. }
  injection Hin as <- <- <- <- <-.
  right. exists qty, buy_price. simpl.
  split; [exact Hqty|]. split; [exact Hprice|]. split; [reflexivity|].
  apply dict_get_set_same.
Qed.

End BuyReceipt.

(** ** The further properties on the concrete worlds *)

Lemma scenario_mixed_wf : dict_wf (buys Scenario.mixed).
Proof.
  unfold dict_wf. simpl.
  repeat constructor; simpl; intuition discriminate.
Defined.

Lemma scenario_blocked_wf : dict_wf (buys Scenario.blocked).
Proof.
  unfold dict_wf. simpl.
  repeat constructor; simpl; intuition discriminate.
Defined.

(** Finds an event in an explicit list. *)
Ltac find_event :=
  vm_compute; repeat (first [left; reflexivity | right]).

(** X1 on a model that cannot be reached. *)
Lemma buy_sentiment_error_propagates_witness :
  sentiment Scenario.unreachable "Meme Coin" "MEME" =
    Raise (CollaboratorError "overloaded") /\
  fst (fst (buy Scenario.unreachable Demo.created Demo.no_positions)) =
    Raise (CollaboratorError "overloaded").
Proof.
  split; [reflexivity|].
  rewrite (buy_sentiment_error_propagates
             Scenario.unreachable Demo.created Demo.no_positions
             100 50000 0 Demo.f_0_002 (CollaboratorError "overloaded")
             eq_refl eq_refl eq_refl eq_refl).
  reflexivity.
Defined.

(** X2 on a pool without reserves. *)
Lemma buy_empty_pool_raises_witness :
  getReserves Demo.monitoring (chain Demo.no_positions)
              (pair Scenario.created_dry) = (0, 0, 0) /\
  fst (fst (buy Demo.monitoring Scenario.created_dry Demo.no_positions)) =
    Raise ZeroDivisionError.
Proof.
  split; [reflexivity|].
  rewrite (buy_empty_pool_raises
             Demo.monitoring Scenario.created_dry Demo.no_positions 0 0
             eq_refl eq_refl).
  reflexivity.
Defined.

(** X3: an entry on ["MEME"] leaves the ["RUG"] position alone. *)
Lemma buy_writes_only_its_symbol_witness :
  dict_get "RUG"
    (buys (snd (fst (buy Demo.monitoring Demo.created Demo.rug_only)))) =
  dict_get "RUG" (buys Demo.rug_only).
Proof.
  assert (Hrun : buy Demo.monitoring Demo.created Demo.rug_only =
                 (fst (fst (buy Demo.monitoring Demo.created Demo.rug_only)),
                  snd (fst (buy Demo.monitoring Demo.created Demo.rug_only)),
                  snd (buy Demo.monitoring Demo.created Demo.rug_only)))
    by (vm_compute; reflexivity).
  apply (proj1 (buy_writes_only_its_symbol
                  Demo.monitoring Demo.created Demo.rug_only _ _ _ Hrun)).
  vm_compute. discriminate.
Defined.

(** X4 on the live entry. *)
Lemma buy_sends_at_most_one_swap_witness :
  (List.length (filter is_transaction (snd Demo.entry_live)) <= 1)%nat.
Proof.
  assert (Hrun : buy Demo.live Demo.created Demo.no_positions =
                 (fst (fst Demo.entry_live), snd (fst Demo.entry_live),
                  snd Demo.entry_live))
    by (vm_compute; reflexivity).
  exact (proj1 (buy_sends_at_most_one_swap
                  Demo.live Demo.created Demo.no_positions _ _ _ Hrun)).
Defined.

(** X5 on a signer who holds 5 wei: a tenth of it is no purchase. *)
Lemma buy_zero_purchase_records_nothing_witness :
  to_int (mul Demo.f_0_1 (S754_finite false 5 0)) = Ok 0 /\
  buys (snd (fst (buy Scenario.poor Demo.created Demo.no_positions))) = [].
Proof.
  assert (Hscaled : float_mul_int
                      Demo.f_0_1
                      (account_balance Scenario.poor
                                       (chain Demo.no_positions) "SIGNER") =
                    Ok (mul Demo.f_0_1 (S754_finite false 5 0)))
    by (vm_compute; reflexivity).
  assert (Hzero : to_int (mul Demo.f_0_1 (S754_finite false 5 0)) = Ok 0)
    by (vm_compute; reflexivity).
  assert (Hrun : buy Scenario.poor Demo.created Demo.no_positions =
                 (fst (fst (buy Scenario.poor Demo.created Demo.no_positions)),
                  snd (fst (buy Scenario.poor Demo.created Demo.no_positions)),
                  snd (buy Scenario.poor Demo.created Demo.no_positions)))
    by (vm_compute; reflexivity).
  split; [exact Hzero|].
  exact (proj1 (buy_zero_purchase_records_nothing
                  Scenario.poor Demo.created Demo.no_positions "SIGNER"
                  Demo.f_0_1 _ _ _ _ eq_refl eq_refl Hscaled Hzero Hrun)).
Defined.

(** X6 on the ["MOON"] position of the portfolio. *)
Lemma evaluate_marks_exactly_witness :
  gtb Demo.moon_pnl f_1000 = true /\
  In "MOON" (dict_keys [("MOON", "T_MOON"); ("GHOST", "T_EMPTY")]) /\
  ~ In "MOON" ["RUG"].
Proof.
  assert (Heval : evaluate Demo.live Demo.portfolio =
                  (Ok ([("MOON", Demo.f_2_2); ("RUG", Demo.f_0_00001);
                        ("GHOST", Demo.f_2_2)],
                       [("MOON", "T_MOON"); ("GHOST", "T_EMPTY")],
                       ["RUG"]),
                   snd (fst (evaluate Demo.live Demo.portfolio)),
                   snd (evaluate Demo.live Demo.portfolio)))
    by (vm_compute; reflexivity).
  assert (Hc : int_truediv 22 10 = Ok Demo.f_2_2)
    by (vm_compute; reflexivity).
  assert (Hp : position_pnl Demo.f_2_2
                 (price (Demo.position "T_MOON" "POOL_MOON")) =
               Ok Demo.moon_pnl) by (vm_compute; reflexivity).
  assert (Hgt : gtb Demo.moon_pnl f_1000 = true)
    by (vm_compute; reflexivity).
  destruct (evaluate_marks_exactly
              Demo.live Demo.portfolio _ _ _ _ _ "MOON"
              (Demo.position "T_MOON" "POOL_MOON") 22 10 0
              Demo.f_2_2 Demo.moon_pnl
              demo_portfolio_wf Heval eq_refl eq_refl Hc Hp)
    as (_ & Htake & Hdrop & _).
  split; [exact Hgt|]. split; [apply Htake; exact Hgt|].
  intros Hin. apply Hdrop in Hin. destruct Hin as [Hin _].
  rewrite Hgt in Hin. discriminate.
Defined.

(** X7 on a store that holds a position on the pool without reserves. *)
Lemma pnl_bad_position_blocks_tick_witness :
  exists e ev,
    pnl Demo.live Demo.block Scenario.blocked =
      (Raise e, Scenario.blocked, ev) /\
    pops ev = [] /\
    filter is_transaction ev = [].
Proof.
  exact (pnl_bad_position_blocks_tick
           Demo.live Demo.block Scenario.blocked "DRY"
           (Demo.position "T_DRY" "POOL_DRY") 0 0 0
           eq_refl eq_refl (or_introl eq_refl)).
Defined.

(** X8: the ["HOLD"] position, up 199 times, outlives a live tick that
    sells its winner and drops its loser. *)
Lemma pnl_holds_position_in_band_witness :
  position_pnl Demo.f_0_002 Demo.f_0_00001 = Ok Scenario.hold_pnl /\
  dict_keys (buys (snd (fst (pnl Demo.live Demo.block Scenario.mixed)))) =
    ["HOLD"] /\
  dict_get "HOLD"
    (buys (snd (fst (pnl Demo.live Demo.block Scenario.mixed)))) =
    Some Scenario.steady.
Proof.
  assert (Hc : int_truediv 100 50000 = Ok Demo.f_0_002)
    by (vm_compute; reflexivity).
  assert (Hp : position_pnl Demo.f_0_002 (price Scenario.steady) =
               Ok Scenario.hold_pnl) by (vm_compute; reflexivity).
  assert (Hgt : gtb Scenario.hold_pnl f_1000 = false)
    by (vm_compute; reflexivity).
  assert (Hlt : ltb Scenario.hold_pnl f_99 = false)
    by (vm_compute; reflexivity).
  assert (Hrun : pnl Demo.live Demo.block Scenario.mixed =
                 (fst (fst (pnl Demo.live Demo.block Scenario.mixed)),
                  snd (fst (pnl Demo.live Demo.block Scenario.mixed)),
                  snd (pnl Demo.live Demo.block Scenario.mixed)))
    by (vm_compute; reflexivity).
  split; [exact Hp|]. split; [vm_compute; reflexivity|].
  exact (proj1 (pnl_holds_position_in_band
                  Demo.live Demo.block Scenario.mixed "HOLD" Scenario.steady
                  100 50000 0 Demo.f_0_002 Scenario.hold_pnl _ _ _
                  scenario_mixed_wf eq_refl eq_refl Hc Hp Hgt Hlt Hrun)).
Defined.

(** X9 on the live tick of the portfolio. *)
Lemma pnl_only_removes_each_once_witness :
  NoDup (pops (snd Demo.tick_live)) /\
  buys (snd (fst Demo.tick_live)) =
    remove_all (pops (snd Demo.tick_live)) (buys Demo.portfolio).
Proof.
  assert (Hrun : pnl Demo.live Demo.block Demo.portfolio =
                 (fst (fst Demo.tick_live), snd (fst Demo.tick_live),
                  snd Demo.tick_live))
    by (vm_compute; reflexivity).
  destruct (pnl_only_removes_each_once
              Demo.live Demo.block Demo.portfolio _ _ _
              demo_portfolio_wf Hrun) as (Hnd & Hstore & _).
  split; assumption.
Defined.

(** X10 on the live tick of the portfolio. *)
Lemma pnl_submits_one_exit_plan_witness :
  (List.length (submitted (snd Demo.tick_live)) <= 1)%nat.
Proof.
  assert (Hrun : pnl Demo.live Demo.block Demo.portfolio =
                 (fst (fst Demo.tick_live), snd (fst Demo.tick_live),
                  snd Demo.tick_live))
    by (vm_compute; reflexivity).
  exact (proj1 (pnl_submits_one_exit_plan
                  Demo.live Demo.block Demo.portfolio _ _ _
                  demo_portfolio_wf Hrun)).
Defined.

(** X11: the approval the live tick sends for its winner. *)
Lemma pnl_approves_only_the_router_witness :
  In (EvApprove "POOL_MOON" "ROUTER" MAX_UINT256 "SIGNER")
     (snd Demo.tick_live) /\
  signer Demo.live = Some "SIGNER".
Proof.
  assert (Hrun : pnl Demo.live Demo.block Demo.portfolio =
                 (fst (fst Demo.tick_live), snd (fst Demo.tick_live),
                  snd Demo.tick_live))
    by (vm_compute; reflexivity).
  assert (Hin : In (EvApprove "POOL_MOON" "ROUTER" MAX_UINT256 "SIGNER")
                   (snd Demo.tick_live)) by find_event.
  split; [exact Hin|].
  exact (proj1 (proj2 (proj2 (pnl_approves_only_the_router
                                Demo.live Demo.block Demo.portfolio _ _ _
                                _ _ _ _ demo_portfolio_wf Hrun Hin)))).
Defined.

(** X12: the position skipped for want of a balance is forgotten all
    the same by the live tick. *)
Lemma pnl_submission_forgets_positions_witness :
  submitted (snd Demo.tick_live) <> [] /\
  dict_get "GHOST" (buys (snd (fst Demo.tick_live))) = None.
Proof.
  assert (Heval : evaluate Demo.live Demo.portfolio =
                  (Ok ([("MOON", Demo.f_2_2); ("RUG", Demo.f_0_00001);
                        ("GHOST", Demo.f_2_2)],
                       [("MOON", "T_MOON"); ("GHOST", "T_EMPTY")],
                       ["RUG"]),
                   snd (fst (evaluate Demo.live Demo.portfolio)),
                   snd (evaluate Demo.live Demo.portfolio)))
    by (vm_compute; reflexivity).
  assert (Hrun : pnl Demo.live Demo.block Demo.portfolio =
                 (fst (fst Demo.tick_live), snd (fst Demo.tick_live),
                  snd Demo.tick_live))
    by (vm_compute; reflexivity).
  assert (Hsub : submitted (snd Demo.tick_live) <> [])
    by (vm_compute; discriminate).
  split; [exact Hsub|].
  apply (pnl_submission_forgets_positions
           Demo.live Demo.block Demo.portfolio _ _ _ _ _ _ _ _
           demo_portfolio_wf Heval Hrun Hsub "GHOST").
  right. simpl. auto.
Defined.

(** X13 on a tick without signer. *)
Lemma pnl_monitoring_only_reads_reserves_witness :
  filter is_transaction
         (snd (pnl Demo.monitoring Demo.block Demo.portfolio)) = [] /\
  chain (snd (fst (pnl Demo.monitoring Demo.block Demo.portfolio))) =
    chain Demo.portfolio.
Proof.
  assert (Hrun : pnl Demo.monitoring Demo.block Demo.portfolio =
                 (fst (fst (pnl Demo.monitoring Demo.block Demo.portfolio)),
                  snd (fst (pnl Demo.monitoring Demo.block Demo.portfolio)),
                  snd (pnl Demo.monitoring Demo.block Demo.portfolio)))
    by (vm_compute; reflexivity).
  destruct (pnl_monitoring_only_reads_reserves
              Demo.monitoring Demo.block Demo.portfolio _ _ _
              eq_refl demo_portfolio_wf Hrun) as (Hnone & Hchain & _).
  split; assumption.
Defined.

(** X14 on a tick without signer: the dropped ["RUG"] is priced too. *)
Lemma pnl_monitoring_reports_every_position_witness :
  exists prices,
    Some [("MOON", Demo.f_2_2); ("RUG", Demo.f_0_00001);
          ("GHOST", Demo.f_2_2)] = Some prices /\
    dict_keys prices = dict_keys (buys Demo.portfolio) /\
    forall k b, dict_get k (buys Demo.portfolio) = Some b ->
      exists r0 r1 t c,
        getReserves Demo.monitoring (chain Demo.portfolio) (pair_address b) =
          (r0, r1, t) /\
        int_truediv r0 r1 = Ok c /\
        dict_get k prices = Some c.
Proof.
  assert (Hrun : pnl Demo.monitoring Demo.block Demo.portfolio =
                 (Ok (Some [("MOON", Demo.f_2_2); ("RUG", Demo.f_0_00001);
                            ("GHOST", Demo.f_2_2)]),
                  snd (fst (pnl Demo.monitoring Demo.block Demo.portfolio)),
                  snd (pnl Demo.monitoring Demo.block Demo.portfolio)))
    by (vm_compute; reflexivity).
  assert (Hne : buys Demo.portfolio <> []) by discriminate.
  exact (pnl_monitoring_reports_every_position
           Demo.monitoring Demo.block Demo.portfolio _ _ _
           eq_refl demo_portfolio_wf Hne Hrun).
Defined.

(** X15 with a signer and no backup address. *)
Lemma sweep_needs_signer_and_backup_witness :
  unset None = true /\
  transfer_all_to_backup Demo.live None Scenario.transfer Demo.portfolio =
    (Ok tt, Demo.portfolio, [SwPrint LogNoBackup]).
Proof.
  split; [reflexivity|].
  exact (sweep_needs_signer_and_backup
           Demo.live None Scenario.transfer Demo.portfolio
           (or_intror eq_refl)).
Defined.

(** X16 on the sweep of the portfolio. *)
Lemma sweep_transfers_only_to_backup_witness :
  buys (snd (fst (transfer_all_to_backup
                    Demo.live (Some "BACKUP") Scenario.transfer
                    Demo.portfolio))) = buys Demo.portfolio /\
  transfers (snd (transfer_all_to_backup
                    Demo.live (Some "BACKUP") Scenario.transfer
                    Demo.portfolio)) = [("T_MOON", 7)].
Proof.
  assert (Hrun : transfer_all_to_backup
                   Demo.live (Some "BACKUP") Scenario.transfer
                   Demo.portfolio =
                 (fst (fst (transfer_all_to_backup
                              Demo.live (Some "BACKUP") Scenario.transfer
                              Demo.portfolio)),
                  snd (fst (transfer_all_to_backup
                              Demo.live (Some "BACKUP") Scenario.transfer
                              Demo.portfolio)),
                  snd (transfer_all_to_backup
                         Demo.live (Some "BACKUP") Scenario.transfer
                         Demo.portfolio)))
    by (vm_compute; reflexivity).
  split; [|vm_compute; reflexivity].
  exact (proj1 (sweep_transfers_only_to_backup
                  Demo.live (Some "BACKUP") Scenario.transfer
                  Demo.portfolio _ _ _ Hrun)).
Defined.

(** X17 on a token whose transfers revert. *)
Lemma sweep_stops_at_failed_transfer_witness :
  fst (fst (transfer_all_to_backup
              Demo.live (Some "BACKUP")
              (fun c _ _ _ _ => (Raise (TransactionError "reverted"), c))
              Demo.portfolio)) = Raise (TransactionError "reverted").
Proof.
  assert (Hrun : transfer_all_to_backup
                   Demo.live (Some "BACKUP")
                   (fun c _ _ _ _ => (Raise (TransactionError "reverted"), c))
                   Demo.portfolio =
                 (fst (fst (transfer_all_to_backup
                              Demo.live (Some "BACKUP")
                              (fun c _ _ _ _ =>
                                 (Raise (TransactionError "reverted"), c))
                              Demo.portfolio)),
                  snd (fst (transfer_all_to_backup
                              Demo.live (Some "BACKUP")
                              (fun c _ _ _ _ =>
                                 (Raise (TransactionError "reverted"), c))
                              Demo.portfolio)),
                  snd (transfer_all_to_backup
                         Demo.live (Some "BACKUP")
                         (fun c _ _ _ _ =>
                            (Raise (TransactionError "reverted"), c))
                         Demo.portfolio)))
    by (vm_compute; reflexivity).
  assert (Hin : In (SwTransfer "T_MOON" "BACKUP" 7 "SIGNER"
                               (Raise (TransactionError "reverted")))
                   (snd (transfer_all_to_backup
                           Demo.live (Some "BACKUP")
                           (fun c _ _ _ _ =>
                              (Raise (TransactionError "reverted"), c))
                           Demo.portfolio))) by find_event.
  exact (proj1 (sweep_stops_at_failed_transfer
                  Demo.live (Some "BACKUP")
                  (fun c _ _ _ _ => (Raise (TransactionError "reverted"), c))
                  Demo.portfolio _ _ _ _ _ _ _ _ Hrun Hin)).
Defined.

(** X18 on a signer who holds nothing. *)
Lemma sweep_without_balances_is_noop_witness :
  transfer_all_to_backup Scenario.poor (Some "BACKUP") Scenario.transfer
                         Scenario.swept =
    (Ok tt, Scenario.swept,
     [SwRead (RBalanceOf "T_MOON" "SIGNER");
      SwRead (RBalanceOf "T_RUG" "SIGNER");
      SwRead (RBalanceOf "T_EMPTY" "SIGNER")]).
Proof.
  assert (Hto : "BACKUP"%string <> ""%string) by discriminate.
  exact (sweep_without_balances_is_noop
           Scenario.poor (Some "BACKUP") Scenario.transfer Scenario.swept
           "SIGNER" "BACKUP" eq_refl eq_refl Hto
           (fun _ _ _ => eq_refl)).
Defined.

(** X19 on the pool of the concrete world. *)
Lemma paper_position_dropped_by_next_tick_witness :
  exists s1 ev1 ev2,
    buy Demo.monitoring Demo.created (load_state Demo.no_positions) =
      (Ok None, s1, ev1) /\
    option_map price (dict_get "MEME" (buys s1)) = Some Demo.f_0_002 /\
    pnl Demo.monitoring Demo.block s1 =
      (Ok (Some [("MEME", Demo.f_0_002)]), load_state Demo.no_positions,
       ev2) /\
    pops ev2 = ["MEME"] /\
    filter is_transaction (ev1 ++ ev2) = [].
Proof.
  assert (Hspot : int_truediv 100 50000 = Ok Demo.f_0_002)
    by (vm_compute; reflexivity).
  exact (paper_position_dropped_by_next_tick
           Demo.monitoring Demo.created Demo.block Demo.no_positions
           100 50000 0 Demo.f_0_002 Demo.f_0_1
           eq_refl eq_refl eq_refl Hspot eq_refl eq_refl eq_refl).
Defined.

(** X20: the swap reverts, the signer holds no token, and the position
    is recorded all the same, at a price of zero. *)
Lemma buy_records_whatever_the_receipt_witness :
  failed Demo.reverted = true /\
  fst (fst (buy Demo.live_reverting Demo.created Demo.no_positions)) =
    Ok (Some [("MEME", zero)]) /\
  ((fst (fst (buy Demo.live_reverting Demo.created Demo.no_positions)) =
      Raise ZeroDivisionError \/
    fst (fst (buy Demo.live_reverting Demo.created Demo.no_positions)) =
      Raise OverflowError) \/
   exists qty buy_price,
     int_truediv
       (erc20_balanceOf
          Demo.live_reverting
          (chain (snd (fst (buy Demo.live_reverting Demo.created
                                Demo.no_positions))))
          "T_MEME" "SIGNER")
       (pow10 18) = Ok qty /\
     float_div_int qty Demo.purchase = Ok buy_price /\
     fst (fst (buy Demo.live_reverting Demo.created Demo.no_positions)) =
       Ok (Some [("MEME", buy_price)]) /\
     dict_get "MEME"
       (buys (snd (fst (buy Demo.live_reverting Demo.created
                            Demo.no_positions)))) =
       Some (mkBuy buy_price Demo.purchase 1700000000 "T_MEME" "POOL")).
Proof.
  assert (Hrun : buy Demo.live_reverting Demo.created Demo.no_positions =
                 (fst (fst (buy Demo.live_reverting Demo.created
                                Demo.no_positions)),
                  snd (fst (buy Demo.live_reverting Demo.created
                                Demo.no_positions)),
                  snd (buy Demo.live_reverting Demo.created
                           Demo.no_positions)))
    by (vm_compute; reflexivity).
  assert (Hin : In (EvExecute
                      [WRAP_ETH ADDRESS_THIS Demo.purchase;
                       V2_SWAP_EXACT_IN MSG_SENDER Demo.purchase
                                        1990000000000000
                                        ["WETH"; "T_MEME"] false]
                      1700000120 "SIGNER" Demo.purchase (Ok Demo.reverted))
                   (snd (buy Demo.live_reverting Demo.created
                             Demo.no_positions))) by find_event.
  split; [reflexivity|]. split; [vm_compute; reflexivity|].
  exact (buy_records_whatever_the_receipt
           Demo.live_reverting Demo.created Demo.no_positions _ _ _
           _ _ _ _ _ Hrun Hin).
Defined.
